(** * Kubernetes AIOps Evidence Graph: verification of the incident pipeline

    A shallow embedding of the decision logic of the platform
    (ingestion fingerprinting, rules engine, ranker, blast radius,
    policy gate, verifier, metrics post-processing), followed by the
    theorems that settle the properties of the specification.

    Conventions of the embedding.
    - Python [dict]s used as maps (labels, node conditions) are
      [gmap string _], Python [set]s of strings are [gset string];
      dictionaries with a fixed set of keys are records, an optional key
      an [option]; decoded JSON keeps its members in a list.
    - Python [str] is [string]; a Rocq string is a sequence of bytes, so
      [str.encode()] (UTF-8) is the identity on the byte sequence.
    - Python [float] arithmetic on finite values is modelled by exact
      rational arithmetic ([Q]); where the source looks at the special
      values (infinities, NaN) the type [PyFloat.t] carries them.
    - Code that can raise returns a sum or an [outcome]. *)

From Stdlib Require Import ZArith QArith Qround Qminmax String Ascii List Lia Lqa Bool
  Sorted DecimalString DecimalZ DecimalPos.
From stdpp Require Import base gmap strings list.
Import ListNotations.

Local Open Scope string_scope.
Local Open Scope Z_scope.
Local Open Scope list_scope.

(* ===================================================================== *)
(** * Part I: the embedding *)
(* ===================================================================== *)

(** ** SHA-256 (FIPS 180-4), the digest behind [hashlib.sha256] *)

Module Sha256.

Definition add32 (x y : Z) : Z := (x + y) mod 2 ^ 32.

Definition rotr (n x : Z) : Z :=
  Z.lor (Z.shiftr x n) (Z.shiftl x (32 - n) mod 2 ^ 32).

Definition not32 (x : Z) : Z := Z.lxor x (2 ^ 32 - 1).

Definition ch (x y z : Z) : Z :=
  Z.lxor (Z.land x y) (Z.land (not32 x) z).

Definition maj (x y z : Z) : Z :=
  Z.lxor (Z.lxor (Z.land x y) (Z.land x z)) (Z.land y z).

Definition big_sigma0 (x : Z) : Z :=
  Z.lxor (Z.lxor (rotr 2 x) (rotr 13 x)) (rotr 22 x).

Definition big_sigma1 (x : Z) : Z :=
  Z.lxor (Z.lxor (rotr 6 x) (rotr 11 x)) (rotr 25 x).

Definition small_sigma0 (x : Z) : Z :=
  Z.lxor (Z.lxor (rotr 7 x) (rotr 18 x)) (Z.shiftr x 3).

Definition small_sigma1 (x : Z) : Z :=
  Z.lxor (Z.lxor (rotr 17 x) (rotr 19 x)) (Z.shiftr x 10).

(** The round constants are the first 32 bits of the fractional parts of
    the cube roots of the first 64 primes, the initial hash value those
    of the square roots of the first 8 primes. *)
Definition primes64 : list Z :=
  [2; 3; 5; 7; 11; 13; 17; 19; 23; 29; 31; 37; 41; 43; 47; 53;
   59; 61; 67; 71; 73; 79; 83; 89; 97; 101; 103; 107; 109; 113; 127; 131;
   137; 139; 149; 151; 157; 163; 167; 173; 179; 181; 191; 193; 197; 199;
   211; 223; 227; 229; 233; 239; 241; 251; 257; 263; 269; 271; 277; 281;
   283; 293; 307; 311].

(** Integer cube root by binary search on the bits of the result. *)
Fixpoint icbrt_bits (bits : nat) (n r : Z) : Z :=
  match bits with
  | O => r
  | S b =>
      let c := r + 2 ^ Z.of_nat b in
      icbrt_bits b n (if c * c * c <=? n then c else r)
  end.

Definition icbrt (n : Z) : Z := icbrt_bits 40 n 0.

Definition round_constants : list Z :=
  Eval vm_compute in
    List.map (fun p => icbrt (p * 2 ^ 96) mod 2 ^ 32) primes64.

Definition initial_hash : list Z :=
  Eval vm_compute in
    List.map (fun p => Z.sqrt (p * 2 ^ 64) mod 2 ^ 32) (firstn 8 primes64).

(** Big-endian encoding of [x] on [n] bytes. *)
Fixpoint be_bytes (n : nat) (x : Z) : list Z :=
  match n with
  | O => []
  | S k => (Z.shiftr x (8 * Z.of_nat k)) mod 256 :: be_bytes k x
  end.

Definition pad (msg : list Z) : list Z :=
  let len := Z.of_nat (List.length msg) in
  let zeros := Z.to_nat ((55 - len) mod 64) in
  msg ++ [128] ++ List.repeat 0 zeros ++ be_bytes 8 (8 * len).

Fixpoint words_of_bytes (n : nat) (bs : list Z) : list Z :=
  match n with
  | O => []
  | S k =>
      match bs with
      | b0 :: b1 :: b2 :: b3 :: rest =>
          (((b0 * 256 + b1) * 256 + b2) * 256 + b3) :: words_of_bytes k rest
      | _ => []
      end
  end.

(** Message schedule: starting from the 16 words of the block, each new
    word is computed from the window of the 16 previous ones. *)
Fixpoint schedule (n : nat) (window : list Z) : list Z :=
  match n with
  | O => []
  | S k =>
      let w i := nth i window 0 in
      let next :=
        add32 (add32 (small_sigma1 (w 14%nat)) (w 9%nat))
              (add32 (small_sigma0 (w 1%nat)) (w 0%nat)) in
      next :: schedule k (List.tl window ++ [next])
  end.

Record regs := Regs { ra : Z; rb : Z; rc : Z; rd : Z;
                      re : Z; rf : Z; rg : Z; rh : Z }.

Definition round (s : regs) (kw : Z * Z) : regs :=
  let t1 :=
    add32 (add32 (add32 (rh s) (big_sigma1 (re s)))
                 (add32 (ch (re s) (rf s) (rg s)) (fst kw)))
          (snd kw) in
  let t2 := add32 (big_sigma0 (ra s)) (maj (ra s) (rb s) (rc s)) in
  Regs (add32 t1 t2) (ra s) (rb s) (rc s) (add32 (rd s) t1) (re s) (rf s) (rg s).

Definition regs_of_list (h : list Z) : regs :=
  let g i := nth i h 0 in
  Regs (g 0%nat) (g 1%nat) (g 2%nat) (g 3%nat)
       (g 4%nat) (g 5%nat) (g 6%nat) (g 7%nat).

Definition list_of_regs (s : regs) : list Z :=
  [ra s; rb s; rc s; rd s; re s; rf s; rg s; rh s].

Definition compress (h : list Z) (block : list Z) : list Z :=
  let w16 := words_of_bytes 16 block in
  let w := w16 ++ schedule 48 w16 in
  let s := List.fold_left round (List.combine round_constants w) (regs_of_list h) in
  List.map (fun p => add32 (fst p) (snd p)) (List.combine h (list_of_regs s)).

Fixpoint blocks (n : nat) (bs : list Z) (h : list Z) : list Z :=
  match n with
  | O => h
  | S k => blocks k (skipn 64 bs) (compress h (firstn 64 bs))
  end.

Definition digest_words (msg : list Z) : list Z :=
  let p := pad msg in
  blocks (List.length p / 64) p initial_hash.

Definition hex_digit (d : Z) : ascii :=
  if d <? 10 then ascii_of_nat (Z.to_nat (48 + d))
  else ascii_of_nat (Z.to_nat (87 + d)).

Fixpoint hex_of_word (n : nat) (x : Z) : string :=
  match n with
  | O => EmptyString
  | S k => String (hex_digit (Z.shiftr x (4 * Z.of_nat k) mod 16)) (hex_of_word k x)
  end.

Definition bytes_of_string (s : string) : list Z :=
  List.map (fun c => Z.of_nat (nat_of_ascii c)) (list_ascii_of_string s).

(** [hashlib.sha256(s.encode()).hexdigest()] *)
Definition hexdigest (s : string) : string :=
  List.fold_right (fun w acc => hex_of_word 8 w +:+ acc) ""
    (digest_words (bytes_of_string s)).

End Sha256.

(** ** Python helpers shared by the components *)

Module Py.

(** ASCII lower-casing, the model of [str.lower()] (the configuration
    and label values the platform lower-cases are ASCII words). *)
Definition lower_ascii (c : ascii) : ascii :=
  let n := nat_of_ascii c in
  if ((65 <=? n) && (n <=? 90))%nat then ascii_of_nat (n + 32) else c.

Fixpoint lower (s : string) : string :=
  match s with
  | EmptyString => EmptyString
  | String c r => String (lower_ascii c) (lower r)
  end.

(** Truthiness of an optional string ([None] and [""] are falsy). *)
Definition truthy_str (o : option string) : bool :=
  match o with
  | Some s => negb (String.eqb s "")
  | None => false
  end.

(** [a or b] on optional strings: the first operand when truthy, else
    the second operand, whatever it is. *)
Definition or_str (a b : option string) : option string :=
  if truthy_str a then a else b.

(** [o or d] where [d] is a string literal. *)
Definition or_default (o : option string) (d : string) : string :=
  match o with
  | Some s => if String.eqb s "" then d else s
  | None => d
  end.

(** [s1 in s2] on strings. *)
Fixpoint contains (needle hay : string) : bool :=
  String.prefix needle hay
  || match hay with
     | EmptyString => false
     | String _ r => contains needle r
     end.

(** [round(x, ndigits)]: nearest multiple of [10^-ndigits], ties to the
    even one. (On binary floats a decimal tie is hardly ever exact; the
    properties below do not depend on how ties fall.) *)
Definition round_half_even (q : Q) : Z :=
  let f := Qfloor q in
  match (q - inject_Z f ?= 1 # 2)%Q with
  | Lt => f
  | Gt => f + 1
  | Eq => if Z.even f then f else f + 1
  end.

Definition round (q : Q) (ndigits : nat) : Q :=
  (inject_Z (round_half_even (q * inject_Z (10 ^ Z.of_nat ndigits)))
   / inject_Z (10 ^ Z.of_nat ndigits))%Q.

Definition Qltb (x y : Q) : bool := negb (Qle_bool y x).

(** [min(a, b)]: [b] only when it is strictly smaller. *)
Definition min (a b : Q) : Q := if Qltb b a then b else a.

(** [list.sort(key=..., reverse=True)]: descending and stable, elements
    with equal keys keep their relative order. *)
Section Sort.
Context {A : Type} (key : A -> Q).

Fixpoint insert_desc (x : A) (l : list A) : list A :=
  match l with
  | [] => [x]
  | y :: r =>
      if Qltb (key x) (key y) then y :: insert_desc x r else x :: y :: r
  end.

Fixpoint sort_desc (l : list A) : list A :=
  match l with
  | [] => []
  | x :: r => insert_desc x (sort_desc r)
  end.

(** [list.sort(key=...)]: ascending and stable. *)
Fixpoint insert_asc (x : A) (l : list A) : list A :=
  match l with
  | [] => [x]
  | y :: r =>
      if Qltb (key y) (key x) then y :: insert_asc x r else x :: y :: r
  end.

Fixpoint sort_asc (l : list A) : list A :=
  match l with
  | [] => []
  | x :: r => insert_asc x (sort_asc r)
  end.
End Sort.

(** The double quote character, for the query texts. *)
Definition dq : string := String (ascii_of_nat 34) EmptyString.

End Py.

(** ** Python floats with their special values *)

Module PyFloat.

Inductive t := Finite (q : Q) | PosInf | NegInf | NaN.

(** [x < y], [x <= y], [x == y]: every comparison with NaN is false. *)
Definition ltb (x y : t) : bool :=
  match x, y with
  | NaN, _ | _, NaN => false
  | Finite a, Finite b => Py.Qltb a b
  | NegInf, NegInf => false
  | NegInf, _ => true
  | _, NegInf => false
  | PosInf, _ => false
  | Finite _, PosInf => true
  end.

Definition eqb (x y : t) : bool :=
  match x, y with
  | Finite a, Finite b => Qeq_bool a b
  | PosInf, PosInf | NegInf, NegInf => true
  | _, _ => false
  end.

Definition leb (x y : t) : bool := ltb x y || eqb x y.

Definition neb (x y : t) : bool := negb (eqb x y).

Definition add (x y : t) : t :=
  match x, y with
  | NaN, _ | _, NaN => NaN
  | PosInf, NegInf | NegInf, PosInf => NaN
  | PosInf, _ | _, PosInf => PosInf
  | NegInf, _ | _, NegInf => NegInf
  | Finite a, Finite b => Finite (a + b)
  end.

Definition div_nat (x : t) (n : nat) : t :=
  match x with
  | Finite a => Finite (a / inject_Z (Z.of_nat n))
  | other => other
  end.

(** *** [float(s)] on the textual forms a metrics store emits

    Surrounding whitespace, an optional sign, then [inf], [infinity] or
    [nan] in any letter case, or a decimal numeral with optional
    fraction and exponent. A finite numeral denotes its exact value,
    except that magnitudes at or beyond the binary64 rounding threshold
    [2^1024 - 2^970] become infinities. [None] stands for [ValueError]. *)

Definition is_space (c : ascii) : bool :=
  let n := nat_of_ascii c in
  ((n =? 32) || ((9 <=? n) && (n <=? 13)))%nat.

Fixpoint lstrip (l : list ascii) : list ascii :=
  match l with
  | c :: r => if is_space c then lstrip r else l
  | [] => []
  end.

Definition strip (l : list ascii) : list ascii :=
  List.rev (lstrip (List.rev (lstrip l))).

Definition digit_of (c : ascii) : option Z :=
  let n := nat_of_ascii c in
  if ((48 <=? n) && (n <=? 57))%nat then Some (Z.of_nat n - 48) else None.

Definition is_char (c : ascii) (n : nat) : bool := (nat_of_ascii c =? n)%nat.

(** Reads a maximal run of digits: value, number of digits, remainder. *)
Fixpoint digits (l : list ascii) (acc : Z) (count : nat) : Z * nat * list ascii :=
  match l with
  | c :: r =>
      match digit_of c with
      | Some d => digits r (acc * 10 + d) (S count)
      | None =>
          (* a single underscore may separate two digits *)
          match r with
          | c2 :: _ =>
              if is_char c 95 && (0 <? count)%nat && bool_decide (is_Some (digit_of c2))
              then digits r acc count
              else (acc, count, l)
          | [] => (acc, count, l)
          end
      end
  | [] => (acc, count, [])
  end.

Definition sign_of (l : list ascii) : bool * list ascii :=
  match l with
  | c :: r =>
      if is_char c 45 then (true, r)
      else if is_char c 43 then (false, r)
      else (false, l)
  | [] => (false, [])
  end.

Definition exponent (l : list ascii) : option Z :=
  match l with
  | [] => Some 0
  | c :: r =>
      if is_char c 101 || is_char c 69 then
        let '(neg, r1) := sign_of r in
        match digits r1 0 0 with
        | (_, O, _) => None
        | (e, _, []) => Some (if neg then - e else e)
        | _ => None
        end
      else None
  end.

Definition pow10 (e : Z) : Q :=
  if 0 <=? e then inject_Z (10 ^ e) else (1 / inject_Z (10 ^ (- e)))%Q.

Definition overflow_threshold : Q := inject_Z (2 ^ 1024 - 2 ^ 970).

Definition decimal (neg : bool) (l : list ascii) : option t :=
  let '(ip, ni, r1) := digits l 0 0 in
  let '(fp, nf, r2) :=
    match r1 with
    | c :: r => if is_char c 46 then digits r 0 0 else (0, O, r1)
    | [] => (0, O, [])
    end in
  if (ni + nf =? 0)%nat then None
  else
    match exponent r2 with
    | None => None
    | Some e =>
        let mag :=
          (inject_Z (ip * 10 ^ Z.of_nat nf + fp) * pow10 (e - Z.of_nat nf))%Q in
        if Qle_bool overflow_threshold mag
        then Some (if neg then NegInf else PosInf)
        else Some (Finite (if neg then - mag else mag))
    end.

Definition of_string (s : string) : option t :=
  let body := strip (list_ascii_of_string s) in
  let '(neg, r) := sign_of body in
  let word := Py.lower (string_of_list_ascii r) in
  if String.eqb word "inf" || String.eqb word "infinity"
  then Some (if neg then NegInf else PosInf)
  else if String.eqb word "nan" then Some NaN
  else decimal neg r.

End PyFloat.

(** ** Ingestion: alert normalisation and the deduplication fingerprint
    ([src/services/ingestion/normalizer.py]) *)

Module Normalizer.

Inductive IncidentSeverity := CRITICAL | HIGH | MEDIUM | LOW | INFO.
Inductive IncidentSource := ALERTMANAGER | GRAFANA | PROMETHEUS.

(** One entry of the [alerts] array. [alertname_field] is the top-level
    ["alertname"] key that Grafana alerts may carry. *)
Record alert := Alert {
  labels : gmap string string;
  annotations : gmap string string;
  alertname_field : option string
}.

(** The webhook payload around the alerts. *)
Record payload := Payload {
  commonLabels : gmap string string;
  commonAnnotations : gmap string string
}.

(** [IncidentCreate]; [started_at] depends on the wall clock and is left
    out. *)
Record IncidentCreate := {
  fingerprint : string;
  title : string;
  description : string;
  severity : IncidentSeverity;
  source : IncidentSource;
  cluster : string;
  namespace : string;
  service : option string;
  inc_labels : gmap string string;
  inc_annotations : gmap string string
}.

Definition get_or (m : gmap string string) (k d : string) : string :=
  default d (m !! k).

Definition SEVERITY_MAP (s : string) : option IncidentSeverity :=
  if String.eqb s "critical" then Some CRITICAL
  else if String.eqb s "high" then Some HIGH
  else if String.eqb s "warning" then Some MEDIUM
  else if String.eqb s "info" then Some INFO
  else if String.eqb s "low" then Some LOW
  else if String.eqb s "alerting" then Some HIGH
  else if String.eqb s "error" then Some HIGH
  else if String.eqb s "warn" then Some MEDIUM
  else None.

Definition severity_of (lbls : gmap string string) : IncidentSeverity :=
  default MEDIUM (SEVERITY_MAP (Py.lower (get_or lbls "severity" "warning"))).

(** [_generate_fingerprint] *)
Definition _generate_fingerprint (source alertname namespace service : string)
  : string :=
  let key := source +:+ ":" +:+ alertname +:+ ":" +:+ namespace +:+ ":" +:+ service in
  String.substring 0 32 (Sha256.hexdigest key).

Definition normalize_alertmanager (a : alert) (p : payload) : IncidentCreate :=
  let lbls := labels a in
  let anns := annotations a in
  let alertname := get_or lbls "alertname" "Unknown Alert" in
  let namespace := get_or lbls "namespace" "default" in
  let cluster :=
    Py.or_default (Py.or_str (lbls !! "cluster") (lbls !! "kubernetes_cluster"))
      "default-cluster" in
  let service :=
    Py.or_str (Py.or_str (lbls !! "service") (lbls !! "job")) (lbls !! "deployment") in
  let pod := lbls !! "pod" in
  let title :=
    if Py.truthy_str pod then alertname +:+ ": " +:+ default "" pod
    else if Py.truthy_str service then alertname +:+ ": " +:+ default "" service
    else alertname in
  let description :=
    Py.or_default (Py.or_str (anns !! "description") (anns !! "summary")) "" in
  let fingerprint :=
    _generate_fingerprint "alertmanager" alertname namespace
      (Py.or_default (Py.or_str service pod) "") in
  {| fingerprint := fingerprint; title := title; description := description;
     severity := severity_of lbls; source := ALERTMANAGER; cluster := cluster;
     namespace := namespace; service := service;
     inc_labels := lbls; inc_annotations := anns |}.

Definition normalize_grafana (a : alert) (p : payload) : IncidentCreate :=
  (* {**common, **own}: the alert's own entries win *)
  let lbls := labels a ∪ commonLabels p in
  let anns := annotations a ∪ commonAnnotations p in
  let alertname :=
    if Py.truthy_str (lbls !! "alertname") then default "" (lbls !! "alertname")
    else default "Grafana Alert" (alertname_field a) in
  let namespace := get_or lbls "namespace" "default" in
  let cluster := get_or lbls "cluster" "default-cluster" in
  let service := Py.or_str (lbls !! "service") (lbls !! "grafana_folder") in
  let title :=
    if Py.truthy_str (anns !! "summary") then default "" (anns !! "summary")
    else alertname in
  let description := get_or anns "description" "" in
  let fingerprint :=
    _generate_fingerprint "grafana" alertname namespace (Py.or_default service "") in
  {| fingerprint := fingerprint; title := title; description := description;
     severity := severity_of lbls; source := GRAFANA; cluster := cluster;
     namespace := namespace; service := service;
     inc_labels := lbls; inc_annotations := anns |}.

Definition normalize_prometheus (a : alert) : IncidentCreate :=
  let lbls := labels a in
  let anns := annotations a in
  let alertname := get_or lbls "alertname" "Prometheus Alert" in
  let namespace := get_or lbls "namespace" "default" in
  let cluster := get_or lbls "cluster" "default-cluster" in
  let service := Py.or_str (lbls !! "service") (lbls !! "instance") in
  let fingerprint :=
    _generate_fingerprint "prometheus" alertname namespace (Py.or_default service "") in
  {| fingerprint := fingerprint; title := alertname;
     description := get_or anns "description" "";
     severity := severity_of lbls; source := PROMETHEUS; cluster := cluster;
     namespace := namespace; service := service;
     inc_labels := lbls; inc_annotations := anns |}.

(** The alert name each normaliser feeds to the fingerprint. *)
Definition alertname_of (src : IncidentSource) (a : alert) (p : payload) : string :=
  match src with
  | ALERTMANAGER => get_or (labels a) "alertname" "Unknown Alert"
  | GRAFANA =>
      let lbls := labels a ∪ commonLabels p in
      if Py.truthy_str (lbls !! "alertname") then default "" (lbls !! "alertname")
      else default "Grafana Alert" (alertname_field a)
  | PROMETHEUS => get_or (labels a) "alertname" "Prometheus Alert"
  end.

Definition normalize (src : IncidentSource) (a : alert) (p : payload)
  : IncidentCreate :=
  match src with
  | ALERTMANAGER => normalize_alertmanager a p
  | GRAFANA => normalize_grafana a p
  | PROMETHEUS => normalize_prometheus a
  end.

(** [IncidentSource.value] *)
Definition source_value (src : IncidentSource) : string :=
  match src with
  | ALERTMANAGER => "alertmanager"
  | GRAFANA => "grafana"
  | PROMETHEUS => "prometheus"
  end.

End Normalizer.

(** ** The hypothesis dictionary exchanged between rules engine and ranker *)

Module HypothesisDict.

(** The keys the ranker reads with [dict.get] are optional; ["rank"] and
    ["final_score"] are (re)written by the ranker. *)
Record t := Make {
  id : string;
  incident_id : string;
  category : option string;
  title : string;
  description : string;
  confidence : option Q;
  rank : option Z;
  supporting_evidence_ids : list (option string);
  recommended_actions : list string;
  generated_by : string;
  rule_id : string;
  support_count : option Z;
  signal_strength : option Q;
  final_score : option Q
}.

Definition set_final_score (h : t) (s : Q) : t :=
  Make (id h) (incident_id h) (category h) (title h) (description h)
       (confidence h) (rank h) (supporting_evidence_ids h)
       (recommended_actions h) (generated_by h) (rule_id h)
       (support_count h) (signal_strength h) (Some s).

Definition set_rank (h : t) (r : Z) : t :=
  Make (id h) (incident_id h) (category h) (title h) (description h)
       (confidence h) (Some r) (supporting_evidence_ids h)
       (recommended_actions h) (generated_by h) (rule_id h)
       (support_count h) (signal_strength h) (final_score h).

End HypothesisDict.

(** ** Rules engine ([src/services/rca/rules_engine.py]) *)

Module RulesEngine.

Inductive HypothesisCategory :=
| RESOURCE_EXHAUSTION | BAD_DEPLOYMENT | CONFIGURATION_ERROR
| DEPENDENCY_FAILURE | INFRASTRUCTURE_ISSUE | NETWORK_ISSUE
| SCALING_ISSUE | SECURITY_ISSUE | EXTERNAL_DEPENDENCY | DATA_ISSUE
| UNKNOWN.

(** [HypothesisCategory.value] *)
Definition category_value (c : HypothesisCategory) : string :=
  match c with
  | RESOURCE_EXHAUSTION => "resource_exhaustion"
  | BAD_DEPLOYMENT => "bad_deployment"
  | CONFIGURATION_ERROR => "configuration_error"
  | DEPENDENCY_FAILURE => "dependency_failure"
  | INFRASTRUCTURE_ISSUE => "infrastructure_issue"
  | NETWORK_ISSUE => "network_issue"
  | SCALING_ISSUE => "scaling_issue"
  | SECURITY_ISSUE => "security_issue"
  | EXTERNAL_DEPENDENCY => "external_dependency"
  | DATA_ISSUE => "data_issue"
  | UNKNOWN => "unknown"
  end.

(** A condition of a rule. The engine reads ["type"], ["values"] and
    ["patterns"] only; the other keys of the catalog entries
    (within_minutes, threshold, threshold_ms, duration_seconds, value,
    conditions) are never consulted. A missing list is the empty list,
    as with [condition.get("values", [])]. *)
Record condition := Condition {
  cond_type : string;
  cond_values : list string;
  cond_patterns : list string
}.

Record rule := Rule {
  rule_ident : string;
  rule_name : string;
  rule_conditions : list condition;
  rule_category : HypothesisCategory;
  rule_hypothesis : string;
  rule_description : string;
  confidence_base : Q;
  rule_actions : list string
}.

Definition cond (ty : string) : condition := Condition ty [] [].

Definition DIAGNOSIS_RULES : list rule :=
  [ Rule "crashloop_recent_deploy" "Bad Deployment - CrashLoop"
      [Condition "waiting_reason" ["CrashLoopBackOff"] []; cond "recent_deploy"]
      BAD_DEPLOYMENT
      "Recent deployment caused application crash"
      "The application started crash looping immediately after a deployment. The new code or configuration likely contains a bug that prevents startup."
      (90 # 100)
      ["rollback_deployment"; "Check application logs for startup errors";
       "Review recent code changes in the deployment"];
    Rule "crashloop_no_change" "Runtime Error - CrashLoop"
      [Condition "waiting_reason" ["CrashLoopBackOff"] []; cond "no_recent_deploy"]
      EXTERNAL_DEPENDENCY
      "Application crashing due to external dependency or data issue"
      "The application is crash looping but there were no recent deployments. This suggests an issue with external dependencies, database state, or corrupted data."
      (75 # 100)
      ["restart_pod"; "Check external service connectivity";
       "Verify database connections";
       "Review application logs for dependency errors"];
    Rule "oom_killed" "Memory Exhaustion"
      [Condition "terminated_reason" ["OOMKilled"] []]
      RESOURCE_EXHAUSTION
      "Container killed due to memory limit exceeded"
      "The container was terminated because it exceeded its memory limit. This could be a memory leak, insufficient limits, or a sudden spike in memory usage."
      (95 # 100)
      ["Increase memory limits if appropriate";
       "Check for memory leaks in application";
       "Review memory usage patterns"; "restart_deployment"];
    Rule "oom_high_memory" "Memory Pressure"
      [cond "memory_usage_high"]
      RESOURCE_EXHAUSTION
      "Container approaching memory limit"
      "The container is using over 90% of its memory limit and is at risk of OOMKill. Memory limits may be too low or there's a memory leak."
      (80 # 100)
      ["Increase memory limits"; "Investigate memory usage patterns";
       "Check for memory leaks"];
    Rule "image_pull_failure" "Image Pull Error"
      [Condition "waiting_reason"
         ["ImagePullBackOff"; "ErrImagePull"; "ImageInspectError"] []]
      CONFIGURATION_ERROR
      "Failed to pull container image"
      "The container cannot start because the image cannot be pulled. This could be due to incorrect image tag, registry authentication issues, or network problems."
      (95 # 100)
      ["Verify image tag exists in registry";
       "Check imagePullSecrets configuration";
       "Verify registry authentication";
       "Check network connectivity to registry"];
    Rule "node_failure_isolated" "Node-Specific Issue"
      [cond "multiple_pods_same_node"; cond "node_unhealthy"]
      INFRASTRUCTURE_ISSUE
      "Failures isolated to problematic node"
      "Multiple pods are failing and they're all on the same node which has unhealthy conditions. The node infrastructure is the likely root cause."
      (85 # 100)
      ["cordon_node"; "Migrate pods to healthy nodes";
       "Investigate node health"; "Check node resource usage"];
    Rule "hpa_maxed" "Scaling Limit Reached"
      [cond "hpa_at_max"; cond "latency_high"]
      SCALING_ISSUE
      "HPA at maximum capacity with high latency"
      "The Horizontal Pod Autoscaler is at maximum replicas but latency remains high. The service needs more capacity than currently configured."
      (80 # 100)
      ["scale_replicas"; "Increase HPA max replicas";
       "Review resource requests/limits"; "Consider adding nodes to cluster"];
    Rule "readiness_probe_failing" "Readiness Probe Failure"
      [cond "pod_not_ready"; cond "readiness_probe_failing"]
      DEPENDENCY_FAILURE
      "Pods failing readiness probe"
      "Pods are not becoming ready because the readiness probe is failing. This usually indicates the application cannot serve traffic due to dependency issues."
      (75 # 100)
      ["Check application health endpoints"; "Verify database connections";
       "Check external service dependencies"; "Review probe configuration"];
    Rule "config_error" "Configuration Error"
      [Condition "terminated_reason"
         ["ContainerCannotRun"; "CreateContainerConfigError"] []]
      CONFIGURATION_ERROR
      "Container configuration error"
      "The container cannot run due to a configuration issue such as missing volumes, invalid environment variables, or security context problems."
      (90 # 100)
      ["Check ConfigMap and Secret references"; "Verify volume mounts";
       "Review container security context";
       "Check environment variable configurations"];
    Rule "network_error" "Network Connectivity Issue"
      [Condition "log_pattern" []
         ["connection refused"; "connection reset"; "timeout"];
       cond "network_errors_high"]
      NETWORK_ISSUE
      "Network connectivity problems"
      "The application is experiencing network connectivity issues. This could be DNS problems, service mesh issues, or network policy restrictions."
      (70 # 100)
      ["Check DNS resolution"; "Verify network policies";
       "Check service mesh configuration";
       "Test connectivity to external services"] ].

(** The [data] payload of an evidence item, restricted to the keys the
    engine reads, with the types the collectors give them. An absent key
    is [None] (or the falsy value where the engine only tests
    truthiness). A payload of another shape (a [current_value] that is
    null, a restart count that is text) makes the engine raise before
    any hypothesis exists. *)
Record evidence_data := EvidenceData {
  waiting_reason : option string;
  terminated_reason : option string;
  data_restart_count : option Z;
  is_recent_change : bool;
  image_changed : bool;
  patterns_found : list string;
  data_error_count : option Z;
  query_name : option string;
  is_anomalous : bool;
  current_value : option Q;
  node_name : option string;
  node_conditions : gmap string (gmap string string)
}.

Definition empty_data : evidence_data :=
  EvidenceData None None None false false [] None None false None None ∅.

Record evidence := Evidence {
  ev_id : option string;
  evidence_type : option string;
  data : evidence_data
}.

Record signals := Signals {
  waiting_reasons : gset string;
  terminated_reasons : gset string;
  log_patterns : gset string;
  has_recent_deploy : bool;
  has_image_change : bool;
  memory_usage_high : bool;
  cpu_throttling : bool;
  hpa_at_max : bool;
  node_issues : gmap (option string) (gmap string (gmap string string));
  restart_count : Z;
  error_count : Z;
  latency_high : bool;
  evidence_ids : list (option string)
}.

Definition _init_signals : signals :=
  Signals ∅ ∅ ∅ false false false false false ∅ 0 0 false [].

Definition _process_pod_evidence (d : evidence_data) (s : signals) : signals :=
  let wr := if Py.truthy_str (waiting_reason d)
            then {[ default "" (waiting_reason d) ]} ∪ waiting_reasons s
            else waiting_reasons s in
  let tr := if Py.truthy_str (terminated_reason d)
            then {[ default "" (terminated_reason d) ]} ∪ terminated_reasons s
            else terminated_reasons s in
  Signals wr tr (log_patterns s) (has_recent_deploy s) (has_image_change s)
    (memory_usage_high s) (cpu_throttling s) (hpa_at_max s) (node_issues s)
    (Z.max (restart_count s) (default 0 (data_restart_count d)))
    (error_count s) (latency_high s) (evidence_ids s).

Definition _process_deploy_evidence (d : evidence_data) (s : signals) : signals :=
  Signals (waiting_reasons s) (terminated_reasons s) (log_patterns s)
    (if is_recent_change d then true else has_recent_deploy s)
    (has_image_change s) (memory_usage_high s) (cpu_throttling s)
    (hpa_at_max s) (node_issues s) (restart_count s) (error_count s)
    (latency_high s) (evidence_ids s).

Definition _process_image_evidence (d : evidence_data) (s : signals) : signals :=
  Signals (waiting_reasons s) (terminated_reasons s) (log_patterns s)
    (has_recent_deploy s)
    (if image_changed d then true else has_image_change s)
    (memory_usage_high s) (cpu_throttling s)
    (hpa_at_max s) (node_issues s) (restart_count s) (error_count s)
    (latency_high s) (evidence_ids s).

Definition _process_log_evidence (d : evidence_data) (s : signals) : signals :=
  Signals (waiting_reasons s) (terminated_reasons s)
    (List.fold_left (fun acc p => {[ p ]} ∪ acc) (patterns_found d) (log_patterns s))
    (has_recent_deploy s) (has_image_change s) (memory_usage_high s)
    (cpu_throttling s) (hpa_at_max s) (node_issues s) (restart_count s)
    (error_count s + default 0 (data_error_count d))
    (latency_high s) (evidence_ids s).

Definition _process_metric_evidence (d : evidence_data) (s : signals) : signals :=
  let qn := default "" (query_name d) in
  let mem :=
    if Py.contains "memory" qn && is_anomalous d
    then match current_value d with
         | Some c => if negb (Qeq_bool c 0) && Py.Qltb 90 c then true
                     else memory_usage_high s
         | None => memory_usage_high s
         end
    else memory_usage_high s in
  let hpa :=
    if Py.contains "hpa" qn && Py.contains "max" qn
       && match current_value d with Some c => Qeq_bool c 1 | None => false end
    then true else hpa_at_max s in
  let lat :=
    if Py.contains "latency" qn && Py.Qltb 1 (default 0%Q (current_value d))
    then true else latency_high s in
  Signals (waiting_reasons s) (terminated_reasons s) (log_patterns s)
    (has_recent_deploy s) (has_image_change s) mem (cpu_throttling s)
    hpa (node_issues s) (restart_count s) (error_count s) lat (evidence_ids s).

Definition _process_node_evidence (d : evidence_data) (s : signals) : signals :=
  let ready_status := default ∅ (node_conditions d !! "Ready") !! "status" in
  let issues :=
    if bool_decide (ready_status ≠ Some "True")
    then <[ node_name d := node_conditions d ]> (node_issues s)
    else node_issues s in
  Signals (waiting_reasons s) (terminated_reasons s) (log_patterns s)
    (has_recent_deploy s) (has_image_change s) (memory_usage_high s)
    (cpu_throttling s) (hpa_at_max s) issues (restart_count s)
    (error_count s) (latency_high s) (evidence_ids s).

Definition append_evidence_id (i : option string) (s : signals) : signals :=
  Signals (waiting_reasons s) (terminated_reasons s) (log_patterns s)
    (has_recent_deploy s) (has_image_change s) (memory_usage_high s)
    (cpu_throttling s) (hpa_at_max s) (node_issues s) (restart_count s)
    (error_count s) (latency_high s) (evidence_ids s ++ [i]).

(** The [processors] table of [_process_evidence_item]. *)
Definition processors (ty : string)
  : option (evidence_data -> signals -> signals) :=
  if String.eqb ty "kubernetes_pod" then Some _process_pod_evidence
  else if String.eqb ty "deploy_change" then Some _process_deploy_evidence
  else if String.eqb ty "image_change" then Some _process_image_evidence
  else if String.eqb ty "log_signal" then Some _process_log_evidence
  else if String.eqb ty "metric_signal" then Some _process_metric_evidence
  else if String.eqb ty "kubernetes_node" then Some _process_node_evidence
  else None.

Definition _process_evidence_item (ev : evidence) (s : signals) : signals :=
  let s1 := append_evidence_id (ev_id ev) s in
  match evidence_type ev ≫= processors with
  | Some processor => processor (data ev) s1
  | None => s1
  end.

Definition _extract_signals (evs : list evidence) : signals :=
  List.fold_left (fun s ev => _process_evidence_item ev s) evs _init_signals.

Record check_result := CheckResult { check_matched : bool; strength : Q }.

Definition intersects (s : gset string) (l : list string) : bool :=
  bool_decide (s ∩ list_to_set l ≠ ∅).

(** The [checks] table of [_check_condition]: predicate and strength. *)
Definition checks (c : condition) (s : signals) : option (bool * Q) :=
  let ty := cond_type c in
  if String.eqb ty "waiting_reason"
  then Some (intersects (waiting_reasons s) (cond_values c), 9 # 10)
  else if String.eqb ty "terminated_reason"
  then Some (intersects (terminated_reasons s) (cond_values c), 9 # 10)
  else if String.eqb ty "recent_deploy" then Some (has_recent_deploy s, 8 # 10)
  else if String.eqb ty "no_recent_deploy"
  then Some (negb (has_recent_deploy s), 6 # 10)
  else if String.eqb ty "memory_usage_high"
  then Some (memory_usage_high s, 85 # 100)
  else if String.eqb ty "hpa_at_max" then Some (hpa_at_max s, 75 # 100)
  else if String.eqb ty "latency_high" then Some (latency_high s, 7 # 10)
  else if String.eqb ty "log_pattern"
  then Some (intersects (log_patterns s) (cond_patterns c), 65 # 100)
  else if String.eqb ty "node_unhealthy"
  then Some (bool_decide (node_issues s ≠ ∅), 8 # 10)
  else None.

Definition _check_condition (c : condition) (s : signals) : check_result :=
  match checks c s with
  | Some (true, st) => CheckResult true st
  | _ => CheckResult false 0
  end.

Record match_result := MatchResult {
  matched : bool;
  match_count : Z;
  match_evidence_ids : list (option string);
  evidence_strength : Q
}.

(** The loop of [_match_rule]: count and accumulated strength. *)
Definition match_loop (conds : list condition) (s : signals) : Z * Q :=
  List.fold_left
    (fun acc c =>
       let r := _check_condition c s in
       if check_matched r then (fst acc + 1, (snd acc + strength r)%Q) else acc)
    conds (0, 0%Q).

Definition _match_rule (r : rule) (s : signals) : match_result :=
  let total_conditions := Z.of_nat (List.length (rule_conditions r)) in
  let '(matched_conditions, strength_sum) := match_loop (rule_conditions r) s in
  MatchResult
    ((matched_conditions =? total_conditions) && (0 <? total_conditions))
    matched_conditions
    (firstn 5 (evidence_ids s))
    (strength_sum / inject_Z (Z.max total_conditions 1))%Q.

Definition _calculate_confidence (base_confidence : Q) (match_count : Z)
    (evidence_strength : Q) : Q :=
  let confidence := (base_confidence * (6 # 10) + evidence_strength * (4 # 10))%Q in
  let confidence :=
    if 2 <? match_count then Py.min (confidence * (11 # 10)) (99 # 100)
    else confidence in
  Py.round confidence 3.

(** [uuid4()] draws from a source of randomness; [uuid] is the value
    drawn for the hypothesis. *)
Definition _create_hypothesis (uuid incident : string) (r : rule)
    (m : match_result) : HypothesisDict.t :=
  let confidence :=
    _calculate_confidence (confidence_base r) (match_count m) (evidence_strength m) in
  {| HypothesisDict.id := uuid;
     HypothesisDict.incident_id := incident;
     HypothesisDict.category := Some (category_value (rule_category r));
     HypothesisDict.title := rule_name r;
     HypothesisDict.description := rule_description r;
     HypothesisDict.confidence := Some confidence;
     HypothesisDict.rank := Some 0;
     HypothesisDict.supporting_evidence_ids := match_evidence_ids m;
     HypothesisDict.recommended_actions := rule_actions r;
     HypothesisDict.generated_by := "rules_engine";
     HypothesisDict.rule_id := rule_ident r;
     HypothesisDict.support_count := Some (match_count m);
     HypothesisDict.signal_strength := Some (evidence_strength m);
     HypothesisDict.final_score := None |}.

Definition generic_actions : list string :=
  ["Review application logs"; "Check recent deployments";
   "Verify external dependencies"; "Escalate to engineering team"].

Definition _create_unknown_hypothesis (uuid incident : string) (s : signals)
  : HypothesisDict.t :=
  {| HypothesisDict.id := uuid;
     HypothesisDict.incident_id := incident;
     HypothesisDict.category := Some (category_value UNKNOWN);
     HypothesisDict.title := "Unknown Issue";
     HypothesisDict.description :=
       "No specific pattern matched. Manual investigation required.";
     HypothesisDict.confidence := Some (3 # 10);
     HypothesisDict.rank := Some 1;
     HypothesisDict.supporting_evidence_ids := firstn 5 (evidence_ids s);
     HypothesisDict.recommended_actions := generic_actions;
     HypothesisDict.generated_by := "rules_engine";
     HypothesisDict.rule_id := "unknown";
     HypothesisDict.support_count := Some 0;
     HypothesisDict.signal_strength := Some 0%Q;
     HypothesisDict.final_score := None |}.

(** The loop over the rules: [uuids] is the stream of values [uuid4()]
    returns, [n] the number of draws made so far. *)
Fixpoint rules_loop (uuids : nat -> string) (incident : string)
    (rules : list rule) (s : signals) (n : nat) : list HypothesisDict.t * nat :=
  match rules with
  | [] => ([], n)
  | r :: rest =>
      let m := _match_rule r s in
      if matched m
      then let '(hs, n') := rules_loop uuids incident rest s (S n) in
           (_create_hypothesis (uuids n) incident r m :: hs, n')
      else rules_loop uuids incident rest s n
  end.

Definition confidence_key (h : HypothesisDict.t) : Q :=
  default 0%Q (HypothesisDict.confidence h).

(** [generate_hypotheses] of an engine whose [rules] attribute is
    [rules]. *)
Definition generate_hypotheses_with (rules : list rule) (uuids : nat -> string)
    (incident : string) (evs : list evidence) : list HypothesisDict.t :=
  let s := _extract_signals evs in
  let '(hypotheses, n) := rules_loop uuids incident rules s 0 in
  let hypotheses := Py.sort_desc confidence_key hypotheses in
  match hypotheses with
  | [] => [_create_unknown_hypothesis (uuids n) incident s]
  | _ => hypotheses
  end.

Definition generate_hypotheses := generate_hypotheses_with DIAGNOSIS_RULES.

(** Looking a catalog rule up by its id. *)
Definition find_rule (ident : string) : option rule :=
  List.find (fun r => String.eqb (rule_ident r) ident) DIAGNOSIS_RULES.

End RulesEngine.

(** ** Ranker ([src/services/rca/hypothesis_ranker.py]) *)

Module HypothesisRanker.

Definition category_weights (c : string) : option Q :=
  if String.eqb c "resource_exhaustion" then Some (12 # 10)
  else if String.eqb c "bad_deployment" then Some (115 # 100)
  else if String.eqb c "configuration_error" then Some (11 # 10)
  else if String.eqb c "infrastructure_issue" then Some (105 # 100)
  else if String.eqb c "dependency_failure" then Some 1%Q
  else if String.eqb c "network_issue" then Some (95 # 100)
  else if String.eqb c "scaling_issue" then Some (9 # 10)
  else if String.eqb c "security_issue" then Some (85 # 100)
  else if String.eqb c "external_dependency" then Some (8 # 10)
  else if String.eqb c "data_issue" then Some (75 # 100)
  else if String.eqb c "unknown" then Some (5 # 10)
  else None.

(** The body of the scoring loop, before rounding. *)
Definition raw_score (h : HypothesisDict.t) : Q :=
  let score := default (5 # 10) (HypothesisDict.confidence h) in
  let category := default "unknown" (HypothesisDict.category h) in
  let category_weight := default 1%Q (category_weights category) in
  let score := (score * category_weight)%Q in
  let support_count := default 0 (HypothesisDict.support_count h) in
  let score :=
    if 0 <? support_count
    then (score * (1 + inject_Z (Z.min support_count 5) * (5 # 100)))%Q
    else score in
  let signal_strength := default 0%Q (HypothesisDict.signal_strength h) in
  (score * (1 + signal_strength * (2 # 10)))%Q.

Definition with_score (h : HypothesisDict.t) : HypothesisDict.t :=
  HypothesisDict.set_final_score h (Py.round (raw_score h) 4).

Definition final_score_key (h : HypothesisDict.t) : Q :=
  default 0%Q (HypothesisDict.final_score h).

(** [for i, h in enumerate(ranked): h["rank"] = i + 1], counting from [i]. *)
Fixpoint assign_ranks (i : Z) (l : list HypothesisDict.t) : list HypothesisDict.t :=
  match l with
  | [] => []
  | h :: r => HypothesisDict.set_rank h (i + 1) :: assign_ranks (i + 1) r
  end.

(** [rank]. The hypotheses reach the ranker as freshly deserialised
    dictionaries, so the elements of the list are distinct objects and
    the in-place updates are updates of values. *)
Definition rank (hypotheses : list HypothesisDict.t) : list HypothesisDict.t :=
  match hypotheses with
  | [] => []
  | _ =>
      let ranked := List.map with_score hypotheses in
      let ranked := Py.sort_desc final_score_key ranked in
      assign_ranks 0 ranked
  end.

End HypothesisRanker.

(** ** Exceptions *)

Module Exn.

(** The outcome of a call that may raise; the payload of [Raise] is
    [str(e)]. *)
Inductive outcome (A : Type) := Return (a : A) | Raise (e : string).
Arguments Return {A} a.
Arguments Raise {A} e.

Definition bind {A B} (x : outcome A) (f : A -> outcome B) : outcome B :=
  match x with
  | Return a => f a
  | Raise e => Raise e
  end.

(** [try: body except Exception as e: handler(e)] *)
Definition try_except {A} (body : outcome A) (handler : string -> A) : A :=
  match body with
  | Return a => a
  | Raise e => handler e
  end.

End Exn.

#[global] Instance outcome_bind : MBind Exn.outcome := fun A B f x => Exn.bind x f.

(** ** Blast radius ([src/services/remediation/orchestrator.py]) *)

Module RemediationOrchestrator.

Import Exn.

(** What the cluster answers to [read_namespaced_deployment]:
    the deployment's [spec.replicas], an [ApiException], or any other
    exception (connection failure, ...). *)
Inductive read_result :=
| Deployment (replicas : option Z)
| ApiException (e : string)
| OtherException (e : string).

Record cluster := Cluster {
  (** loading the client configuration, which may raise *)
  load_config : outcome unit;
  read_namespaced_deployment : string -> string -> read_result
}.

Record settings := Settings {
  app_env : string;
  remediation_max_blast_radius : Q
}.

Record incident := Incident {
  namespace : string;
  service : option string
}.

Record blast_radius := BlastRadius {
  score : Q;
  affected_pods : option Z;
  affected_deployments : option Z;
  environment : option string;
  environment_multiplier : option Q;
  error : option string;
  is_acceptable : bool
}.

Definition env_multiplier (env : string) : option Q :=
  if String.eqb env "dev" then Some 1%Q
  else if String.eqb env "staging" then Some 2%Q
  else if String.eqb env "uat" then Some (25 # 10)
  else if String.eqb env "prod" then Some 5%Q
  else None.

Definition critical_namespaces : list string :=
  ["default"; "platform"; "core-services"].

Definition in_critical (ns : string) : bool :=
  List.existsb (String.eqb ns) critical_namespaces.

(** The inner [try]: the pair (affected_pods, affected_deployments). *)
Definition read_deployment (k : cluster) (i : incident) : outcome (Z * Z) :=
  if Py.truthy_str (service i) then
    match read_namespaced_deployment k (default "" (service i)) (namespace i) with
    | Deployment replicas =>
        Return (match replicas with
                | Some n => if n =? 0 then 1 else n
                | None => 1
                end, 1)
    | ApiException _ => Return (0, 0)
    | OtherException e => Raise e
    end
  else Return (0, 0).

Definition base_score (i : incident) (pods deployments : Z) : Q :=
  let base := inject_Z (pods * 5 + deployments * 10) in
  if in_critical (namespace i) then (base * (15 # 10))%Q else base.

Definition calculate_blast_radius (st : settings) (k : cluster) (i : incident)
  : blast_radius :=
  try_except
    (_ ← load_config k;
     pd ← read_deployment k i;
     let '(pods, deployments) := pd in
     let env := Py.lower (app_env st) in
     let multiplier := default 3%Q (env_multiplier env) in
     let final_score := Py.min (base_score i pods deployments * multiplier) 100 in
     Return
       {| score := Py.round final_score 2;
          affected_pods := Some pods;
          affected_deployments := Some deployments;
          environment := Some env;
          environment_multiplier := Some multiplier;
          error := None;
          is_acceptable := Py.Qltb final_score (remediation_max_blast_radius st) |})
    (fun e =>
       {| score := 100;
          affected_pods := None;
          affected_deployments := None;
          environment := None;
          environment_multiplier := None;
          error := Some e;
          is_acceptable := false |}).

End RemediationOrchestrator.

(** ** Policy gate ([src/services/policy/opa_client.py]) *)

Module OPAClient.

Import Exn.

(** A decoded JSON document; objects keep their members in order. *)
#[local] Unset Elimination Schemes.
Inductive json :=
| JNull
| JBool (b : bool)
| JNum (q : Q)
| JStr (s : string)
| JArr (l : list json)
| JObj (members : list (string * json)).
#[local] Set Elimination Schemes.

(** [json.loads] keeps the last of several members with the same name. *)
Fixpoint member (k : string) (ms : list (string * json)) : option json :=
  match ms with
  | [] => None
  | (k', v) :: r =>
      match member k r with
      | Some w => Some w
      | None => if String.eqb k k' then Some v else None
      end
  end.

(** [d.get(k, dflt)]; raises [AttributeError] when [d] is not an object. *)
Definition get (d : json) (k : string) (dflt : json) : outcome json :=
  match d with
  | JObj ms => Return (default dflt (member k ms))
  | _ => Raise "object has no attribute 'get'"
  end.

Definition truthy (v : json) : bool :=
  match v with
  | JNull => false
  | JBool b => b
  | JNum q => negb (Qeq_bool q 0)
  | JStr s => negb (String.eqb s "")
  | JArr l => match l with [] => false | _ => true end
  | JObj ms => match ms with [] => false | _ => true end
  end.

(** The answer of the policy endpoint to the POST: a transport failure,
    or a response with its status code and its body, [None] when the
    body is not JSON. *)
Inductive http_outcome :=
| TransportError (e : string)
| Response (status : Z) (body : option json).

Record input_data := InputData {
  action_type : string;
  environment : string;
  blast_radius_score : Q;
  namespace : string;
  affected_replicas : Z;
  current_hour : Z;
  is_weekend : bool;
  freeze_active : bool
}.

Record decision := Decision {
  allow : json;
  requires_approval : json;
  deny_reasons : json;
  reason : string
}.

(** [response.raise_for_status()]: every status outside 200..299 raises. *)
Definition raise_for_status (status : Z) : outcome unit :=
  if (200 <=? status) && (status <=? 299) then Return tt
  else Raise "HTTPStatusError".

Definition _query_opa (opa : input_data -> http_outcome) (i : input_data)
  : outcome json :=
  match opa i with
  | TransportError e => Raise e
  | Response status body =>
      _ ← raise_for_status status;
      match body with
      | None => Raise "JSONDecodeError"
      | Some data => get data "result" (JObj [])
      end
  end.

(** ["; ".join(xs)]: every element has to be a string. *)
Fixpoint join_strs (xs : list string) : string :=
  match xs with
  | [] => ""
  | [x] => x
  | x :: r => x +:+ "; " +:+ join_strs r
  end.

Fixpoint all_strs (l : list json) : option (list string) :=
  match l with
  | [] => Some []
  | JStr s :: r => cons s <$> all_strs r
  | _ :: _ => None
  end.

Definition chars (s : string) : list string :=
  List.map (fun c => String c EmptyString) (list_ascii_of_string s).

(** The keys of a decoded object, each once, in order of first
    appearance. *)
Fixpoint keys (ms : list (string * json)) (seen : list string) : list string :=
  match ms with
  | [] => []
  | (k, _) :: r =>
      if List.existsb (String.eqb k) seen then keys r seen
      else k :: keys r (k :: seen)
  end.

Definition join (v : json) : outcome string :=
  match v with
  | JArr l =>
      match all_strs l with
      | Some xs => Return (join_strs xs)
      | None => Raise "sequence item: expected str instance"
      end
  | JStr s => Return (join_strs (chars s))
  | JObj ms => Return (join_strs (keys ms []))
  | _ => Raise "can only join an iterable"
  end.

Definition _build_reason (allow deny_reasons : json) : outcome string :=
  if truthy allow then Return "allowed"
  else if truthy deny_reasons then join deny_reasons
  else Return "policy denied".

Definition evaluate_remediation (opa : input_data -> http_outcome)
    (now_hour now_weekday : Z)
    (action_type environment : string) (blast_radius_score : Q)
    (namespace : string) (affected_replicas : Z) : outcome decision :=
  let i := InputData action_type environment blast_radius_score namespace
             affected_replicas now_hour (5 <=? now_weekday) false in
  Return
    (try_except
       (result ← _query_opa opa i;
        allow ← get result "allow" (JBool false);
        requires_approval ← get result "requires_approval" (JBool true);
        deny_reasons ← get result "deny" (JArr []);
        reason ← _build_reason allow deny_reasons;
        Return (Decision allow requires_approval deny_reasons reason))
       (fun e =>
          Decision (JBool false) (JBool true)
            (JArr [JStr ("Policy evaluation error: " +:+ e)])
            ("Policy evaluation error: " +:+ e))).

End OPAClient.

(** ** Verifier ([src/services/remediation/verifier.py]) *)

Module RemediationVerifier.

Import Exn.

(** The Python values that flow through [verify]: the improvement flags
    are booleans, the ["healthy"] entry is an integer. *)
Inductive value := VBool (b : bool) | VInt (n : Z).

Definition truthy (v : value) : bool :=
  match v with
  | VBool b => b
  | VInt n => negb (n =? 0)
  end.

(** [a or b] and [a and b] return one of their operands. *)
Definition py_or (a b : value) : value := if truthy a then a else b.
Definition py_and (a b : value) : value := if truthy a then b else a.

Record pod_condition := PodCondition { cond_type : string; cond_status : string }.

Record pod := Pod {
  phase : string;
  conditions : option (list pod_condition)
}.

Record incident := Incident { namespace : string; service : option string }.

(** The collaborators: the metrics store answering an instant query
    with a value, nothing, or an exception; the cluster API. *)
Record world := World {
  query_prometheus : string -> outcome (option PyFloat.t);
  init_kube_config : outcome unit;
  list_namespaced_pod : string -> option string -> outcome (list pod)
}.

(** The dictionaries the probes return. *)
Inductive metric_probe :=
| MetricProbe (current before : option PyFloat.t) (improved : bool)
| MetricError (e : string).

Inductive health_probe :=
| PodHealth (total healthy : Z) (healthy_percentage : Q) (all_healthy : bool)
| HealthError (e : string).

(** [probe.get("improved", False)] *)
Definition get_improved (p : metric_probe) : value :=
  match p with
  | MetricProbe _ _ improved => VBool improved
  | MetricError _ => VBool false
  end.

(** [pod_health.get("healthy", False)] *)
Definition get_healthy (p : health_probe) : value :=
  match p with
  | PodHealth _ healthy _ _ => VInt healthy
  | HealthError _ => VBool false
  end.

(** [pod_health.get("all_healthy")], when present *)
Definition get_all_healthy (p : health_probe) : option bool :=
  match p with
  | PodHealth _ _ _ all_healthy => Some all_healthy
  | HealthError _ => None
  end.

Definition _is_metric_improved (current before : option PyFloat.t) : bool :=
  match current, before with
  | Some c, Some b => PyFloat.ltb c b
  | _, _ => false
  end.

Definition error_rate_query (ns : string) (svc : option string) (offset : string)
  : string :=
  let pod_filter :=
    if Py.truthy_str svc
    then ", pod=~" +:+ Py.dq +:+ default "" svc +:+ ".*" +:+ Py.dq
    else "" in
  "sum(rate(http_requests_total{namespace=" +:+ Py.dq +:+ ns +:+ Py.dq
    +:+ pod_filter +:+ ", status=~" +:+ Py.dq +:+ "5.." +:+ Py.dq +:+ "}[5m]" +:+ offset
    +:+ ")) / sum(rate(http_requests_total{namespace=" +:+ Py.dq +:+ ns +:+ Py.dq
    +:+ pod_filter +:+ "}[5m]" +:+ offset +:+ "))".

Definition _check_error_rate (w : world) (ns : string) (svc : option string)
  : metric_probe :=
  try_except
    (current ← query_prometheus w (error_rate_query ns svc "");
     before ← query_prometheus w (error_rate_query ns svc " offset 15m");
     Return (MetricProbe current before (_is_metric_improved current before)))
    MetricError.

Definition restart_rate_query (ns : string) (svc : option string) (offset : string)
  : string :=
  let pod_prefix := Py.or_default svc ".*" in
  "sum(increase(kube_pod_container_status_restarts_total{namespace="
    +:+ Py.dq +:+ ns +:+ Py.dq +:+ ", pod=~" +:+ Py.dq +:+ pod_prefix +:+ ".*"
    +:+ Py.dq +:+ "}[5m]" +:+ offset +:+ "))".

Definition _check_restart_rate (w : world) (ns : string) (svc : option string)
  : metric_probe :=
  try_except
    (current ← query_prometheus w (restart_rate_query ns svc "");
     before ← query_prometheus w (restart_rate_query ns svc " offset 15m");
     Return (MetricProbe current before
               match current, before with
               | Some c, Some b => PyFloat.leb c b
               | _, _ => false
               end))
    MetricError.

Definition _is_pod_healthy (p : pod) : bool :=
  if negb (String.eqb (phase p) "Running") then false
  else
    negb (List.existsb
            (fun c => String.eqb (cond_type c) "Ready"
                      && negb (String.eqb (cond_status c) "True"))
            (default [] (conditions p))).

Definition _check_pod_health (w : world) (ns : string) (svc : option string)
  : health_probe :=
  try_except
    (_ ← init_kube_config w;
     let label_selector :=
       if Py.truthy_str svc then Some ("app=" +:+ default "" svc) else None in
     pods ← list_namespaced_pod w ns label_selector;
     let total := Z.of_nat (List.length pods) in
     let healthy := Z.of_nat (List.length (List.filter _is_pod_healthy pods)) in
     Return (PodHealth total healthy
               (if 0 <? total
                then (inject_Z healthy / inject_Z total * 100)%Q else 0%Q)
               (healthy =? total)))
    HealthError.

Record verification := Verification {
  success : value;
  metrics_improved : value;
  error_rate : metric_probe;
  restart_rate : metric_probe;
  pod_health : health_probe
}.

(** [verify]; the three probes catch their own exceptions, so the outer
    handler is never entered by them. [verified_at] is the wall clock. *)
Definition verify (w : world) (i : incident) : verification :=
  let error_rate := _check_error_rate w (namespace i) (service i) in
  let restart_rate := _check_restart_rate w (namespace i) (service i) in
  let pod_health := _check_pod_health w (namespace i) (service i) in
  let metrics_improved :=
    py_or (py_or (get_improved error_rate) (get_improved restart_rate))
          (get_healthy pod_health) in
  let success := py_and metrics_improved (get_healthy pod_health) in
  Verification success metrics_improved error_rate restart_rate pod_health.

End RemediationVerifier.

(** ** Metrics post-processing
    ([src/services/collectors/metrics_collector.py]) *)

Module MetricsCollector.

Import Exn.

(** One series of a range-query result: its labels and its samples, each
    a timestamp with the value as text. *)
Record series := Series {
  metric : gmap string string;
  values : list (Q * string)
}.

Record point := Point {
  timestamp : Q;
  value : PyFloat.t;
  point_labels : gmap string string
}.

Definition _parse_metric_value (ts : Q) (val : string) (lbls : gmap string string)
  : option point :=
  match PyFloat.of_string val with
  | Some numeric_val =>
      if PyFloat.neb numeric_val PyFloat.PosInf
         && PyFloat.neb numeric_val PyFloat.NegInf
      then Some (Point ts numeric_val lbls)
      else None
  | None => None
  end.

(** The nested loops of [_process_results]. *)
Definition parse_all (results : list series) : list point :=
  List.concat
    (List.map
       (fun r =>
          List.flat_map
            (fun tv => match _parse_metric_value (fst tv) (snd tv) (metric r) with
                       | Some p => [p]
                       | None => []
                       end)
            (values r))
       results).

Definition merged (results : list series) : list point :=
  Py.sort_asc timestamp (parse_all results).

(** Every [step]-th element, the first after skipping [skip]. *)
Fixpoint stride_from {A} (step skip : nat) (l : list A) : list A :=
  match l with
  | [] => []
  | x :: r =>
      match skip with
      | O => x :: stride_from step (step - 1) r
      | S k => stride_from step k r
      end
  end.

(** [l[::step]] for a non-zero [step]; a negative step walks backwards
    from the last element. *)
Definition slice_step {A} (step : Z) (l : list A) : list A :=
  if 0 <? step then stride_from (Z.to_nat step) 0 l
  else stride_from (Z.to_nat (- step)) 0 (List.rev l).

(** The decimation branch. [len // max_points] raises
    [ZeroDivisionError] for a cap of zero. *)
Definition decimate (max_points : Z) (all_values : list point)
  : outcome (list point) :=
  let len := Z.of_nat (List.length all_values) in
  if max_points <? len then
    if max_points =? 0 then Raise "integer division or modulo by zero"
    else Return (slice_step (len / max_points) all_values)
  else Return all_values.

Record stats := Stats {
  stat_values : list point;
  current_value : option PyFloat.t;
  max_value : option PyFloat.t;
  min_value : option PyFloat.t;
  avg_value : option PyFloat.t
}.

(** [max(xs)], [min(xs)]: the running extremum is replaced only by a
    strictly greater (smaller) element. *)
Definition py_max (xs : list PyFloat.t) : option PyFloat.t :=
  match xs with
  | [] => None
  | x :: r =>
      Some (List.fold_left (fun m y => if PyFloat.ltb m y then y else m) r x)
  end.

Definition py_min (xs : list PyFloat.t) : option PyFloat.t :=
  match xs with
  | [] => None
  | x :: r =>
      Some (List.fold_left (fun m y => if PyFloat.ltb y m then y else m) r x)
  end.

Definition lastn {A} (n : nat) (l : list A) : list A :=
  List.skipn (List.length l - n) l.

Definition _calculate_stats (all_values : list point) : stats :=
  let numeric_values := List.map value all_values in
  Stats (lastn 50 all_values)
        (List.last (List.map Some numeric_values) None)
        (py_max numeric_values)
        (py_min numeric_values)
        (match numeric_values with
         | [] => None
         | _ => Some (PyFloat.div_nat
                        (List.fold_left PyFloat.add numeric_values (PyFloat.Finite 0))
                        (List.length numeric_values))
         end).

Definition _process_results (max_points : Z) (results : list series)
  : outcome stats :=
  all_values ← decimate max_points (merged results);
  Return (_calculate_stats all_values).

End MetricsCollector.

(** ** Redis, as the ingestion service uses it

    The service keeps fingerprints and rate counters in a Redis server
    through the commands GET, SET with EX, DEL, EXISTS, EXPIRE and INCR.
    The model is the server's documented behaviour on text values with
    an optional expiry time; times are in seconds. *)

Module Redis.

Import Exn.

Record entry := Entry { value : string; expires_at : option Z }.

(** Whether the server can be reached, and its keys. *)
Record server := Server { reachable : bool; keys : gmap string entry }.

Definition with_keys (s : server) (ks : gmap string entry) : server :=
  Server (reachable s) ks.

Definition expired (now : Z) (e : entry) : bool :=
  match expires_at e with
  | Some t => t <=? now
  | None => false
  end.

(** A key that has passed its expiry time is gone. *)
Definition live (now : Z) (s : server) (k : string) : option entry :=
  match keys s !! k with
  | Some e => if expired now e then None else Some e
  | None => None
  end.

(** Every command raises when the server cannot be reached. *)
Definition connect {A} (s : server) (body : outcome A) : outcome A :=
  if reachable s then body else Raise "Error connecting to redis".

Definition get (now : Z) (s : server) (k : string) : outcome (option string) :=
  connect s (Return (value <$> live now s k)).

(** [SET k v EX seconds]; a non-positive expiry is an error. *)
Definition set_ex (now : Z) (s : server) (k v : string) (seconds : Z)
  : outcome server :=
  connect s
    (if seconds <=? 0 then Raise "invalid expire time in 'set' command"
     else Return (with_keys s (<[ k := Entry v (Some (now + seconds)) ]> (keys s)))).

Definition del (s : server) (k : string) : outcome server :=
  connect s (Return (with_keys s (delete k (keys s)))).

Definition exists_ (now : Z) (s : server) (k : string) : outcome bool :=
  connect s (Return (match live now s k with Some _ => true | None => false end)).

(** [EXPIRE k seconds]: a non-positive timeout deletes the key. *)
Definition expire_keys (now : Z) (s : server) (k : string) (seconds : Z)
  : gmap string entry :=
  match live now s k with
  | Some e =>
      if seconds <=? 0 then delete k (keys s)
      else <[ k := Entry (value e) (Some (now + seconds)) ]> (keys s)
  | None => keys s
  end.

Definition expire (now : Z) (s : server) (k : string) (seconds : Z)
  : outcome server :=
  connect s (Return (with_keys s (expire_keys now s k seconds))).

(** The canonical decimal text of an integer, and the integers INCR
    accepts: canonical text of a signed 64-bit value. *)
Definition text_of_int (n : Z) : string := NilZero.string_of_int (Z.to_int n).

Definition int_of_text (v : string) : option Z :=
  match NilZero.int_of_string v with
  | Some d =>
      let n := Z.of_int d in
      if String.eqb (text_of_int n) v && (- 2 ^ 63 <=? n) && (n <=? 2 ^ 63 - 1)
      then Some n else None
  | None => None
  end.

(** [INCR k]: an absent key counts as 0; the expiry time is kept. *)
Definition incr_keys (now : Z) (s : server) (k : string)
  : outcome (gmap string entry * Z) :=
  match live now s k with
  | None => Return (<[ k := Entry "1" None ]> (keys s), 1)
  | Some e =>
      match int_of_text (value e) with
      | Some n =>
          if n =? 2 ^ 63 - 1 then Raise "increment or decrement would overflow"
          else Return (<[ k := Entry (text_of_int (n + 1)) (expires_at e) ]> (keys s),
                       n + 1)
      | None => Raise "value is not an integer or out of range"
      end
  end.

(** The pipeline [INCR k; EXPIRE k seconds], executed as one
    transaction: both commands run, and an error of the first is raised
    after the second has run. The result is that of INCR. *)
Definition incr_expire (now : Z) (s : server) (k : string) (seconds : Z)
  : server * outcome Z :=
  if reachable s then
    match incr_keys now s k with
    | Return (ks, n) =>
        (with_keys s (expire_keys now (with_keys s ks) k seconds), Return n)
    | Raise e => (with_keys s (expire_keys now s k seconds), Raise e)
    end
  else (s, Raise "Error connecting to redis").

End Redis.

(** ** Deduplication and rate limiting
    ([src/services/ingestion/deduplicator.py]) *)

Module AlertDeduplicator.

Import Exn.

(** [timedelta(hours=4)], in seconds. *)
Definition FINGERPRINT_TTL : Q := 14400.

Definition key (fingerprint : string) : string :=
  "aiops:fingerprint:" +:+ fingerprint.

(** [int(ttl.total_seconds())] of [ttl or FINGERPRINT_TTL]: a [timedelta]
    is falsy when it is zero, and [int] truncates towards zero. *)
Definition ttl_seconds (ttl : option Q) : Z :=
  let ttl := match ttl with
             | Some t => if Qeq_bool t 0 then FINGERPRINT_TTL else t
             | None => FINGERPRINT_TTL
             end in
  Z.quot (Qnum ttl) (Z.pos (Qden ttl)).

(** [check_duplicate]: (is_duplicate, existing_incident_id). *)
Definition check_duplicate (now : Z) (s : Redis.server) (fingerprint : string)
  : bool * option string :=
  try_except
    (existing_id ← Redis.get now s (key fingerprint);
     if Py.truthy_str existing_id then Return (true, existing_id)
     else Return (false, None))
    (fun _ => (false, None)).

(** [register_fingerprint]: the result and the server afterwards. *)
Definition register_fingerprint (now : Z) (s : Redis.server)
    (fingerprint incident_id : string) (ttl : option Q) : bool * Redis.server :=
  match Redis.set_ex now s (key fingerprint) incident_id (ttl_seconds ttl) with
  | Return s' => (true, s')
  | Raise _ => (false, s)
  end.

Definition remove_fingerprint (s : Redis.server) (fingerprint : string)
  : bool * Redis.server :=
  match Redis.del s (key fingerprint) with
  | Return s' => (true, s')
  | Raise _ => (false, s)
  end.

Definition extend_fingerprint (now : Z) (s : Redis.server) (fingerprint : string)
    (additional_ttl : option Q) : bool * Redis.server :=
  match Redis.exists_ now s (key fingerprint) with
  | Return true =>
      match Redis.expire now s (key fingerprint) (ttl_seconds additional_ttl) with
      | Return s' => (true, s')
      | Raise _ => (false, s)
      end
  | Return false => (false, s)
  | Raise _ => (false, s)
  end.

End AlertDeduplicator.

Module RateLimiter.

Import Exn.

Definition rate_key (key : string) : string := "aiops:ratelimit:" +:+ key.

(** [check_rate_limit]: (is_allowed, remaining) and the server
    afterwards. *)
Definition check_rate_limit (now : Z) (s : Redis.server) (key : string)
    (limit window_seconds : Z) : (bool * Z) * Redis.server :=
  let '(s', results) := Redis.incr_expire now s (rate_key key) window_seconds in
  match results with
  | Return current_count =>
      let remaining := Z.max 0 (limit - current_count) in
      ((current_count <=? limit, remaining), s')
  | Raise _ => ((true, limit), s')
  end.

End RateLimiter.

(** ** The Alertmanager webhook ([src/services/ingestion/main.py]) *)

Module Ingestion.

Import Exn.

(** One entry of the payload's [alerts] array. *)
Record raw_alert := RawAlert {
  status : option string;
  body : Normalizer.alert
}.

Record incident := Incident {
  id : string;
  data : Normalizer.IncidentCreate
}.

(** The incidents table, rows in insertion order, and the inserts the
    database refuses (connection loss, constraint violation, ...), each
    with the text of its exception. *)
Record database := Database {
  rows : list incident;
  refuses : incident -> option string
}.

(** [create_incident]: the [Incident] model admits titles of at most 500
    characters; the row is committed when the INSERT succeeds. [uuid] is
    the value [uuid4()] returns for the incident. *)
Definition create_incident (uuid : string) (db : database)
    (incident_data : Normalizer.IncidentCreate) : outcome (incident * database) :=
  if (500 <? String.length (Normalizer.title incident_data))%nat
  then Raise "1 validation error for Incident"
  else
    let incident := Incident uuid incident_data in
    match refuses db incident with
    | Some e => Raise e
    | None => Return (incident, Database (rows db ++ [incident]) (refuses db))
    end.

Inductive response :=
| Accepted (incidents_created : Z) (incident_ids : list string)
| HTTPException (status_code : Z) (detail : string).

(** The loop over [payload.get("alerts", [])]. [uuids k] is the id drawn
    for the incident that becomes row [k] of the table. The rows
    committed before an exception stay committed. *)
Fixpoint process_alerts (uuids : nat -> string) (now : Z) (redis : Redis.server)
    (payload : Normalizer.payload) (alerts : list raw_alert)
    (db : database) (incidents : list incident)
  : database * outcome (list incident) :=
  match alerts with
  | [] => (db, Return incidents)
  | alert :: rest =>
      if negb (bool_decide (status alert = Some "firing"))
      then process_alerts uuids now redis payload rest db incidents
      else
        let incident_data := Normalizer.normalize_alertmanager (body alert) payload in
        let '(is_duplicate, _) :=
          AlertDeduplicator.check_duplicate now redis
            (Normalizer.fingerprint incident_data) in
        if is_duplicate
        then process_alerts uuids now redis payload rest db incidents
        else
          match create_incident (uuids (List.length (rows db))) db incident_data with
          | Return (incident, db') =>
              process_alerts uuids now redis payload rest db' (incidents ++ [incident])
          | Raise e => (db, Raise e)
          end
  end.

(** [alertmanager_webhook]: the response and the database afterwards.
    The handler reads the fingerprint store and never writes it. *)
Definition alertmanager_webhook (uuids : nat -> string) (now : Z)
    (redis : Redis.server) (payload : Normalizer.payload)
    (alerts : list raw_alert) (db : database) : database * response :=
  let '(db', result) := process_alerts uuids now redis payload alerts db [] in
  (db',
   match result with
   | Return incidents =>
       Accepted (Z.of_nat (List.length incidents)) (List.map id incidents)
   | Raise e => HTTPException 500 e
   end).

End Ingestion.

(** ** The incident workflow ([src/services/workflow/incident_workflow.py]) *)

Module IncidentWorkflow.

Import Exn OPAClient.

(** A Python dict with text keys, entries in insertion order. *)
Definition dict := list (string * json).

Definition remove_key (k : string) (d : dict) : dict :=
  List.filter (fun kv => negb (String.eqb k (fst kv))) d.

(** [d[k] = v]: an existing key keeps its place. (A decoded object may
    list a key more than once; the dict holds it once.) *)
Fixpoint dict_set (k : string) (v : json) (d : dict) : dict :=
  match d with
  | [] => [(k, v)]
  | (k', v') :: r =>
      if String.eqb k k' then (k, v) :: remove_key k r
      else (k', v') :: dict_set k v r
  end.

(** [d.get(k, dflt)] on a dict. *)
Definition dict_get (d : dict) (k : string) (dflt : json) : json :=
  default dflt (member k d).

(** The workflow object and its surroundings while [run] executes: the
    [_status] attribute, the activities invoked so far with their
    arguments, and the [result] dictionary. *)
Record state := State {
  _status : string;
  calls : list (string * json);
  result : dict
}.

(** Workflow code: it changes the state and returns or raises. *)
Definition M (A : Type) : Type := state -> state * outcome A.

Definition ret {A} (a : A) : M A := fun st => (st, Return a).

Definition bind {A B} (m : M A) (f : A -> M B) : M B :=
  fun st =>
    match m st with
    | (st', Return a) => f a st'
    | (st', Raise e) => (st', Raise e)
    end.

(** An operation that may raise, such as [.get] on a value that is not a
    dict. *)
Definition lift {A} (o : outcome A) : M A := fun st => (st, o).

Definition set_status (s : string) : M unit :=
  fun st => (State s (calls st) (result st), Return tt).

Definition set_result (k : string) (v : json) : M unit :=
  fun st => (State (_status st) (calls st) (dict_set k v (result st)), Return tt).

(** [result["steps_completed"].append(step)] *)
Definition append_step (step : string) : M unit :=
  fun st =>
    let steps := match dict_get (result st) "steps_completed" (JArr []) with
                 | JArr l => l
                 | _ => []
                 end in
    (State (_status st) (calls st)
       (dict_set "steps_completed" (JArr (steps ++ [JStr step])) (result st)),
     Return tt).

Definition get_result : M dict := fun st => (st, Return (result st)).

(** [workflow.execute_activity(name, arg, ...)]: what the activity
    returns after its retries, or the failure it ends with. *)
Definition execute_activity (activities : string -> json -> outcome json)
    (name : string) (arg : json) : M json :=
  fun st =>
    (State (_status st) (calls st ++ [(name, arg)]) (result st), activities name arg).

(** [len(v)] *)
Definition len (v : json) : outcome json :=
  match v with
  | JArr l => Return (JNum (inject_Z (Z.of_nat (List.length l))))
  | JObj ms => Return (JNum (inject_Z (Z.of_nat (List.length (keys ms [])))))
  | JStr s => Return (JNum (inject_Z (Z.of_nat (String.length s))))
  | _ => Raise "object has no len()"
  end.

(** [v[0] if v else None] *)
Definition first_or_none (v : json) : outcome json :=
  if truthy v then
    match v with
    | JArr (x :: _) => Return x
    | JStr (String c _) => Return (JStr (String c EmptyString))
    | JObj _ => Raise "KeyError: 0"
    | _ => Raise "object is not subscriptable"
    end
  else Return JNull.

Definition is_none (v : json) : bool :=
  match v with
  | JNull => true
  | _ => false
  end.

(** As a dict: every activity result the workflow calls [.get] on. *)
Definition as_dict (v : json) : outcome dict :=
  match v with
  | JObj ms => Return ms
  | _ => Raise "object has no attribute 'get'"
  end.

End IncidentWorkflow.

#[global] Instance workflow_bind : MBind IncidentWorkflow.M :=
  fun A B f m => IncidentWorkflow.bind m f.

Module IncidentWorkflowRun.

Import Exn OPAClient IncidentWorkflow.

(** Steps 9 and 10: approval, remediation and verification. Returns the
    policy result as it stands afterwards. *)
Definition remediate (activities : string -> json -> outcome json)
    (incident_data : dict) (blast_radius : json) (policy_result : dict) : M dict :=
  if truthy (dict_get policy_result "allowed" JNull) then
    _ ← set_status "remediating";
    policy_result ←
      (if truthy (dict_get policy_result "requires_approval" JNull) then
         approval_result ←
           execute_activity activities "request_approval"
             (JObj [("incident", JObj incident_data);
                    ("action", dict_get policy_result "proposed_action" JNull);
                    ("blast_radius", blast_radius)]);
         _ ← set_result "approval_requested" (JBool true);
         approval ← lift (as_dict approval_result);
         _ ← set_result "approval_granted" (dict_get approval "approved" (JBool false));
         if negb (truthy (dict_get approval "approved" JNull)) then
           _ ← set_status "approval_denied";
           _ ← append_step "approval_denied";
           ret (dict_set "allowed" (JBool false) policy_result)
         else ret policy_result
       else ret policy_result);
    if truthy (dict_get policy_result "allowed" JNull) then
      remediation_result ←
        execute_activity activities "execute_remediation"
          (JObj [("incident", JObj incident_data);
                 ("action", dict_get policy_result "proposed_action" JNull)]);
      _ ← append_step "remediation_executed";
      success ← lift (get remediation_result "success" (JBool false));
      _ ← set_result "remediation_success" success;
      _ ← set_status "verifying";
      verification ←
        execute_activity activities "verify_remediation"
          (JObj [("incident", JObj incident_data);
                 ("action", dict_get policy_result "proposed_action" JNull)]);
      _ ← append_step "verification";
      verified ← lift (get verification "success" (JBool false));
      _ ← set_result "verification_success" verified;
      improved ← lift (get verification "metrics_improved" (JBool false));
      _ ← set_result "metrics_improved" improved;
      ret policy_result
    else ret policy_result
  else ret policy_result.

(** The body of the [try] block. *)
Definition run_body (activities : string -> json -> outcome json)
    (incident_data : dict) : M unit :=
  _ ← set_status "collecting_evidence";
  evidence_results ←
    execute_activity activities "collect_all_evidence" (JObj incident_data);
  evidence_count ← lift (get evidence_results "total_evidence" (JNum 0));
  _ ← append_step "evidence_collection";
  _ ← set_result "evidence_count" evidence_count;
  _ ← set_status "building_graph";
  graph_result ←
    execute_activity activities "build_evidence_graph"
      (JObj [("incident", JObj incident_data); ("evidence", evidence_results)]);
  _ ← append_step "graph_building";
  node_count ← lift (get graph_result "node_count" (JNum 0));
  _ ← set_result "graph_nodes" node_count;
  _ ← set_status "analyzing";
  hypotheses ←
    execute_activity activities "generate_hypotheses"
      (JObj [("incident", JObj incident_data); ("evidence", evidence_results);
             ("graph", graph_result)]);
  _ ← append_step "hypothesis_generation";
  hypotheses_count ← lift (len hypotheses);
  _ ← set_result "hypotheses_count" hypotheses_count;
  ranked_hypotheses ← execute_activity activities "rank_hypotheses" hypotheses;
  _ ← append_step "hypothesis_ranking";
  top_hypothesis ← lift (first_or_none ranked_hypotheses);
  _ ← set_result "top_hypothesis" top_hypothesis;
  _ ← set_status "generating_runbook";
  runbook ←
    execute_activity activities "generate_runbook"
      (JObj [("incident", JObj incident_data); ("hypotheses", ranked_hypotheses)]);
  _ ← append_step "runbook_generation";
  runbook_id ← lift (get runbook "id" JNull);
  _ ← set_result "runbook_id" runbook_id;
  blast_radius ←
    execute_activity activities "calculate_blast_radius" (JObj incident_data);
  _ ← set_result "blast_radius" blast_radius;
  _ ← set_status "evaluating_policy";
  policy ←
    execute_activity activities "evaluate_remediation_policy"
      (JObj [("incident", JObj incident_data); ("hypotheses", ranked_hypotheses);
             ("blast_radius", blast_radius)]);
  _ ← append_step "policy_evaluation";
  policy_result ← lift (as_dict policy);
  _ ← set_result "remediation_allowed" (dict_get policy_result "allowed" (JBool false));
  _ ← set_result "requires_approval"
        (dict_get policy_result "requires_approval" (JBool true));
  policy_result ← remediate activities incident_data blast_radius policy_result;
  result ← get_result;
  let needs_ticket :=
    negb (truthy (dict_get policy_result "allowed" JNull))
    || negb (truthy (dict_get result "verification_success" (JBool true)))
    || negb (truthy (dict_get result "remediation_success" (JBool true))) in
  _ ← (if needs_ticket then
         _ ← set_status "creating_ticket";
         ticket_result ←
           execute_activity activities "create_ticket"
             (JObj [("incident", JObj incident_data);
                    ("hypotheses", ranked_hypotheses);
                    ("runbook", runbook);
                    ("remediation_attempted",
                     JBool (negb (is_none (dict_get result "remediation_success" JNull))))]);
         _ ← append_step "ticket_created";
         ticket_id ← lift (get ticket_result "ticket_id" JNull);
         set_result "ticket_id" ticket_id
       else ret tt);
  _ ← set_status "closing";
  result ← get_result;
  _ ← execute_activity activities "close_incident"
        (JObj [("incident", JObj incident_data); ("result", JObj result)]);
  _ ← append_step "incident_closed";
  _ ← set_status "completed";
  set_result "status" (JStr "completed").

(** [run]: the returned dictionary, with the final [_status] and the
    activities invoked. No exception leaves the [try] block. *)
Definition run (activities : string -> json -> outcome json)
    (incident_data : dict) : state :=
  let initial :=
    State "initialized" []
      [("incident_id", dict_get incident_data "id" JNull);
       ("status", JStr "started");
       ("steps_completed", JArr [])] in
  match run_body activities incident_data initial with
  | (st, Return _) => st
  | (st, Raise e) =>
      State ("failed: " +:+ e) (calls st)
        (dict_set "error" (JStr e) (dict_set "status" (JStr "failed") (result st)))
  end.

End IncidentWorkflowRun.


(* ===================================================================== *)
(** * Part II: the specification's wording, and sample inputs *)
(* ===================================================================== *)

(** ** The claims' own notions *)


(** The fingerprint as the specification words it: the first 32 hex
    characters of the digest of ["<source>:<alertname>:<namespace>:<service>"],
    the empty string standing for an absent service. *)
Definition spec_fingerprint (src : Normalizer.IncidentSource) (alertname ns : string)
    (svc : option string) : string :=
  String.substring 0 32
    (Sha256.hexdigest
       (Normalizer.source_value src +:+ ":" +:+ alertname +:+ ":" +:+ ns +:+ ":"
          +:+ default "" svc)).

(** The policy query fails: transport error, status outside 2xx, or a
    body that does not parse. *)
Definition query_failed (o : OPAClient.http_outcome) : bool :=
  match o with
  | OPAClient.TransportError _ => true
  | OPAClient.Response status body =>
      negb ((200 <=? status) && (status <=? 299))
      || match body with None => true | Some _ => false end
  end.

(** The flag of the specification: every listed pod is Running and has
    no Ready condition other than True. *)
Definition pods_all_healthy (pods : list RemediationVerifier.pod) : bool :=
  List.forallb RemediationVerifier._is_pod_healthy pods.

(** ** Orderings *)

(** [a] may stand before [b] in a list that descends by [key]. *)
Definition desc {A : Type} (key : A -> Q) (a b : A) : Prop :=
  Py.Qltb (key a) (key b) = false.

(** ** Rule matching *)

(** The conditions of a rule that match, and the sum of the strengths
    the conditions contribute. *)
Definition matching (conds : list RulesEngine.condition) (s : RulesEngine.signals)
  : list RulesEngine.condition :=
  List.filter
    (fun c => RulesEngine.check_matched (RulesEngine._check_condition c s)) conds.

Fixpoint strength_sum (conds : list RulesEngine.condition) (s : RulesEngine.signals)
  : Q :=
  match conds with
  | [] => 0%Q
  | c :: r =>
      (RulesEngine.strength (RulesEngine._check_condition c s) + strength_sum r s)%Q
  end.

(** The strength a condition contributes when it matches depends on its
    type only. *)
Definition type_strength (c : RulesEngine.condition) : Q :=
  match RulesEngine.checks c RulesEngine._init_signals with
  | Some (_, st) => st
  | None => 0%Q
  end.

(** The confidence as the specification words it: no rounding. *)
Definition spec_confidence (base strengths : Q) (conditions matched : Z) : Q :=
  let c := ((6 # 10) * base + (4 # 10) * (strengths / inject_Z conditions))%Q in
  if 2 <? matched then Py.min (c * (11 # 10)) (99 # 100) else c.

(** Whether [generate_hypotheses] returns a hypothesis of rule [ident]
    with category [category]. *)
Definition fires (ident category : string) (evs : list RulesEngine.evidence) : bool :=
  List.existsb
    (fun h => String.eqb (HypothesisDict.rule_id h) ident
              && bool_decide (HypothesisDict.category h = Some category))
    (RulesEngine.generate_hypotheses (fun _ => "uuid") "incident" evs).

(** ** Ranking *)

(** The fields as the ranker reads them. *)
Definition conf_of (h : HypothesisDict.t) : Q :=
  default (5 # 10)%Q (HypothesisDict.confidence h).

Definition weight_of (h : HypothesisDict.t) : Q :=
  default 1%Q
    (HypothesisRanker.category_weights (default "unknown" (HypothesisDict.category h))).

Definition support_of (h : HypothesisDict.t) : Z :=
  default 0 (HypothesisDict.support_count h).

Definition signal_of (h : HypothesisDict.t) : Q :=
  default 0%Q (HypothesisDict.signal_strength h).

(** The unrounded score; a support count below zero counts as zero. *)
Definition score_formula (h : HypothesisDict.t) : Q :=
  (conf_of h * weight_of h
   * (1 + (5 # 100) * inject_Z (Z.min (Z.max (support_of h) 0) 5))
   * (1 + (20 # 100) * signal_of h))%Q.

(** The final score: the formula rounded to four decimals. *)
Definition rounded_score (h : HypothesisDict.t) : Q := Py.round (score_formula h) 4.

(** ** Fingerprint *)

(** The last component of the fingerprinted key: the service of the
    normalised incident when it is a non-empty string; failing that, for
    Alertmanager alerts, the pod label when non-empty; else the empty
    string. *)
Definition service_component (src : Normalizer.IncidentSource)
    (a : Normalizer.alert) (p : Normalizer.payload) : string :=
  match Normalizer.service (Normalizer.normalize src a p) with
  | Some (String c s) => String c s
  | _ =>
      match src, Normalizer.labels a !! "pod" with
      | Normalizer.ALERTMANAGER, Some pod => pod
      | _, _ => ""
      end
  end.

Definition fingerprint_key (src : Normalizer.IncidentSource)
    (a : Normalizer.alert) (p : Normalizer.payload) : string :=
  Normalizer.source_value src +:+ ":" +:+ Normalizer.alertname_of src a p +:+ ":"
    +:+ Normalizer.namespace (Normalizer.normalize src a p) +:+ ":"
    +:+ service_component src a p.

(** ** Sample inputs *)

(** Evidence items as the collectors serialise them. *)
Definition pod_evidence (waiting terminated : option string) : RulesEngine.evidence :=
  RulesEngine.Evidence (Some "ev-pod") (Some "kubernetes_pod")
    (RulesEngine.EvidenceData waiting terminated (Some 6)
       false false [] None None false None None ∅).

Definition deploy_evidence : RulesEngine.evidence :=
  RulesEngine.Evidence (Some "ev-deploy") (Some "deploy_change")
    (RulesEngine.EvidenceData None None None true false [] None None false None None ∅).

Definition metric_evidence (name : string) (anomalous : bool) (current : Q)
  : RulesEngine.evidence :=
  RulesEngine.Evidence (Some "ev-metric") (Some "metric_signal")
    (RulesEngine.EvidenceData None None None false false [] None (Some name)
       anomalous (Some current) None ∅).

(** A pod that is still starting: no rule is about it. *)
Definition quiet_pod : RulesEngine.evidence :=
  RulesEngine.Evidence (Some "ev-1") (Some "kubernetes_pod")
    (RulesEngine.EvidenceData (Some "ContainerCreating") None (Some 0)
       false false [] None None false None None ∅).

(** Two failing pods on one node, and that node with DiskPressure. *)
Definition failing_node_evidence : list RulesEngine.evidence :=
  [ pod_evidence (Some "ContainerCreating") None;
    pod_evidence (Some "ContainerCreating") None;
    RulesEngine.Evidence (Some "ev-node") (Some "kubernetes_node")
      (RulesEngine.EvidenceData None None None false false [] None None false None
         (Some "node-1")
         {[ "Ready" := {[ "status" := "False" ]};
            "DiskPressure" := {[ "status" := "True" ]} ]}) ].



(** A hypothesis as the rules engine emits it for a crash loop after a
    recent deployment, and the fallback hypothesis. *)
Definition crashloop_hypothesis : HypothesisDict.t :=
  HypothesisDict.Make "h-1" "incident" (Some "bad_deployment") "Bad Deployment - CrashLoop"
    "The application started crash looping immediately after a deployment."
    (Some (88 # 100)%Q) (Some 0) [Some "ev-pod"; Some "ev-deploy"]
    ["rollback_deployment"] "rules_engine" "crashloop_recent_deploy"
    (Some 2) (Some (85 # 100)%Q) None.

Definition unknown_hypothesis : HypothesisDict.t :=
  RulesEngine._create_unknown_hypothesis "h-2" "incident" RulesEngine._init_signals.

(** Settings, incident and clusters for the blast radius. *)
Definition staging : RemediationOrchestrator.settings :=
  RemediationOrchestrator.Settings "staging" 50.

Definition api_in_default : RemediationOrchestrator.incident :=
  RemediationOrchestrator.Incident "default" (Some "api").

(** A cluster that answers the deployment read with an API error. *)
Definition cluster_api_error : RemediationOrchestrator.cluster :=
  RemediationOrchestrator.Cluster (Exn.Return tt)
    (fun _ _ => RemediationOrchestrator.ApiException "(500) Internal Server Error").

(** A cluster where the deployment has three replicas. *)
Definition cluster_three_replicas : RemediationOrchestrator.cluster :=
  RemediationOrchestrator.Cluster (Exn.Return tt)
    (fun _ _ => RemediationOrchestrator.Deployment (Some 3)).

(** The policy endpoint answers 503 with an HTML page. *)
Definition opa_unavailable (_ : OPAClient.input_data) : OPAClient.http_outcome :=
  OPAClient.Response 503 None.

(** Pods for the verifier; metrics without data, and a service with one
    healthy and one crashing pod. *)
Definition healthy_pod : RemediationVerifier.pod :=
  RemediationVerifier.Pod "Running"
    (Some [RemediationVerifier.PodCondition "Ready" "True"]).

Definition crashing_pod : RemediationVerifier.pod :=
  RemediationVerifier.Pod "Running"
    (Some [RemediationVerifier.PodCondition "Ready" "False"]).

Definition one_of_two_healthy : RemediationVerifier.world :=
  RemediationVerifier.World
    (fun _ => Exn.Return None)
    (Exn.Return tt)
    (fun _ _ => Exn.Return [healthy_pod; crashing_pod]).

Definition no_pods : RemediationVerifier.world :=
  RemediationVerifier.World (fun _ => Exn.Return None) (Exn.Return tt)
    (fun _ _ => Exn.Return []).

Definition checkout : RemediationVerifier.incident :=
  RemediationVerifier.Incident "shop" (Some "checkout").

(** Alerts. *)
Definition crashloop_alert (pod : string) : Normalizer.alert :=
  Normalizer.Alert
    {[ "alertname" := "PodCrashLooping"; "namespace" := "default";
       "pod" := pod; "severity" := "critical" ]} ∅ None.

Definition checkout_alert (pod : string) : Normalizer.alert :=
  Normalizer.Alert
    {[ "alertname" := "HighErrorRate"; "namespace" := "shop";
       "service" := "checkout"; "pod" := pod ]} ∅ None.

Definition empty_payload : Normalizer.payload := Normalizer.Payload ∅ ∅.

(** A range-query result with two infinite samples and one NaN. *)
Definition sample_series : MetricsCollector.series :=
  MetricsCollector.Series {[ "pod" := "api-1" ]}
    [(1%Q, "0.5"); (2%Q, "+Inf"); (3%Q, "1.5"); (4%Q, "-Inf"); (5%Q, "2");
     (6%Q, "NaN"); (7%Q, "3")].

(** ** Notions for the further properties *)

(** A lower-case hexadecimal digit. *)
Definition is_lower_hex (c : ascii) : Prop :=
  In c (list_ascii_of_string "0123456789abcdef").




(** ** What a single evidence item shows to the rules engine *)

Definition of_type (ty : string) (ev : RulesEngine.evidence) : bool :=
  match RulesEngine.evidence_type ev with
  | Some t => String.eqb t ty
  | None => false
  end.

(** A pod evidence item whose reason field is the non-empty text [x]. *)
Definition shows_reason (field : RulesEngine.evidence_data -> option string)
    (x : string) (ev : RulesEngine.evidence) : bool :=
  of_type "kubernetes_pod" ev
  && match field (RulesEngine.data ev) with
     | Some y => String.eqb y x && negb (String.eqb y "")
     | None => false
     end.

Definition shows_recent_deploy (ev : RulesEngine.evidence) : bool :=
  of_type "deploy_change" ev && RulesEngine.is_recent_change (RulesEngine.data ev).

Definition shows_log_pattern (x : string) (ev : RulesEngine.evidence) : bool :=
  of_type "log_signal" ev
  && List.existsb (String.eqb x) (RulesEngine.patterns_found (RulesEngine.data ev)).

Definition metric_name (ev : RulesEngine.evidence) : string :=
  default "" (RulesEngine.query_name (RulesEngine.data ev)).

Definition shows_memory_high (ev : RulesEngine.evidence) : bool :=
  of_type "metric_signal" ev
  && Py.contains "memory" (metric_name ev)
  && RulesEngine.is_anomalous (RulesEngine.data ev)
  && match RulesEngine.current_value (RulesEngine.data ev) with
     | Some c => Py.Qltb 90 c
     | None => false
     end.

Definition shows_hpa_at_max (ev : RulesEngine.evidence) : bool :=
  of_type "metric_signal" ev
  && Py.contains "hpa" (metric_name ev)
  && Py.contains "max" (metric_name ev)
  && match RulesEngine.current_value (RulesEngine.data ev) with
     | Some c => Qeq_bool c 1
     | None => false
     end.

Definition shows_latency_high (ev : RulesEngine.evidence) : bool :=
  of_type "metric_signal" ev
  && Py.contains "latency" (metric_name ev)
  && match RulesEngine.current_value (RulesEngine.data ev) with
     | Some c => Py.Qltb 1 c
     | None => false
     end.

Definition shows_node_issue (ev : RulesEngine.evidence) : bool :=
  of_type "kubernetes_node" ev
  && bool_decide
       (default ∅ (RulesEngine.node_conditions (RulesEngine.data ev) !! "Ready")
          !! "status" ≠ Some "True").

(** The aspects of the signal bundle that the condition checks read,
    what an evidence item shows of each, and what a bundle records. *)
Inductive aspect :=
| Waiting (x : string)
| Terminated (x : string)
| LogPattern (x : string)
| RecentDeploy
| MemoryHigh
| HpaAtMax
| LatencyHigh
| NodeIssue.

Definition shows (a : aspect) (ev : RulesEngine.evidence) : bool :=
  match a with
  | Waiting x => shows_reason RulesEngine.waiting_reason x ev
  | Terminated x => shows_reason RulesEngine.terminated_reason x ev
  | LogPattern x => shows_log_pattern x ev
  | RecentDeploy => shows_recent_deploy ev
  | MemoryHigh => shows_memory_high ev
  | HpaAtMax => shows_hpa_at_max ev
  | LatencyHigh => shows_latency_high ev
  | NodeIssue => shows_node_issue ev
  end.

Definition reads (a : aspect) (s : RulesEngine.signals) : bool :=
  match a with
  | Waiting x => bool_decide (x ∈ RulesEngine.waiting_reasons s)
  | Terminated x => bool_decide (x ∈ RulesEngine.terminated_reasons s)
  | LogPattern x => bool_decide (x ∈ RulesEngine.log_patterns s)
  | RecentDeploy => RulesEngine.has_recent_deploy s
  | MemoryHigh => RulesEngine.memory_usage_high s
  | HpaAtMax => RulesEngine.hpa_at_max s
  | LatencyHigh => RulesEngine.latency_high s
  | NodeIssue => bool_decide (RulesEngine.node_issues s ≠ ∅)
  end.

(** Two signal bundles that no condition check can tell apart. *)
Definition same_view (s s' : RulesEngine.signals) : Prop :=
  forall a : aspect, reads a s = reads a s'.

(** A hypothesis without its list of supporting evidence. *)
Definition forget_evidence (h : HypothesisDict.t) : HypothesisDict.t :=
  HypothesisDict.Make (HypothesisDict.id h) (HypothesisDict.incident_id h)
    (HypothesisDict.category h) (HypothesisDict.title h)
    (HypothesisDict.description h) (HypothesisDict.confidence h)
    (HypothesisDict.rank h) [] (HypothesisDict.recommended_actions h)
    (HypothesisDict.generated_by h) (HypothesisDict.rule_id h)
    (HypothesisDict.support_count h) (HypothesisDict.signal_strength h)
    (HypothesisDict.final_score h).

(** The ids of the rules that fire on a signal bundle, in catalog order. *)
Definition fired (rules : list RulesEngine.rule) (s : RulesEngine.signals)
  : list string :=
  List.map RulesEngine.rule_ident
    (List.filter (fun r => RulesEngine.matched (RulesEngine._match_rule r s)) rules).

(** The list of hypotheses contains one produced by rule [ident]. *)
Definition reports (ident : string) (hs : list HypothesisDict.t) : Prop :=
  exists h, In h hs /\ HypothesisDict.rule_id h = ident.

(** Rule id, category and confidence of the hypotheses the catalog can
    produce. *)
Definition catalog_outcomes : list (string * string * Q) :=
  [ ("crashloop_recent_deploy", "bad_deployment", 88 # 100);
    ("crashloop_no_change", "external_dependency", 75 # 100);
    ("oom_killed", "resource_exhaustion", 93 # 100);
    ("oom_high_memory", "resource_exhaustion", 82 # 100);
    ("image_pull_failure", "configuration_error", 93 # 100);
    ("hpa_maxed", "scaling_issue", 77 # 100);
    ("config_error", "configuration_error", 90 # 100);
    ("unknown", "unknown", 30 # 100) ]%Q.

(** An image change among the evidence. *)
Definition image_evidence : RulesEngine.evidence :=
  RulesEngine.Evidence (Some "ev-image") (Some "image_change")
    (RulesEngine.EvidenceData None None None false true [] None None false None None ∅).

(** Some evidence item shows the aspect. *)
Definition any_shows (a : aspect) (evs : list RulesEngine.evidence) : bool :=
  List.existsb (shows a) evs.

(** The catalog read as a table from evidence to rule ids: for each rule
    that can fire, what the evidence has to show. *)
Definition expected_rules (evs : list RulesEngine.evidence) : list string :=
  List.map fst
    (List.filter snd
       [ ("crashloop_recent_deploy",
          any_shows (Waiting "CrashLoopBackOff") evs && any_shows RecentDeploy evs);
         ("crashloop_no_change",
          any_shows (Waiting "CrashLoopBackOff") evs && negb (any_shows RecentDeploy evs));
         ("oom_killed", any_shows (Terminated "OOMKilled") evs);
         ("oom_high_memory", any_shows MemoryHigh evs);
         ("image_pull_failure",
          any_shows (Waiting "ImagePullBackOff") evs
          || any_shows (Waiting "ErrImagePull") evs
          || any_shows (Waiting "ImageInspectError") evs);
         ("hpa_maxed", any_shows HpaAtMax evs && any_shows LatencyHigh evs);
         ("config_error",
          any_shows (Terminated "ContainerCannotRun") evs
          || any_shows (Terminated "CreateContainerConfigError") evs) ]).

(** A crash loop right after a deployment, and the hypothesis the engine
    ranks first for it. *)
Definition crashloop_evidence : list RulesEngine.evidence :=
  [pod_evidence (Some "CrashLoopBackOff") None; deploy_evidence].

Definition crashloop_diagnosis : HypothesisDict.t :=
  List.hd unknown_hypothesis
    (RulesEngine.generate_hypotheses (fun _ => "uuid") "incident" crashloop_evidence).

(** ** Ingestion *)

(** A client calling [check_rate_limit] at the given times. *)
Fixpoint rate_limited_requests (times : list Z) (s : Redis.server) (key : string)
    (limit window_seconds : Z) : list (bool * Z) * Redis.server :=
  match times with
  | [] => ([], s)
  | t :: rest =>
      let '(r, s1) := RateLimiter.check_rate_limit t s key limit window_seconds in
      let '(rs, s2) := rate_limited_requests rest s1 key limit window_seconds in
      (r :: rs, s2)
  end.

(** A server that is reachable and holds no key. *)
Definition empty_redis : Redis.server := Redis.Server true ∅.

(** What [check_rate_limit] answers to the request that brings the
    counter to [count]. *)
Definition rate_answer (limit count : Z) : bool * Z :=
  (count <=? limit, Z.max 0 (limit - count)).

(** The requests come in time order, each less than [window] seconds
    after the one before ([prev] is the time of the request before the
    first). *)
Fixpoint within_window (window prev : Z) (times : list Z) : bool :=
  match times with
  | [] => true
  | t :: rest => (prev <=? t) && (t <? prev + window) && within_window window t rest
  end.

(** The alerts of a payload that lead to an incident: those that are
    firing and whose fingerprint the store does not know at [now]. *)
Definition is_new_firing (now : Z) (redis : Redis.server)
    (payload : Normalizer.payload) (a : Ingestion.raw_alert) : bool :=
  bool_decide (Ingestion.status a = Some "firing")
  && negb (AlertDeduplicator.check_duplicate now redis
             (Normalizer.fingerprint
                (Normalizer.normalize_alertmanager (Ingestion.body a) payload))).1.

(** A database that refuses nothing, and a payload that carries the same
    firing alert twice. *)
Definition empty_database : Ingestion.database := Ingestion.Database [] (fun _ => None).

Definition firing_twice : list Ingestion.raw_alert :=
  [Ingestion.RawAlert (Some "firing") (checkout_alert "checkout-1");
   Ingestion.RawAlert (Some "firing") (checkout_alert "checkout-1")].

(** The normalised form of an alert of an Alertmanager payload. *)
Definition normalized (payload : Normalizer.payload) (a : Ingestion.raw_alert)
  : Normalizer.IncidentCreate :=
  Normalizer.normalize_alertmanager (Ingestion.body a) payload.

(** An alert whose name has 501 characters. *)
Definition long_named_alert : Ingestion.raw_alert :=
  Ingestion.RawAlert (Some "firing")
    (Normalizer.Alert
       {[ "alertname" := string_of_list_ascii (List.repeat "a"%char 501) ]} ∅ None).

(** ** Workflow *)

(** The state [run] ends in when its body raises [e]. *)
Definition failed (e : string) (st : IncidentWorkflow.state) : IncidentWorkflow.state :=
  IncidentWorkflow.State ("failed: " +:+ e) (IncidentWorkflow.calls st)
    (IncidentWorkflow.dict_set "error" (OPAClient.JStr e)
       (IncidentWorkflow.dict_set "status" (OPAClient.JStr "failed")
          (IncidentWorkflow.result st))).

(** What holds after workflow code has run from [st]: [Q] when it
    returns, [R] when it raises. *)
Definition wp {A} (m : IncidentWorkflow.M A)
    (Q : A -> IncidentWorkflow.state -> Prop)
    (R : string -> IncidentWorkflow.state -> Prop)
    (st : IncidentWorkflow.state) : Prop :=
  match m st with
  | (st', Exn.Return a) => Q a st'
  | (st', Exn.Raise e) => R e st'
  end.

(** The activity [name] was invoked during the run. *)
Definition invoked (name : string) (st : IncidentWorkflow.state) : Prop :=
  In name (List.map fst (IncidentWorkflow.calls st)).

(** The activity [name] was invoked and returned a dictionary. *)
Definition returned (activities : string -> OPAClient.json -> Exn.outcome OPAClient.json)
    (name : string) (d : IncidentWorkflow.dict) (st : IncidentWorkflow.state) : Prop :=
  exists arg, In (name, arg) (IncidentWorkflow.calls st)
              /\ activities name arg = Exn.Return (OPAClient.JObj d).

(** [d.get(k)] is truthy. *)
Definition holds (d : IncidentWorkflow.dict) (k : string) : bool :=
  OPAClient.truthy (IncidentWorkflow.dict_get d k OPAClient.JNull).

(** The steps the result lists as completed. *)
Definition steps_completed (st : IncidentWorkflow.state) : list OPAClient.json :=
  match IncidentWorkflow.dict_get (IncidentWorkflow.result st) "steps_completed"
          (OPAClient.JArr []) with
  | OPAClient.JArr l => l
  | _ => []
  end.


(* ===================================================================== *)
(** * Part III: properties *)
(* ===================================================================== *)

(** ** SHA-256 test vectors (FIPS 180-4) *)

Example sha256_abc :
  Sha256.hexdigest "abc"
  = "ba7816bf8f01cfea414140de5dae2223b00361a396177a9cb410ff61f20015ad".
Proof. vm_compute. reflexivity. Qed.

Example sha256_empty :
  Sha256.hexdigest ""
  = "e3b0c44298fc1c149afbf4c8996fb92427ae41e4649b934ca495991b7852b855".
Proof. vm_compute. reflexivity. Qed.

Example sha256_two_blocks :
  Sha256.hexdigest "abcdbcdecdefdefgefghfghighijhijkijkljklmklmnlmnomnopnopq"
  = "248d6a61d20638b8e5c026930c3e6039a33ce45964ff2167f6ecedd419db06c1".
Proof. vm_compute. reflexivity. Qed.

(** ** Lists *)

Lemma firstn_incl {A} (n : nat) (l : list A) (x : A) :
  In x (firstn n l) -> In x l.
Proof.
  revert l. induction n as [|n IH]; intros [|y r]; simpl; try tauto.
  intros [->|H]; [by left|right; by apply IH].
Qed.

(** ** Sorting *)

Section SortFacts.
Context {A : Type} (key : A -> Q).

Lemma insert_desc_perm (x : A) (l : list A) :
  Py.insert_desc key x l ≡ₚ x :: l.
Proof.
  induction l as [|y r IH]; simpl; [reflexivity|].
  destruct (Py.Qltb (key x) (key y)); [|reflexivity].
  rewrite IH. apply Permutation_swap.
Qed.

Lemma sort_desc_perm (l : list A) : Py.sort_desc key l ≡ₚ l.
Proof.
  induction l as [|x r IH]; simpl; [reflexivity|].
  rewrite insert_desc_perm. by rewrite IH.
Qed.


Lemma sort_desc_nil_inv (l : list A) : Py.sort_desc key l = [] -> l = [].
Proof.
  intros H. apply Permutation_nil_r. rewrite <- H. symmetry. apply sort_desc_perm.
Qed.

Lemma desc_trans (a b c : A) : desc key a b -> desc key b c -> desc key a c.
Proof.
  unfold desc, Py.Qltb. rewrite !negb_false_iff, !Qle_bool_iff.
  intros H1 H2. by apply Qle_trans with (key b).
Qed.

Lemma insert_desc_sorted (x : A) (l : list A) :
  StronglySorted (desc key) l -> StronglySorted (desc key) (Py.insert_desc key x l).
Proof.
  induction 1 as [|y r Hs IH Hy]; simpl.
  - repeat constructor.
  - destruct (Py.Qltb (key x) (key y)) eqn:E.
    + constructor; [exact IH|].
      rewrite insert_desc_perm. constructor; [|exact Hy].
      unfold desc, Py.Qltb in *. apply negb_true_iff in E.
      rewrite negb_false_iff, Qle_bool_iff.
      apply Qlt_le_weak, Qnot_le_lt. intros H. apply Qle_bool_iff in H. congruence.
    + constructor; [by constructor|].
      constructor; [exact E|].
      eapply Forall_impl; [exact Hy|]. intros z Hz. by apply desc_trans with y.
Qed.

(** The sort returns a descending list... *)
Lemma sort_desc_sorted (l : list A) : StronglySorted (desc key) (Py.sort_desc key l).
Proof.
  induction l as [|x r IH]; simpl; [constructor|]. by apply insert_desc_sorted.
Qed.


Lemma sorted_desc_le (l : list A) :
  StronglySorted (desc key) l -> StronglySorted (fun a b => (key b <= key a)%Q) l.
Proof.
  induction 1 as [|x r Hs IH Hx]; constructor; [exact IH|].
  eapply Forall_impl; [exact Hx|]. intros y Hy.
  unfold desc, Py.Qltb in Hy. by rewrite negb_false_iff, Qle_bool_iff in Hy.
Qed.


End SortFacts.

Lemma insert_desc_ext {A} (k1 k2 : A -> Q) (x : A) (l : list A) :
  (forall a, k1 a = k2 a) -> Py.insert_desc k1 x l = Py.insert_desc k2 x l.
Proof.
  intros E. induction l as [|y r IH]; simpl; [reflexivity|].
  by rewrite !E, IH.
Qed.

Lemma sort_desc_ext {A} (k1 k2 : A -> Q) (l : list A) :
  (forall a, k1 a = k2 a) -> Py.sort_desc k1 l = Py.sort_desc k2 l.
Proof.
  intros E. induction l as [|x r IH]; simpl; [reflexivity|].
  by rewrite IH, (insert_desc_ext k1 k2).
Qed.

Lemma insert_desc_map {A B} (key : B -> Q) (f : A -> B) (x : A) (l : list A) :
  Py.insert_desc key (f x) (List.map f l)
  = List.map f (Py.insert_desc (fun a => key (f a)) x l).
Proof.
  induction l as [|y r IH]; simpl; [reflexivity|].
  destruct (Py.Qltb (key (f x)) (key (f y))); simpl; [by rewrite IH|reflexivity].
Qed.

(** Sorting the images by [key] is sorting the originals by [key ∘ f]. *)
Lemma sort_desc_map {A B} (key : B -> Q) (f : A -> B) (l : list A) :
  Py.sort_desc key (List.map f l)
  = List.map f (Py.sort_desc (fun a => key (f a)) l).
Proof.
  induction l as [|x r IH]; simpl; [reflexivity|].
  by rewrite IH, insert_desc_map.
Qed.

(** ** Rules engine *)

Section RulesEngineFacts.
Import RulesEngine.

Lemma processors_keep_ids ty f d s :
  processors ty = Some f -> evidence_ids (f d s) = evidence_ids s.
Proof.
  unfold processors.
  repeat (case_match; [intros [= <-]; reflexivity|]).
  discriminate.
Qed.

Lemma process_item_ids ev s :
  evidence_ids (_process_evidence_item ev s) = evidence_ids s ++ [ev_id ev].
Proof.
  unfold _process_evidence_item.
  destruct (evidence_type ev ≫= processors) as [f|] eqn:E; [|reflexivity].
  destruct (evidence_type ev) as [ty|]; [|discriminate].
  simpl in E. by rewrite (processors_keep_ids _ _ _ _ E).
Qed.

Lemma fold_items_ids evs s :
  evidence_ids (List.fold_left (fun s ev => _process_evidence_item ev s) evs s)
  = evidence_ids s ++ List.map ev_id evs.
Proof.
  revert s. induction evs as [|ev r IH]; intros s; simpl.
  - by rewrite app_nil_r.
  - rewrite IH, process_item_ids, <- app_assoc. reflexivity.
Qed.

(** The signal bundle records the evidence ids in input order. *)
Lemma extract_signals_ids evs :
  evidence_ids (_extract_signals evs) = List.map ev_id evs.
Proof. unfold _extract_signals. by rewrite fold_items_ids. Qed.

Lemma rules_loop_ids uuids inc rules s n :
  Forall (fun h => HypothesisDict.supporting_evidence_ids h
                   = firstn 5 (evidence_ids s))
         (rules_loop uuids inc rules s n).1.
Proof.
  revert n. induction rules as [|r rest IH]; intros n; simpl; [constructor|].
  destruct (matched (_match_rule r s)) eqn:E; [|apply IH].
  specialize (IH (S n)).
  destruct (rules_loop uuids inc rest s (S n)) as [hs n'] eqn:L. simpl in *.
  constructor; [|exact IH].
  unfold _match_rule. destruct (match_loop _ _). reflexivity.
Qed.

Lemma rules_loop_none uuids inc rules s n :
  (forall r, In r rules -> matched (_match_rule r s) = false) ->
  rules_loop uuids inc rules s n = ([], n).
Proof.
  revert n. induction rules as [|r rest IH]; intros n H; simpl; [reflexivity|].
  rewrite (H r) by (left; reflexivity).
  apply IH. intros r' Hr'. apply H. by right.
Qed.
End RulesEngineFacts.

(** C8. For the empty evidence list, and whenever no catalog rule fires,
    [generate_hypotheses] returns exactly one hypothesis: category
    [unknown], confidence 0.30, rank 1 and the generic action list. *)
Theorem C8_unknown_fallback :
  forall (uuids : nat -> string) (inc : string),
    (exists h,
        RulesEngine.generate_hypotheses uuids inc [] = [h]
        /\ HypothesisDict.category h = Some "unknown"
        /\ HypothesisDict.confidence h = Some (3 # 10)%Q
        /\ HypothesisDict.rank h = Some 1
        /\ HypothesisDict.recommended_actions h = RulesEngine.generic_actions)
    /\ (forall evs,
           (forall r, In r RulesEngine.DIAGNOSIS_RULES ->
                      RulesEngine.matched
                        (RulesEngine._match_rule r (RulesEngine._extract_signals evs))
                      = false) ->
           exists h,
             RulesEngine.generate_hypotheses uuids inc evs = [h]
             /\ HypothesisDict.category h = Some "unknown"
             /\ HypothesisDict.confidence h = Some (3 # 10)%Q
             /\ HypothesisDict.rank h = Some 1
             /\ HypothesisDict.recommended_actions h = RulesEngine.generic_actions).
Proof.
  intros uuids inc.
  assert (G : forall evs,
             (forall r, In r RulesEngine.DIAGNOSIS_RULES ->
                        RulesEngine.matched
                          (RulesEngine._match_rule r (RulesEngine._extract_signals evs))
                        = false) ->
             RulesEngine.generate_hypotheses uuids inc evs
             = [RulesEngine._create_unknown_hypothesis (uuids 0%nat) inc
                  (RulesEngine._extract_signals evs)]).
  { intros evs H.
    unfold RulesEngine.generate_hypotheses, RulesEngine.generate_hypotheses_with.
    rewrite (rules_loop_none uuids inc _ _ 0%nat H). reflexivity. }
  split.
  - rewrite G.
    + eexists. repeat split.
    + intros r Hr. simpl in Hr.
      repeat (destruct Hr as [<-|Hr]; [vm_compute; reflexivity|]).
      destruct Hr.
  - intros evs H. rewrite (G evs H). eexists. repeat split.
Qed.

Lemma C8_unknown_fallback_witness :
  exists h,
    RulesEngine.generate_hypotheses (fun _ => "uuid") "incident" [quiet_pod] = [h]
    /\ HypothesisDict.category h = Some "unknown"
    /\ HypothesisDict.confidence h = Some (3 # 10)%Q
    /\ HypothesisDict.rank h = Some 1
    /\ HypothesisDict.recommended_actions h = RulesEngine.generic_actions.
Proof.
  apply (proj2 (C8_unknown_fallback (fun _ => "uuid") "incident") [quiet_pod]).
  intros r Hr. simpl in Hr.
  repeat (destruct Hr as [<-|Hr]; [vm_compute; reflexivity|]).
  destruct Hr.
Defined.

(** C10. Every hypothesis the rules engine produces, from a matched rule
    or as the unknown fallback, carries as supporting evidence ids the
    first five evidence ids of the input, in input order; hence each of
    them is the id of an evidence item submitted with the incident. *)
Theorem C10_supporting_ids_first_five :
  forall (rules : list RulesEngine.rule) (uuids : nat -> string) (inc : string)
         (evs : list RulesEngine.evidence) (h : HypothesisDict.t),
    In h (RulesEngine.generate_hypotheses_with rules uuids inc evs) ->
    HypothesisDict.supporting_evidence_ids h
    = firstn 5 (List.map RulesEngine.ev_id evs)
    /\ (forall i, In i (HypothesisDict.supporting_evidence_ids h) ->
                  exists ev, In ev evs /\ RulesEngine.ev_id ev = i).
Proof.
  intros rules uuids inc evs h Hin.
  assert (E : HypothesisDict.supporting_evidence_ids h
              = firstn 5 (List.map RulesEngine.ev_id evs)).
  { unfold RulesEngine.generate_hypotheses_with in Hin.
    pose proof (rules_loop_ids uuids inc rules (RulesEngine._extract_signals evs) 0) as F.
    destruct (RulesEngine.rules_loop uuids inc rules _ 0%nat) as [hs n] eqn:L.
    simpl in F. rewrite extract_signals_ids in F.
    destruct (Py.sort_desc RulesEngine.confidence_key hs) as [|h0 r] eqn:S.
    - destruct Hin as [<-|[]]. simpl. by rewrite extract_signals_ids.
    - rewrite <- S in Hin.
      apply (proj1 (List.Forall_forall _ _) F).
      apply (Permutation_in h (sort_desc_perm RulesEngine.confidence_key hs) Hin). }
  split; [exact E|].
  intros i Hi. rewrite E in Hi.
  apply firstn_incl in Hi.
  apply in_map_iff in Hi. destruct Hi as (ev & <- & Hev). eauto.
Qed.

Lemma C10_supporting_ids_first_five_witness :
  HypothesisDict.supporting_evidence_ids
    (RulesEngine._create_unknown_hypothesis "uuid" "incident"
       (RulesEngine._extract_signals [quiet_pod]))
  = firstn 5 (List.map RulesEngine.ev_id [quiet_pod]).
Proof.
  apply (C10_supporting_ids_first_five RulesEngine.DIAGNOSIS_RULES
           (fun _ => "uuid") "incident" [quiet_pod]).
  vm_compute. left. reflexivity.
Defined.

(** ** Rule matching *)

Section MatchFacts.
Import RulesEngine.

Lemma check_unmatched_strength c s :
  check_matched (_check_condition c s) = false ->
  strength (_check_condition c s) = 0%Q.
Proof.
  unfold _check_condition.
  destruct (checks c s) as [[[] st]|]; simpl; [discriminate|reflexivity|reflexivity].
Qed.

Lemma match_loop_acc conds s n q :
  let r := List.fold_left
             (fun acc c =>
                let r := _check_condition c s in
                if check_matched r then (fst acc + 1, (snd acc + strength r)%Q) else acc)
             conds (n, q) in
  fst r = n + Z.of_nat (List.length (matching conds s))
  /\ (snd r == q + strength_sum conds s)%Q.
Proof.
  revert n q. induction conds as [|c rest IH]; intros n q; cbv zeta; simpl.
  - split; [lia|ring].
  - destruct (check_matched (_check_condition c s)) eqn:E; simpl.
    + destruct (IH (n + 1) (q + strength (_check_condition c s))%Q) as [H1 H2].
      cbv zeta in H1, H2. simpl in H1, H2. split.
      * rewrite H1.
        change (List.length (c :: matching rest s)) with (S (List.length (matching rest s))).
        lia.
      * rewrite H2. ring.
    + destruct (IH n q) as [H1 H2]. cbv zeta in H1, H2. simpl in H1, H2.
      split; [exact H1|].
      rewrite H2, (check_unmatched_strength c s E). ring.
Qed.

Lemma match_loop_count conds s :
  fst (match_loop conds s) = Z.of_nat (List.length (matching conds s)).
Proof. apply (match_loop_acc conds s 0 0%Q). Qed.

Lemma match_loop_strength conds s :
  (snd (match_loop conds s) == strength_sum conds s)%Q.
Proof.
  destruct (match_loop_acc conds s 0 0%Q) as [_ H].
  unfold match_loop. rewrite H. ring.
Qed.

Lemma matching_length_le conds s :
  (List.length (matching conds s) <= List.length conds)%nat.
Proof. apply List.filter_length_le. Qed.

Lemma matching_all conds s :
  List.length (matching conds s) = List.length conds ->
  forall c, In c conds -> check_matched (_check_condition c s) = true.
Proof.
  induction conds as [|c rest IH]; simpl; [tauto|].
  intros H c' Hc'.
  pose proof (matching_length_le rest s) as L. unfold matching in *.
  destruct (check_matched (_check_condition c s)) eqn:E; simpl in H.
  - destruct Hc' as [<-|Hc']; [exact E|]. apply IH; [lia|exact Hc'].
  - lia.
Qed.

Lemma matching_all_inv conds s :
  (forall c, In c conds -> check_matched (_check_condition c s) = true) ->
  matching conds s = conds.
Proof.
  induction conds as [|c rest IH]; simpl; [reflexivity|].
  intros H. rewrite (H c) by (by left). f_equal. apply IH.
  intros c' Hc'. apply H. by right.
Qed.

(** A rule fires exactly when it has a condition and all of its
    conditions match. *)
Lemma matched_iff r s :
  matched (_match_rule r s) = true
  <-> rule_conditions r <> []
      /\ forall c, In c (rule_conditions r) ->
                   check_matched (_check_condition c s) = true.
Proof.
  unfold _match_rule.
  pose proof (match_loop_count (rule_conditions r) s) as C.
  destruct (match_loop (rule_conditions r) s) as [n q]. simpl in *. subst n.
  rewrite andb_true_iff, Z.eqb_eq, Z.ltb_lt. split.
  - intros [H1 H2]. split.
    + intros E. rewrite E in H2. simpl in H2. lia.
    + apply matching_all. lia.
  - intros [H1 H2]. rewrite (matching_all_inv _ _ H2). split; [reflexivity|].
    destruct (rule_conditions r); [congruence|simpl; lia].
Qed.

(** A condition whose type is outside the table of [_check_condition]
    never matches, so a rule containing one never fires. *)
Lemma unknown_type_never_matches c s :
  checks c s = None -> check_matched (_check_condition c s) = false.
Proof. unfold _check_condition. intros ->. reflexivity. Qed.

Lemma rule_with_unmatched_condition r s c :
  In c (rule_conditions r) ->
  check_matched (_check_condition c s) = false ->
  matched (_match_rule r s) = false.
Proof.
  intros Hin Hc. apply not_true_is_false. intros M.
  apply matched_iff in M. destruct M as [_ M].
  rewrite (M c Hin) in Hc. discriminate.
Qed.

Lemma never_fires ident r c s :
  find_rule ident = Some r ->
  In c (rule_conditions r) ->
  checks c s = None ->
  (fun r => matched (_match_rule r s)) <$> find_rule ident = Some false.
Proof.
  intros -> Hin Hc. simpl. apply (f_equal Some).
  apply (rule_with_unmatched_condition r s c Hin).
  by apply unknown_type_never_matches.
Qed.

End MatchFacts.

(** C5 (the code departs from the claim). Three catalog rules contain a
    condition type that [_check_condition] has no entry for
    (multiple_pods_same_node; pod_not_ready and readiness_probe_failing;
    network_errors_high). Whatever the evidence, these rules do not fire;
    on the evidence the rule node_failure_isolated describes the engine
    returns the unknown hypothesis alone. *)
Theorem C5_three_rules_never_fire :
  forall evs : list RulesEngine.evidence,
    let s := RulesEngine._extract_signals evs in
    (fun r => RulesEngine.matched (RulesEngine._match_rule r s))
      <$> RulesEngine.find_rule "node_failure_isolated" = Some false
    /\ (fun r => RulesEngine.matched (RulesEngine._match_rule r s))
         <$> RulesEngine.find_rule "readiness_probe_failing" = Some false
    /\ (fun r => RulesEngine.matched (RulesEngine._match_rule r s))
         <$> RulesEngine.find_rule "network_error" = Some false
    (* two failing pods on a node with DiskPressure: only the fallback *)
    /\ List.map HypothesisDict.rule_id
         (RulesEngine.generate_hypotheses (fun _ => "uuid") "incident"
            failing_node_evidence)
       = ["unknown"].
Proof.
  intros evs s.
  pose (dflt := RulesEngine.Rule "" "" [] RulesEngine.UNKNOWN "" "" 0%Q []).
  split; [|split; [|split; [|vm_compute; reflexivity]]].
  - apply (never_fires _ (nth 5 RulesEngine.DIAGNOSIS_RULES dflt)
             (RulesEngine.cond "multiple_pods_same_node"));
      [vm_compute; reflexivity | vm_compute; left; reflexivity | reflexivity].
  - apply (never_fires _ (nth 7 RulesEngine.DIAGNOSIS_RULES dflt)
             (RulesEngine.cond "pod_not_ready"));
      [vm_compute; reflexivity | vm_compute; left; reflexivity | reflexivity].
  - apply (never_fires _ (nth 9 RulesEngine.DIAGNOSIS_RULES dflt)
             (RulesEngine.cond "network_errors_high"));
      [vm_compute; reflexivity | vm_compute; right; left; reflexivity | reflexivity].
Qed.

(** The seven other catalog rules do fire, each on evidence of the kind
    its conditions describe, and yield the category of the catalog. *)
Lemma seven_rules_can_fire :
  fires "crashloop_recent_deploy" "bad_deployment"
    [pod_evidence (Some "CrashLoopBackOff") None; deploy_evidence] = true
  /\ fires "crashloop_no_change" "external_dependency"
       [pod_evidence (Some "CrashLoopBackOff") None] = true
  /\ fires "oom_killed" "resource_exhaustion"
       [pod_evidence None (Some "OOMKilled")] = true
  /\ fires "oom_high_memory" "resource_exhaustion"
       [metric_evidence "memory_usage_percent" true 95] = true
  /\ fires "image_pull_failure" "configuration_error"
       [pod_evidence (Some "ImagePullBackOff") None] = true
  /\ fires "hpa_maxed" "scaling_issue"
       [metric_evidence "hpa_at_max" false 1;
        metric_evidence "latency_p99" false 3] = true
  /\ fires "config_error" "configuration_error"
       [pod_evidence None (Some "CreateContainerConfigError")] = true.
Proof. vm_compute. repeat split. Qed.

(** ** Rounding *)

Lemma round_half_even_proper (x y : Q) :
  (x == y)%Q -> Py.round_half_even x = Py.round_half_even y.
Proof.
  intros E. unfold Py.round_half_even.
  rewrite (Qfloor_comp _ _ E).
  assert (C : ((x - inject_Z (Qfloor y) ?= 1 # 2) = (y - inject_Z (Qfloor y) ?= 1 # 2))%Q).
  { apply Qcompare_comp; [rewrite E|]; reflexivity. }
  rewrite C. reflexivity.
Qed.

Lemma round_proper (x y : Q) (n : nat) :
  (x == y)%Q -> Py.round x n = Py.round y n.
Proof.
  intros E. unfold Py.round.
  rewrite (round_half_even_proper (x * inject_Z (10 ^ Z.of_nat n))
                                  (y * inject_Z (10 ^ Z.of_nat n))); [reflexivity|].
  rewrite E. reflexivity.
Qed.

Lemma Qltb_proper (a b c d : Q) :
  (a == c)%Q -> (b == d)%Q -> Py.Qltb a b = Py.Qltb c d.
Proof.
  intros E1 E2. unfold Py.Qltb. f_equal.
  apply eq_true_iff_eq. rewrite !Qle_bool_iff. rewrite E1, E2. reflexivity.
Qed.

Lemma py_min_proper (a b c d : Q) :
  (a == c)%Q -> (b == d)%Q -> (Py.min a b == Py.min c d)%Q.
Proof.
  intros E1 E2. unfold Py.min. rewrite (Qltb_proper b a d c E2 E1).
  destruct (Py.Qltb d c); assumption.
Qed.

Lemma Qltb_lt (a b : Q) : Py.Qltb a b = true <-> (a < b)%Q.
Proof.
  unfold Py.Qltb. rewrite negb_true_iff, <- not_true_iff_false, Qle_bool_iff.
  split; [apply Qnot_le_lt | apply Qlt_not_le].
Qed.

(** ** Confidence of a matched rule *)

Lemma spec_confidence_proper base s1 s2 n m :
  (s1 == s2)%Q -> (spec_confidence base s1 n m == spec_confidence base s2 n m)%Q.
Proof.
  intros E. unfold spec_confidence.
  destruct (2 <? m); [apply py_min_proper; [|reflexivity]|]; rewrite E; reflexivity.
Qed.


(** The confidence of a matched rule: the unrounded value of the
    specification, rounded to three decimals. *)
Lemma confidence_of_matched r s uuid inc :
  RulesEngine.matched (RulesEngine._match_rule r s) = true ->
  let n := Z.of_nat (List.length (RulesEngine.rule_conditions r)) in
  HypothesisDict.confidence
    (RulesEngine._create_hypothesis uuid inc r (RulesEngine._match_rule r s))
  = Some (Py.round
            (spec_confidence (RulesEngine.confidence_base r)
               (strength_sum (RulesEngine.rule_conditions r) s) n n) 3).
Proof.
  intros M n.
  pose proof (proj1 (matched_iff r s) M) as [Hne Hall].
  unfold RulesEngine._create_hypothesis, RulesEngine._match_rule. simpl.
  pose proof (match_loop_count (RulesEngine.rule_conditions r) s) as C.
  pose proof (match_loop_strength (RulesEngine.rule_conditions r) s) as S.
  destruct (RulesEngine.match_loop (RulesEngine.rule_conditions r) s) as [k q].
  simpl in *. rewrite (matching_all_inv _ _ Hall) in C. subst k. fold n.
  assert (Hn : 0 < n).
  { subst n. destruct (RulesEngine.rule_conditions r); [congruence|simpl; lia]. }
  rewrite Z.max_l by lia.
  f_equal. unfold RulesEngine._calculate_confidence, spec_confidence.
  apply round_proper.
  destruct (2 <? n).
  - apply py_min_proper; [|reflexivity]. rewrite S. ring.
  - rewrite S. ring.
Qed.

Lemma matched_strength c s :
  RulesEngine.check_matched (RulesEngine._check_condition c s) = true ->
  RulesEngine.strength (RulesEngine._check_condition c s) = type_strength c.
Proof.
  unfold type_strength, RulesEngine._check_condition, RulesEngine.checks.
  repeat (case_match; simplify_eq; simpl; try reflexivity; try discriminate).
Qed.

Lemma matched_strength_sum conds s :
  (forall c, In c conds ->
             RulesEngine.check_matched (RulesEngine._check_condition c s) = true) ->
  strength_sum conds s
  = List.fold_right (fun c acc => (type_strength c + acc)%Q) 0%Q conds.
Proof.
  induction conds as [|c r IH]; intros H; simpl; [reflexivity|].
  rewrite (matched_strength c s) by (apply H; by left).
  rewrite IH; [reflexivity|]. intros c' Hc'. apply H. by right.
Qed.

(** On the catalog the rounding is invisible: every catalog rule that
    fires gets exactly 0.6 * base + 0.4 * average strength. *)
Lemma catalog_confidence_exact r s uuid inc :
  In r RulesEngine.DIAGNOSIS_RULES ->
  RulesEngine.matched (RulesEngine._match_rule r s) = true ->
  let n := Z.of_nat (List.length (RulesEngine.rule_conditions r)) in
  exists q,
    HypothesisDict.confidence
      (RulesEngine._create_hypothesis uuid inc r (RulesEngine._match_rule r s))
    = Some q
    /\ (q == (6 # 10) * RulesEngine.confidence_base r
             + (4 # 10) * (strength_sum (RulesEngine.rule_conditions r) s / inject_Z n))%Q.
Proof.
  intros Hin M n. eexists. split; [apply (confidence_of_matched r s uuid inc M)|].
  pose proof (proj1 (matched_iff r s) M) as [_ Hall].
  rewrite (matched_strength_sum _ s Hall). fold n.
  simpl in Hin.
  repeat (destruct Hin as [<-|Hin]; [vm_compute; reflexivity|]).
  destruct Hin.
Qed.



(** ** Ranker *)

Section RankerFacts.
Import HypothesisRanker.

Lemma raw_score_formula h : (raw_score h == score_formula h)%Q.
Proof.
  unfold raw_score, score_formula, conf_of, weight_of, support_of, signal_of.
  destruct (0 <? default 0 (HypothesisDict.support_count h)) eqn:E.
  - apply Z.ltb_lt in E. rewrite Z.max_l by lia. ring.
  - apply Z.ltb_ge in E. rewrite Z.max_r by lia.
    rewrite Z.min_l by lia. change (inject_Z 0) with 0%Q. ring.
Qed.

Lemma with_score_key h : final_score_key (with_score h) = rounded_score h.
Proof.
  unfold final_score_key, with_score, rounded_score. simpl.
  apply round_proper, raw_score_formula.
Qed.





Lemma rank_unfold hs :
  rank hs = assign_ranks 0 (List.map with_score (Py.sort_desc rounded_score hs)).
Proof.
  destruct hs as [|h r]; [reflexivity|].
  unfold rank. rewrite sort_desc_map. do 2 f_equal.
  apply sort_desc_ext. intros a. apply with_score_key.
Qed.

End RankerFacts.




(** The two sample hypotheses, ranked: the crash loop comes first. *)
Example rank_sample :
  List.map (fun h => (HypothesisDict.rule_id h, HypothesisDict.rank h))
    (HypothesisRanker.rank [unknown_hypothesis; crashloop_hypothesis])
  = [("crashloop_recent_deploy", Some 1); ("unknown", Some 2)].
Proof. vm_compute. reflexivity. Qed.

(** Rounding also decides the order: two scores that differ in the fifth
    decimal tie after rounding, and the earlier hypothesis stays first
    although its unrounded score is the smaller one. *)
Example rounding_makes_ties :
  let h (name : string) (c : Q) :=
    HypothesisDict.Make name "incident" (Some "dependency_failure") "" ""
      (Some c) (Some 0) [] [] "rules_engine" name (Some 0) (Some 0%Q) None in
  List.map HypothesisDict.id
    (HypothesisRanker.rank [h "first" (50001 # 100000); h "second" (50002 # 100000)])
  = ["first"; "second"].
Proof. vm_compute. reflexivity. Qed.

(** ** Blast radius *)

Section BlastRadiusFacts.
Import Exn RemediationOrchestrator.

Lemma round_half_even_Z (k : Z) : Py.round_half_even (inject_Z k) = k.
Proof.
  unfold Py.round_half_even. rewrite Qfloor_Z.
  assert (E : (inject_Z k - inject_Z k ?= 1 # 2)%Q = Lt).
  { unfold Qcompare, Qminus, Qplus, Qopp, inject_Z. simpl.
    apply Z.compare_lt_iff. lia. }
  by rewrite E.
Qed.

(** Rounding a number that already has at most [n] decimals changes
    nothing. *)
Lemma round_exact (q : Q) (n : nat) (k : Z) :
  (q * inject_Z (10 ^ Z.of_nat n) == inject_Z k)%Q -> (Py.round q n == q)%Q.
Proof.
  intros E. unfold Py.round.
  rewrite (round_half_even_proper _ _ E), round_half_even_Z, <- E.
  field. intros H.
  assert (P : 0 < 10 ^ Z.of_nat n) by (apply Z.pow_pos_nonneg; lia).
  unfold Qeq in H. simpl in H. lia.
Qed.

Lemma py_min_Qmin (a b : Q) : (Py.min a b == Qmin a b)%Q.
Proof.
  unfold Py.min. destruct (Py.Qltb b a) eqn:E.
  - apply Qltb_lt in E. symmetry. apply Q.min_r. by apply Qlt_le_weak.
  - symmetry. apply Q.min_l.
    unfold Py.Qltb in E. by rewrite negb_false_iff, Qle_bool_iff in E.
Qed.

Lemma env_multiplier_cases (env : string) :
  In (default 3%Q (env_multiplier env)) [1; 2; 25 # 10; 5; 3]%Q.
Proof.
  unfold env_multiplier.
  repeat (case_match; [simpl; tauto|]). simpl; tauto.
Qed.

(** Every score is a multiple of a quarter. *)
Lemma final_score_quarters (i : incident) (p d : Z) (env : string) :
  exists z : Z,
    (Py.min (base_score i p d * default 3%Q (env_multiplier env)) 100 * 4
     == inject_Z z)%Q.
Proof.
  assert (B : exists b, (base_score i p d * 2 == inject_Z b)%Q).
  { unfold base_score. destruct (in_critical (namespace i)).
    - exists ((p * 5 + d * 10) * 3). rewrite inject_Z_mult. field.
    - exists ((p * 5 + d * 10) * 2). rewrite inject_Z_mult. field. }
  destruct B as [b Hb].
  assert (M : exists m, (default 3%Q (env_multiplier env) * 2 == inject_Z m)%Q).
  { pose proof (env_multiplier_cases env) as H. simpl in H.
    destruct H as [<-|[<-|[<-|[<-|[<-|[]]]]]];
      [exists 2|exists 4|exists 5|exists 10|exists 6]; reflexivity. }
  destruct M as [m Hm].
  unfold Py.min. destruct (Py.Qltb _ _).
  - exists 400. reflexivity.
  - exists (b * m). rewrite inject_Z_mult, <- Hb, <- Hm. ring.
Qed.

Lemma round_final_score (i : incident) (p d : Z) (env : string) :
  let final := Py.min (base_score i p d * default 3%Q (env_multiplier env)) 100 in
  (Py.round final 2 == final)%Q.
Proof.
  intros final. destruct (final_score_quarters i p d env) as [z Hz].
  apply (round_exact final 2 (25 * z)).
  rewrite inject_Z_mult, <- Hz. change (inject_Z (10 ^ Z.of_nat 2)) with 100%Q.
  change (inject_Z 25) with 25%Q. subst final. ring.
Qed.

(** What [calculate_blast_radius] returns once the configuration is
    loaded and the deployment lookup has settled on [p] pods and [d]
    deployments. *)
Lemma blast_radius_assessed st k i p d :
  load_config k = Return tt ->
  read_deployment k i = Return (p, d) ->
  let r := calculate_blast_radius st k i in
  let base := (inject_Z (5 * p + 10 * d)
               * (if in_critical (namespace i) then 15 # 10 else 1))%Q in
  let multiplier := default 3%Q (env_multiplier (Py.lower (app_env st))) in
  (score r == Qmin (base * multiplier) 100)%Q
  /\ (is_acceptable r = true <-> (score r < remediation_max_blast_radius st)%Q)
  /\ affected_pods r = Some p /\ affected_deployments r = Some d
  /\ error r = None.
Proof.
  intros L R r base multiplier. subst r.
  unfold calculate_blast_radius. rewrite L, R. simpl.
  pose proof (round_final_score i p d (Py.lower (app_env st))) as E. simpl in E.
  assert (F : (base_score i p d == base)%Q).
  { unfold base_score, base. replace (p * 5 + d * 10) with (5 * p + 10 * d) by lia.
    destruct (in_critical (namespace i)); ring. }
  split; [|split; [|repeat split]].
  - rewrite E, py_min_Qmin. fold multiplier. rewrite F. reflexivity.
  - rewrite Qltb_lt, E. reflexivity.
Qed.

Lemma blast_radius_failed st k i e :
  (load_config k = Raise e
   \/ (load_config k = Return tt /\ read_deployment k i = Raise e)) ->
  let r := calculate_blast_radius st k i in
  score r = 100%Q /\ is_acceptable r = false /\ error r = Some e.
Proof.
  intros [L|[L R]]; unfold calculate_blast_radius; rewrite L; simpl;
    [|rewrite R; simpl]; repeat split.
Qed.

End BlastRadiusFacts.

(** C6 (the claim as stated fails). The deployment read fails with an API
    error: the score is 0 and the action is acceptable, not 100 and
    unacceptable. *)
Lemma C6_counterexample :
  let r := RemediationOrchestrator.calculate_blast_radius
             staging cluster_api_error api_in_default in
  (RemediationOrchestrator.score r == 0)%Q
  /\ RemediationOrchestrator.is_acceptable r = true.
Proof. vm_compute. split; reflexivity. Qed.

(** C6 (as amended). With the configuration loaded and the deployment
    found, the score is min(base * envMultiplier, 100) for
    base = 5 * affectedPods + 10 * affectedDeployments, times 1.5 exactly
    for the namespaces default, platform and core-services, with the
    multipliers dev 1.0, staging 2.0, uat 2.5, prod 5.0 and 3.0 otherwise,
    and [is_acceptable] holds iff the score is strictly below
    [remediation_max_blast_radius]. An incident without service, or an
    API error of the deployment read, leaves both counts at 0. When
    loading the configuration fails, or the deployment read fails with
    anything but an API error, the score is 100 and [is_acceptable] is
    false. Three replicas of one deployment in namespace default under
    staging score 75. *)
Theorem C6_blast_radius :
  forall (st : RemediationOrchestrator.settings)
         (k : RemediationOrchestrator.cluster)
         (i : RemediationOrchestrator.incident),
    let r := RemediationOrchestrator.calculate_blast_radius st k i in
    let ns := RemediationOrchestrator.namespace i in
    let svc := RemediationOrchestrator.service i in
    let critical := bool_decide (ns = "default" \/ ns = "platform" \/ ns = "core-services") in
    let multiplier :=
      default 3%Q (RemediationOrchestrator.env_multiplier
                     (Py.lower (RemediationOrchestrator.app_env st))) in
    let scored (p d : Z) :=
      (RemediationOrchestrator.score r
       == Qmin (inject_Z (5 * p + 10 * d) * (if critical then 15 # 10 else 1) * multiplier)
               100)%Q
      /\ (RemediationOrchestrator.is_acceptable r = true
          <-> (RemediationOrchestrator.score r
               < RemediationOrchestrator.remediation_max_blast_radius st)%Q) in
    (* the multipliers *)
    List.map RemediationOrchestrator.env_multiplier ["dev"; "staging"; "uat"; "prod"]
    = [Some 1; Some 2; Some (25 # 10); Some 5]%Q
    (* the deployment is found *)
    /\ (forall replicas,
           RemediationOrchestrator.load_config k = Exn.Return tt ->
           Py.truthy_str svc = true ->
           RemediationOrchestrator.read_namespaced_deployment k (default "" svc) ns
           = RemediationOrchestrator.Deployment replicas ->
           scored (match replicas with
                   | Some n => if n =? 0 then 1 else n
                   | None => 1
                   end) 1)
    (* no service, or an API error: nothing is counted *)
    /\ (RemediationOrchestrator.load_config k = Exn.Return tt ->
        (Py.truthy_str svc = false
         \/ exists e,
             RemediationOrchestrator.read_namespaced_deployment k (default "" svc) ns
             = RemediationOrchestrator.ApiException e) ->
        scored 0 0)
    (* any other failure *)
    /\ (forall e,
           (RemediationOrchestrator.load_config k = Exn.Raise e
            \/ (RemediationOrchestrator.load_config k = Exn.Return tt
                /\ Py.truthy_str svc = true
                /\ RemediationOrchestrator.read_namespaced_deployment k (default "" svc) ns
                   = RemediationOrchestrator.OtherException e)) ->
           RemediationOrchestrator.score r = 100%Q
           /\ RemediationOrchestrator.is_acceptable r = false)
    (* 3 replicas of 1 deployment, namespace default, staging *)
    /\ (RemediationOrchestrator.score
          (RemediationOrchestrator.calculate_blast_radius
             staging cluster_three_replicas api_in_default) == 75)%Q.
Proof.
  intros st k i r ns svc critical multiplier scored.
  assert (C : RemediationOrchestrator.in_critical ns = critical).
  { subst critical. unfold RemediationOrchestrator.in_critical. simpl.
    rewrite orb_false_r. apply eq_true_iff_eq.
    rewrite !orb_true_iff, !String.eqb_eq, bool_decide_eq_true. reflexivity. }
  assert (S : forall p d,
             RemediationOrchestrator.load_config k = Exn.Return tt ->
             RemediationOrchestrator.read_deployment k i = Exn.Return (p, d) ->
             scored p d).
  { intros p d L R.
    destruct (blast_radius_assessed st k i p d L R) as (H1 & H2 & _).
    cbv zeta in H1, H2. fold ns in H1. rewrite C in H1. split; assumption. }
  split; [reflexivity|].
  split; [|split; [|split; [|vm_compute; reflexivity]]].
  - intros replicas L T R. apply S; [exact L|].
    unfold RemediationOrchestrator.read_deployment.
    fold svc ns. rewrite T, R. reflexivity.
  - intros L [T|[e R]]; apply S; try exact L;
      unfold RemediationOrchestrator.read_deployment; fold svc ns.
    + rewrite T. reflexivity.
    + rewrite R. destruct (Py.truthy_str svc); reflexivity.
  - intros e H.
    destruct (blast_radius_failed st k i e) as (H1 & H2 & _); [|by split].
    destruct H as [L|(L & T & R)]; [by left|right; split; [exact L|]].
    unfold RemediationOrchestrator.read_deployment. fold svc ns.
    rewrite T, R. reflexivity.
Qed.

Lemma C6_blast_radius_witness :
  (RemediationOrchestrator.score
     (RemediationOrchestrator.calculate_blast_radius
        staging cluster_three_replicas api_in_default)
   == Qmin (inject_Z (5 * 3 + 10 * 1) * (15 # 10) * 2) 100)%Q
  /\ (RemediationOrchestrator.is_acceptable
        (RemediationOrchestrator.calculate_blast_radius
           staging cluster_three_replicas api_in_default) = true
      <-> (RemediationOrchestrator.score
             (RemediationOrchestrator.calculate_blast_radius
                staging cluster_three_replicas api_in_default)
           < 50)%Q).
Proof.
  apply (proj1 (proj2 (C6_blast_radius staging cluster_three_replicas api_in_default))
           (Some 3)); reflexivity.
Defined.

(** The scenario of the specification: 3 replicas, namespace default,
    staging. *)
Lemma blast_radius_scenario :
  (RemediationOrchestrator.score
     (RemediationOrchestrator.calculate_blast_radius
        staging cluster_three_replicas api_in_default) == 75)%Q
  /\ RemediationOrchestrator.is_acceptable
       (RemediationOrchestrator.calculate_blast_radius
          staging cluster_three_replicas api_in_default) = false.
Proof. vm_compute. split; reflexivity. Qed.

(** ** Policy gate *)

Section PolicyFacts.
Import Exn OPAClient.

Lemma query_failed_raises opa i :
  query_failed (opa i) = true -> exists e, _query_opa opa i = Raise e.
Proof.
  unfold query_failed, _query_opa, raise_for_status.
  destruct (opa i) as [e|status body]; [eauto|].
  destruct ((200 <=? status) && (status <=? 299)); simpl; [|eauto].
  destruct body; [discriminate|eauto].
Qed.

End PolicyFacts.

(** C7. When the policy query fails (transport error, status outside
    2xx, unparsable body) [evaluate_remediation] returns allow = false and
    requires_approval = true with an error reason; no exception leaves
    the call, and a failed query never yields a truthy allow. *)
Theorem C7_policy_fails_closed :
  forall (opa : OPAClient.input_data -> OPAClient.http_outcome)
         (now_hour now_weekday : Z) (action_type environment : string)
         (blast_radius_score : Q) (namespace : string) (affected_replicas : Z),
    let i := OPAClient.InputData action_type environment blast_radius_score
               namespace affected_replicas now_hour (5 <=? now_weekday) false in
    let result := OPAClient.evaluate_remediation opa now_hour now_weekday
                    action_type environment blast_radius_score namespace
                    affected_replicas in
    (exists d, result = Exn.Return d)
    /\ (query_failed (opa i) = true ->
        exists e,
          result
          = Exn.Return
              (OPAClient.Decision (OPAClient.JBool false) (OPAClient.JBool true)
                 (OPAClient.JArr [OPAClient.JStr ("Policy evaluation error: " +:+ e)])
                 ("Policy evaluation error: " +:+ e)))
    /\ (query_failed (opa i) = true ->
        forall d, result = Exn.Return d ->
                  OPAClient.truthy (OPAClient.allow d) = false
                  /\ OPAClient.truthy (OPAClient.requires_approval d) = true).
Proof.
  intros opa h wd a env sc ns n i result.
  assert (F : query_failed (opa i) = true ->
              exists e,
                result
                = Exn.Return
                    (OPAClient.Decision (OPAClient.JBool false) (OPAClient.JBool true)
                       (OPAClient.JArr [OPAClient.JStr ("Policy evaluation error: " +:+ e)])
                       ("Policy evaluation error: " +:+ e))).
  { intros Q. destruct (query_failed_raises opa i Q) as [e E]. exists e.
    subst result. unfold OPAClient.evaluate_remediation. fold i. rewrite E.
    reflexivity. }
  split; [eexists; reflexivity|].
  split; [exact F|].
  intros Q d E. destruct (F Q) as [e E']. rewrite E' in E.
  injection E as <-. split; reflexivity.
Qed.

Lemma C7_policy_fails_closed_witness :
  exists e,
    OPAClient.evaluate_remediation opa_unavailable 14 2
      "restart_pod" "prod" 30 "default" 3
    = Exn.Return
        (OPAClient.Decision (OPAClient.JBool false) (OPAClient.JBool true)
           (OPAClient.JArr [OPAClient.JStr ("Policy evaluation error: " +:+ e)])
           ("Policy evaluation error: " +:+ e)).
Proof.
  apply (proj1 (proj2 (C7_policy_fails_closed opa_unavailable 14 2
                         "restart_pod" "prod" 30 "default" 3))).
  reflexivity.
Defined.

(** For contrast: an affirmative answer is passed on. *)
Example policy_allows :
  OPAClient.evaluate_remediation
    (fun _ => OPAClient.Response 200
                (Some (OPAClient.JObj
                         [("result",
                           OPAClient.JObj [("allow", OPAClient.JBool true);
                                           ("requires_approval", OPAClient.JBool false)])])))
    14 2 "restart_pod" "dev" 30 "default" 3
  = Exn.Return (OPAClient.Decision (OPAClient.JBool true) (OPAClient.JBool false)
                  (OPAClient.JArr []) "allowed").
Proof. reflexivity. Qed.

(** ** Verifier *)

Section VerifierFacts.
Import Exn RemediationVerifier.

(** What [verify] reports as success, in terms of the number of healthy
    pods: it is truthy exactly when the pod listing worked and at least
    one pod is healthy. *)
Lemma verify_success_truthy w i :
  truthy (success (verify w i)) = truthy (get_healthy (pod_health (verify w i))).
Proof.
  unfold verify. simpl. unfold py_and, py_or.
  destruct (_check_error_rate w (namespace i) (service i)) as [? ? []|?];
    destruct (_check_restart_rate w (namespace i) (service i)) as [? ? []|?];
    simpl;
    destruct (truthy (get_healthy (_check_pod_health w (namespace i) (service i))))
      eqn:E; simpl; rewrite ?E; reflexivity.
Qed.

Lemma some_healthy (pods : list pod) :
  negb (Z.of_nat (List.length (List.filter _is_pod_healthy pods)) =? 0)
  = List.existsb _is_pod_healthy pods.
Proof.
  induction pods as [|p r IH]; [reflexivity|]. simpl.
  destruct (_is_pod_healthy p); simpl; [|exact IH].
  destruct (Z.eqb_spec (Z.pos (Pos.of_succ_nat (List.length (List.filter _is_pod_healthy r)))) 0);
    [lia|reflexivity].
Qed.

(** With the pods listed, [verify] reports success exactly when some pod
    is healthy, whatever the metrics say; the specification asks for all
    of them. *)
Lemma verify_success_some_healthy w i pods :
  init_kube_config w = Return tt ->
  list_namespaced_pod w (namespace i)
    (if Py.truthy_str (service i) then Some ("app=" +:+ default "" (service i)) else None)
  = Return pods ->
  truthy (success (verify w i)) = List.existsb _is_pod_healthy pods.
Proof.
  intros K L. rewrite verify_success_truthy. unfold verify. simpl.
  unfold _check_pod_health. rewrite K. simpl. rewrite L. simpl.
  apply some_healthy.
Qed.

End VerifierFacts.

(** C1 (the code departs from the claim). [verify] consults the count
    under ["healthy"], not the flag under ["all_healthy"]: with one of two
    pods healthy and no metric improved, [metrics_improved] and [success]
    are both the integer 1, which is truthy, although not every pod is
    Running and Ready. *)
Theorem C1_success_despite_unhealthy_pod :
  let v := RemediationVerifier.verify one_of_two_healthy checkout in
  pods_all_healthy [healthy_pod; crashing_pod] = false
  /\ RemediationVerifier.get_all_healthy (RemediationVerifier.pod_health v) = Some false
  /\ RemediationVerifier.get_improved (RemediationVerifier.error_rate v)
     = RemediationVerifier.VBool false
  /\ RemediationVerifier.get_improved (RemediationVerifier.restart_rate v)
     = RemediationVerifier.VBool false
  /\ RemediationVerifier.metrics_improved v = RemediationVerifier.VInt 1
  /\ RemediationVerifier.success v = RemediationVerifier.VInt 1
  /\ RemediationVerifier.truthy (RemediationVerifier.success v) = true.
Proof. vm_compute. repeat split. Qed.

(** The same defect in the other direction: no pod is listed, so every
    listed pod is healthy, yet [success] is the integer 0. *)
Lemma verify_no_pods :
  let v := RemediationVerifier.verify no_pods checkout in
  RemediationVerifier.get_all_healthy (RemediationVerifier.pod_health v) = Some true
  /\ RemediationVerifier.success v = RemediationVerifier.VInt 0.
Proof. vm_compute. split; reflexivity. Qed.

(** ** Fingerprint *)

Section FingerprintFacts.
Import Normalizer.

Lemma or_default_empty (o : option string) :
  Py.or_default o "" = match o with Some (String c s) => String c s | _ => "" end.
Proof. by destruct o as [[|c s]|]. Qed.

Lemma or_default_or_str (svc pod : option string) :
  Py.or_default (Py.or_str svc pod) ""
  = match svc with
    | Some (String c s) => String c s
    | _ => match pod with Some x => x | None => "" end
    end.
Proof. by destruct svc as [[|c s]|], pod as [[|c' s']|]. Qed.

Lemma fingerprint_of_key src a p :
  fingerprint (normalize src a p)
  = String.substring 0 32 (Sha256.hexdigest (fingerprint_key src a p)).
Proof.
  unfold fingerprint_key, service_component.
  destruct src; simpl; unfold _generate_fingerprint.
  - by rewrite or_default_or_str.
  - by rewrite or_default_empty.
  - by rewrite or_default_empty.
Qed.

End FingerprintFacts.

(** C2 (the claim as stated fails). Two Alertmanager alerts without a
    service, equal in alert name and namespace, different in the pod
    label: the pod stands in for the service, so the fingerprints differ
    from each other and from the digest of the key with an empty
    service. *)
Lemma C2_counterexample :
  let i1 := Normalizer.normalize_alertmanager (crashloop_alert "api-7d-xyz") empty_payload in
  let i2 := Normalizer.normalize_alertmanager (crashloop_alert "api-7d-abc") empty_payload in
  Normalizer.source i1 = Normalizer.source i2
  /\ Normalizer.alertname_of Normalizer.ALERTMANAGER (crashloop_alert "api-7d-xyz") empty_payload
     = Normalizer.alertname_of Normalizer.ALERTMANAGER (crashloop_alert "api-7d-abc") empty_payload
  /\ Normalizer.namespace i1 = Normalizer.namespace i2
  /\ Normalizer.service i1 = None /\ Normalizer.service i2 = None
  /\ Normalizer.fingerprint i1 <> Normalizer.fingerprint i2
  /\ Normalizer.fingerprint i1
     <> spec_fingerprint Normalizer.ALERTMANAGER "PodCrashLooping" "default" None.
Proof.
  vm_compute. repeat split; discriminate.
Qed.

(** C2 (as amended). The fingerprint is the first 32 hex characters of
    sha256 over "<source>:<alertname>:<namespace>:<service>", where the
    last component is the normalised service, or, when that is absent or
    empty, the pod label for Alertmanager alerts and the empty string
    otherwise. Alerts that agree on source, alert name, namespace and
    that component have the same fingerprint; with a service present, or
    for Grafana and Prometheus alerts, agreement on the service is
    enough, whatever the other labels. *)
Theorem C2_fingerprint :
  forall (src : Normalizer.IncidentSource)
         (a1 a2 : Normalizer.alert) (p1 p2 : Normalizer.payload),
    let i1 := Normalizer.normalize src a1 p1 in
    let i2 := Normalizer.normalize src a2 p2 in
    Normalizer.fingerprint i1
    = String.substring 0 32
        (Sha256.hexdigest
           (Normalizer.source_value src +:+ ":" +:+ Normalizer.alertname_of src a1 p1
              +:+ ":" +:+ Normalizer.namespace i1 +:+ ":" +:+ service_component src a1 p1))
    /\ (Normalizer.alertname_of src a1 p1 = Normalizer.alertname_of src a2 p2 ->
        Normalizer.namespace i1 = Normalizer.namespace i2 ->
        service_component src a1 p1 = service_component src a2 p2 ->
        Normalizer.fingerprint i1 = Normalizer.fingerprint i2)
    /\ (Normalizer.alertname_of src a1 p1 = Normalizer.alertname_of src a2 p2 ->
        Normalizer.namespace i1 = Normalizer.namespace i2 ->
        Normalizer.service i1 = Normalizer.service i2 ->
        src <> Normalizer.ALERTMANAGER \/ Py.truthy_str (Normalizer.service i1) = true ->
        Normalizer.fingerprint i1 = Normalizer.fingerprint i2).
Proof.
  intros src a1 a2 p1 p2 i1 i2.
  assert (K : forall a p,
             Normalizer.fingerprint (Normalizer.normalize src a p)
             = String.substring 0 32 (Sha256.hexdigest (fingerprint_key src a p)))
    by (intros; apply fingerprint_of_key).
  assert (G : Normalizer.alertname_of src a1 p1 = Normalizer.alertname_of src a2 p2 ->
              Normalizer.namespace i1 = Normalizer.namespace i2 ->
              service_component src a1 p1 = service_component src a2 p2 ->
              Normalizer.fingerprint i1 = Normalizer.fingerprint i2).
  { intros E1 E2 E3. unfold i1, i2 in *. rewrite !K. unfold fingerprint_key.
    by rewrite E1, E2, E3. }
  split; [apply K|]. split; [exact G|].
  intros E1 E2 E3 H. apply G; [exact E1|exact E2|].
  unfold service_component. fold i1 i2. rewrite <- E3.
  destruct (Normalizer.service i1) as [[|c s]|] eqn:S; try reflexivity;
    (destruct H as [H|H]; [destruct src; [congruence|reflexivity|reflexivity]
                          |simpl in H; discriminate]).
Qed.

Lemma C2_fingerprint_witness :
  Normalizer.fingerprint
    (Normalizer.normalize Normalizer.ALERTMANAGER (checkout_alert "checkout-1") empty_payload)
  = Normalizer.fingerprint
      (Normalizer.normalize Normalizer.ALERTMANAGER (checkout_alert "checkout-2") empty_payload).
Proof.
  apply (proj2 (proj2 (C2_fingerprint Normalizer.ALERTMANAGER
                         (checkout_alert "checkout-1") (checkout_alert "checkout-2")
                         empty_payload empty_payload)));
    [reflexivity | reflexivity | vm_compute; reflexivity | right; vm_compute; reflexivity].
Defined.

(** ** Metrics post-processing *)

Section MetricsFacts.
Import Exn MetricsCollector.

Lemma insert_asc_perm {A} (key : A -> Q) (x : A) (l : list A) :
  Py.insert_asc key x l ≡ₚ x :: l.
Proof.
  induction l as [|y r IH]; simpl; [reflexivity|].
  destruct (Py.Qltb (key y) (key x)); [|reflexivity].
  rewrite IH. apply Permutation_swap.
Qed.

Lemma sort_asc_perm {A} (key : A -> Q) (l : list A) : Py.sort_asc key l ≡ₚ l.
Proof.
  induction l as [|x r IH]; simpl; [reflexivity|].
  rewrite insert_asc_perm. by rewrite IH.
Qed.





(** The elements a positive stride keeps. *)
Lemma stride_from_lookup {A} (step skip k : nat) (l : list A) :
  (0 < step)%nat ->
  stride_from step skip l !! k = l !! (skip + k * step)%nat.
Proof.
  intros Hs. revert skip k. induction l as [|x r IH]; intros skip k; [reflexivity|].
  destruct skip as [|s]; simpl.
  - destruct k as [|k]; [reflexivity|]. simpl. rewrite IH.
    replace (step + k * step)%nat with (S (step - 1 + k * step)) by lia.
    reflexivity.
  - apply IH.
Qed.


End MetricsFacts.



(** The sample series: the two infinities are gone, and with a cap of 2
    the five remaining points are thinned with stride 2. *)
Example sample_series_processed :
  List.map MetricsCollector.timestamp (MetricsCollector.merged [sample_series])
  = [1; 3; 5; 6; 7]%Q
  /\ (stats ← MetricsCollector._process_results 2 [sample_series];
      Exn.Return (List.map MetricsCollector.timestamp (MetricsCollector.stat_values stats)))
     = Exn.Return [1; 5; 7]%Q
  /\ (stats ← MetricsCollector._process_results 5 [sample_series];
      Exn.Return (List.map MetricsCollector.timestamp (MetricsCollector.stat_values stats)))
     = Exn.Return [1; 3; 5; 6; 7]%Q.
Proof. vm_compute. repeat split. Qed.

(* ===================================================================== *)
(** * Part IV: further properties of the code *)
(* ===================================================================== *)

(** ** The shape of a fingerprint *)

Section DigestFacts.
Import Sha256.

Lemma hex_digit_lower (d : Z) : 0 <= d < 16 -> is_lower_hex (hex_digit d).
Proof.
  intros H. replace d with (Z.of_nat (Z.to_nat d)) by lia.
  assert (L : (Z.to_nat d < 16)%nat) by lia.
  revert L. generalize (Z.to_nat d). intros n L.
  do 16 (destruct n as [|n]; [vm_compute; tauto|]). lia.
Qed.

Lemma hex_of_word_length (n : nat) (x : Z) : String.length (hex_of_word n x) = n.
Proof. induction n as [|n IH]; simpl; [reflexivity|by rewrite IH]. Qed.

Lemma hex_of_word_lower (n : nat) (x : Z) :
  Forall is_lower_hex (list_ascii_of_string (hex_of_word n x)).
Proof.
  induction n as [|n IH]; simpl; constructor; [|exact IH].
  apply hex_digit_lower. apply Z.mod_pos_bound. lia.
Qed.

Lemma append_length (a b : string) :
  String.length (a +:+ b) = (String.length a + String.length b)%nat.
Proof. induction a as [|c a IH]; simpl; [reflexivity|by rewrite IH]. Qed.

Lemma append_chars (a b : string) :
  list_ascii_of_string (a +:+ b) = list_ascii_of_string a ++ list_ascii_of_string b.
Proof. induction a as [|c a IH]; simpl; [reflexivity|by rewrite IH]. Qed.

Lemma hex_words_length (ws : list Z) :
  String.length (List.fold_right (fun w acc => hex_of_word 8 w +:+ acc) "" ws)
  = (8 * List.length ws)%nat.
Proof.
  induction ws as [|w r IH]; [reflexivity|].
  cbn [List.fold_right List.length]. rewrite append_length, hex_of_word_length, IH. lia.
Qed.

Lemma hex_words_lower (ws : list Z) :
  Forall is_lower_hex
    (list_ascii_of_string (List.fold_right (fun w acc => hex_of_word 8 w +:+ acc) "" ws)).
Proof.
  induction ws as [|w r IH]; [constructor|].
  cbn [List.fold_right]. rewrite append_chars. apply Forall_app. split; [|exact IH].
  apply hex_of_word_lower.
Qed.

Lemma compress_length (h block : list Z) :
  List.length h = 8%nat -> List.length (compress h block) = 8%nat.
Proof.
  intros H. unfold compress. rewrite List.length_map, List.length_combine, H.
  reflexivity.
Qed.

Lemma blocks_length (n : nat) (bs h : list Z) :
  List.length h = 8%nat -> List.length (blocks n bs h) = 8%nat.
Proof.
  revert bs h. induction n as [|n IH]; intros bs h H; simpl; [exact H|].
  apply IH. by apply compress_length.
Qed.

(** The digest always has 64 characters, all of them lower-case hex. *)
Lemma hexdigest_length (s : string) : String.length (hexdigest s) = 64%nat.
Proof.
  unfold hexdigest. rewrite hex_words_length. unfold digest_words.
  rewrite blocks_length; reflexivity.
Qed.

Lemma hexdigest_lower (s : string) :
  Forall is_lower_hex (list_ascii_of_string (hexdigest s)).
Proof. apply hex_words_lower. Qed.

Lemma substring_prefix_length (n : nat) (s : string) :
  (n <= String.length s)%nat -> String.length (String.substring 0 n s) = n.
Proof.
  revert s. induction n as [|n IH]; intros [|c s] H; simpl in *; try reflexivity; try lia.
  rewrite IH; [reflexivity|lia].
Qed.

Lemma substring_prefix_chars (P : ascii -> Prop) (n : nat) (s : string) :
  Forall P (list_ascii_of_string s) ->
  Forall P (list_ascii_of_string (String.substring 0 n s)).
Proof.
  revert s. induction n as [|n IH]; intros [|c s] H; simpl in *; try constructor.
  - by inversion H.
  - apply IH. by inversion H.
Qed.

End DigestFacts.

(** X1. Whatever the alert and the source, the fingerprint consists of
    exactly 32 lower-case hexadecimal characters. *)
Theorem fingerprint_is_32_hex :
  forall (src : Normalizer.IncidentSource) (a : Normalizer.alert)
         (p : Normalizer.payload),
    let fp := Normalizer.fingerprint (Normalizer.normalize src a p) in
    String.length fp = 32%nat
    /\ Forall is_lower_hex (list_ascii_of_string fp).
Proof.
  intros src a p fp.
  assert (G : forall s a n v,
             String.length (Normalizer._generate_fingerprint s a n v) = 32%nat
             /\ Forall is_lower_hex
                  (list_ascii_of_string (Normalizer._generate_fingerprint s a n v))).
  { intros. unfold Normalizer._generate_fingerprint. split.
    - apply substring_prefix_length. rewrite hexdigest_length. lia.
    - apply substring_prefix_chars, hexdigest_lower. }
  subst fp. destruct src; apply G.
Qed.

(** ** Rounding is monotone *)

Lemma round_half_even_bounds (q : Q) :
  Qfloor q <= Py.round_half_even q <= Qfloor q + 1.
Proof.
  unfold Py.round_half_even.
  destruct (q - inject_Z (Qfloor q) ?= 1 # 2)%Q; [destruct (Z.even _)| |]; lia.
Qed.

Lemma round_half_even_mono (x y : Q) :
  (x <= y)%Q -> Py.round_half_even x <= Py.round_half_even y.
Proof.
  intros H. pose proof (Qfloor_resp_le _ _ H) as F.
  destruct (Z.eq_dec (Qfloor x) (Qfloor y)) as [E|N].
  - unfold Py.round_half_even. rewrite E.
    destruct (Qcompare_spec (x - inject_Z (Qfloor y)) (1 # 2)) as [Cx|Cx|Cx];
      destruct (Qcompare_spec (y - inject_Z (Qfloor y)) (1 # 2)) as [Cy|Cy|Cy];
      try lra; destruct (Z.even (Qfloor y)); lia.
  - pose proof (round_half_even_bounds x). pose proof (round_half_even_bounds y). lia.
Qed.

Lemma pow10_pos (n : nat) : (0 < inject_Z (10 ^ Z.of_nat n))%Q.
Proof.
  assert (P : 0 < 10 ^ Z.of_nat n) by (apply Z.pow_pos_nonneg; lia).
  unfold Qlt. simpl. lia.
Qed.

Lemma round_mono (x y : Q) (n : nat) :
  (x <= y)%Q -> (Py.round x n <= Py.round y n)%Q.
Proof.
  intros H. unfold Py.round. pose proof (pow10_pos n) as P.
  apply Qmult_le_compat_r.
  - rewrite <- Zle_Qle. apply round_half_even_mono.
    apply Qmult_le_compat_r; [exact H|]. by apply Qlt_le_weak.
  - apply Qinv_le_0_compat. by apply Qlt_le_weak.
Qed.

(** A bound with at most [n] decimals survives the rounding. *)
Lemma round_le_bound (x b : Q) (n : nat) (k : Z) :
  (b * inject_Z (10 ^ Z.of_nat n) == inject_Z k)%Q ->
  (x <= b)%Q -> (Py.round x n <= b)%Q.
Proof.
  intros G H. rewrite <- (round_exact b n k G). by apply round_mono.
Qed.

Lemma round_ge_bound (x b : Q) (n : nat) (k : Z) :
  (b * inject_Z (10 ^ Z.of_nat n) == inject_Z k)%Q ->
  (b <= x)%Q -> (b <= Py.round x n)%Q.
Proof.
  intros G H. rewrite <- (round_exact b n k G). by apply round_mono.
Qed.

(** ** Ranking an already ranked list *)

Section RankAgain.
Import HypothesisRanker.

Lemma insert_desc_head {A} (key : A -> Q) (x : A) (l : list A) :
  Forall (desc key x) l -> Py.insert_desc key x l = x :: l.
Proof.
  destruct l as [|y r]; simpl; [reflexivity|].
  intros H. inversion H as [|? ? D _]; subst. unfold desc in D. by rewrite D.
Qed.

Lemma sort_desc_of_sorted {A} (key : A -> Q) (l : list A) :
  StronglySorted (desc key) l -> Py.sort_desc key l = l.
Proof.
  induction 1 as [|x r Hs IH Hx]; simpl; [reflexivity|].
  rewrite IH. by apply insert_desc_head.
Qed.

Lemma sorted_desc_keys {A B} (k1 : A -> Q) (k2 : B -> Q) (l1 : list A) (l2 : list B) :
  List.map k1 l1 = List.map k2 l2 ->
  StronglySorted (desc k1) l1 -> StronglySorted (desc k2) l2.
Proof.
  intros E H. revert l2 E.
  induction H as [|x r Hs IH Hx]; intros [|y r2] E; simpl in E; try discriminate;
    [constructor|].
  injection E as E1 E2. constructor; [by apply IH|].
  clear IH Hs. revert r2 E2. induction Hx as [|z r Hz Hr IH]; intros [|z2 r2] E2;
    simpl in E2; try discriminate; [constructor|].
  injection E2 as E2 E3. constructor; [|by apply IH].
  unfold desc in *. by rewrite <- E1, <- E2.
Qed.

Lemma rounded_score_with_score h : rounded_score (with_score h) = rounded_score h.
Proof. by destruct h. Qed.

Lemma rounded_score_set_rank h k :
  rounded_score (HypothesisDict.set_rank h k) = rounded_score h.
Proof. by destruct h. Qed.

Lemma assign_ranks_keys i l :
  List.map rounded_score (assign_ranks i l) = List.map rounded_score l.
Proof.
  revert i. induction l as [|h r IH]; intros i; simpl; [reflexivity|].
  by rewrite IH, rounded_score_set_rank.
Qed.

Lemma rescore_ranked h k :
  HypothesisDict.set_rank (with_score (HypothesisDict.set_rank (with_score h) k)) k
  = HypothesisDict.set_rank (with_score h) k.
Proof. by destruct h. Qed.

Lemma assign_ranks_again i l :
  assign_ranks i (List.map with_score (assign_ranks i (List.map with_score l)))
  = assign_ranks i (List.map with_score l).
Proof.
  revert i. induction l as [|h r IH]; intros i; simpl; [reflexivity|].
  by rewrite IH, rescore_ranked.
Qed.

End RankAgain.

(** X2. Ranking is idempotent: ranking the output of [rank] once more
    returns it unchanged (same order, same scores, same ranks). *)
Theorem rank_idempotent :
  forall hs : list HypothesisDict.t,
    HypothesisRanker.rank (HypothesisRanker.rank hs) = HypothesisRanker.rank hs.
Proof.
  intros hs. rewrite (rank_unfold (HypothesisRanker.rank hs)).
  rewrite sort_desc_of_sorted.
  - rewrite rank_unfold. apply assign_ranks_again.
  - rewrite rank_unfold.
    apply (sorted_desc_keys rounded_score rounded_score (Py.sort_desc rounded_score hs)).
    + rewrite assign_ranks_keys, List.map_map. apply List.map_ext.
      intros h. symmetry. apply rounded_score_with_score.
    + apply sort_desc_sorted.
Qed.

(** ** The policy gate allows only on an explicit affirmative answer *)

(** X3. [evaluate_remediation] always returns a decision, and the
    decision's [allow] is truthy exactly when the policy endpoint answered
    with a 2xx status and a JSON object whose ["result"] member is an
    object with a truthy ["allow"] member; the reason is then "allowed".
    Every other answer (and every failure) yields a falsy [allow]. *)
Theorem policy_allow_iff :
  forall (opa : OPAClient.input_data -> OPAClient.http_outcome)
         (now_hour now_weekday : Z) (action_type environment : string)
         (blast_radius_score : Q) (namespace : string) (affected_replicas : Z),
    let i := OPAClient.InputData action_type environment blast_radius_score
               namespace affected_replicas now_hour (5 <=? now_weekday) false in
    exists d,
      OPAClient.evaluate_remediation opa now_hour now_weekday action_type
        environment blast_radius_score namespace affected_replicas
      = Exn.Return d
      /\ (OPAClient.truthy (OPAClient.allow d) = true
          <-> exists status ms rs v,
                opa i = OPAClient.Response status (Some (OPAClient.JObj ms))
                /\ 200 <= status <= 299
                /\ OPAClient.member "result" ms = Some (OPAClient.JObj rs)
                /\ OPAClient.member "allow" rs = Some v
                /\ OPAClient.truthy v = true)
      /\ (OPAClient.truthy (OPAClient.allow d) = true
          -> OPAClient.reason d = "allowed").
Proof.
  intros opa h wd a env sc ns n i.
  unfold OPAClient.evaluate_remediation. fold i.
  eexists. split; [reflexivity|].
  unfold OPAClient._query_opa, OPAClient.raise_for_status.
  destruct (opa i) as [e|status body] eqn:O.
  { simpl. split; [split; [discriminate|]|discriminate].
    intros (st & ms & rs & v & E & _). discriminate E. }
  destruct ((200 <=? status) && (status <=? 299)) eqn:R; simpl.
  2:{ split; [split; [discriminate|]|discriminate].
      intros (st & ms & rs & v & E & G & _). injection E as -> _.
      apply andb_false_iff in R. destruct R as [R|R];
        [apply Z.leb_gt in R|apply Z.leb_gt in R]; lia. }
  apply andb_true_iff in R. destruct R as [R1 R2].
  apply Z.leb_le in R1, R2.
  destruct body as [data|]; simpl.
  2:{ split; [split; [discriminate|]|discriminate].
      intros (st & ms & rs & v & E & _). discriminate E. }
  destruct data as [| | | | |ms]; simpl;
    try (split; [split; [discriminate|]|discriminate];
         intros (st & ms' & rs & v & E & _); discriminate E).
  destruct (OPAClient.member "result" ms) as [res|] eqn:M; simpl.
  2:{ split; [split; [discriminate|]|discriminate].
      intros (st & ms' & rs & v & E & _ & M' & _). injection E as _ <-.
      rewrite M in M'. discriminate M'. }
  destruct res as [| | | | |rs]; simpl;
    try (split; [split; [discriminate|]|discriminate];
         intros (st & ms' & rs' & v & E & _ & M' & _); injection E as _ <-;
         rewrite M in M'; discriminate M').
  unfold OPAClient._build_reason.
  destruct (OPAClient.member "allow" rs) as [v|] eqn:A; simpl.
  - destruct (OPAClient.truthy v) eqn:T; simpl.
    + split; [split; [|intros _; exact T]|reflexivity].
      intros _. exists status, ms, rs, v. repeat split; try assumption; reflexivity.
    + assert (F : forall d : OPAClient.decision,
                 OPAClient.allow d = v \/ OPAClient.allow d = OPAClient.JBool false ->
                 OPAClient.truthy (OPAClient.allow d) = false).
      { intros d [-> | ->]; [exact T|reflexivity]. }
      match goal with |- (OPAClient.truthy (OPAClient.allow ?d) = true <-> _) /\ _ =>
        assert (Fd : OPAClient.truthy (OPAClient.allow d) = false)
      end.
      { apply F.
        destruct (OPAClient.truthy (default (OPAClient.JArr []) (OPAClient.member "deny" rs)));
          [|left; reflexivity].
        destruct (OPAClient.join _); [left|right]; reflexivity. }
      rewrite Fd. split; [split; [discriminate|]|discriminate].
      intros (st & ms' & rs' & v' & E & _ & M' & A' & T'). injection E as _ <-.
      rewrite M in M'. injection M' as <-. rewrite A in A'. injection A' as <-.
      congruence.
  - match goal with |- (OPAClient.truthy (OPAClient.allow ?d) = true <-> _) /\ _ =>
      assert (Fd : OPAClient.truthy (OPAClient.allow d) = false)
    end.
    { destruct (OPAClient.truthy (default (OPAClient.JArr []) (OPAClient.member "deny" rs)));
        [|reflexivity].
      destruct (OPAClient.join _); reflexivity. }
    rewrite Fd. split; [split; [discriminate|]|discriminate].
    intros (st & ms' & rs' & v' & E & _ & M' & A' & T'). injection E as _ <-.
    rewrite M in M'. injection M' as <-. rewrite A in A'. discriminate A'.
Qed.

(** ** Blast radius: range and monotonicity *)

Section BlastMore.
Import Exn RemediationOrchestrator.

Lemma env_multiplier_pos (env : string) : (0 < default 3%Q (env_multiplier env))%Q.
Proof.
  pose proof (env_multiplier_cases env) as H. simpl in H.
  destruct H as [<-|[<-|[<-|[<-|[<-|[]]]]]]; reflexivity.
Qed.

Lemma critical_factor_pos (b : bool) : (0 < (if b then 15 # 10 else 1))%Q.
Proof. destruct b; reflexivity. Qed.

Lemma read_deployment_cases k i :
  (exists e, read_deployment k i = Raise e)
  \/ read_deployment k i = Return (0, 0)
  \/ exists replicas,
       read_namespaced_deployment k (default "" (service i)) (namespace i)
       = Deployment replicas
       /\ read_deployment k i
          = Return (match replicas with
                    | Some n => if n =? 0 then 1 else n
                    | None => 1
                    end, 1).
Proof.
  unfold read_deployment. destruct (Py.truthy_str (service i)); [|right; left; reflexivity].
  destruct (read_namespaced_deployment _ _ _) as [replicas|e|e]; eauto.
Qed.

Lemma scaled_nonneg (n : Z) (f m : Q) :
  0 <= n -> (0 < f)%Q -> (0 < m)%Q -> (0 <= Qmin (inject_Z n * f * m) 100)%Q.
Proof.
  intros Hn Hf Hm. apply Q.min_glb; [|discriminate].
  apply Qmult_le_0_compat; [apply Qmult_le_0_compat|]; try by apply Qlt_le_weak.
  change 0%Q with (inject_Z 0). by rewrite <- Zle_Qle.
Qed.

Lemma scaled_mono (n1 n2 : Z) (f m : Q) :
  n1 <= n2 -> (0 < f)%Q -> (0 < m)%Q ->
  (Qmin (inject_Z n1 * f * m) 100 <= Qmin (inject_Z n2 * f * m) 100)%Q.
Proof.
  intros Hn Hf Hm. apply Q.min_le_compat_r.
  apply Qmult_le_compat_r; [|by apply Qlt_le_weak].
  apply Qmult_le_compat_r; [|by apply Qlt_le_weak].
  by rewrite <- Zle_Qle.
Qed.

End BlastMore.

(** X4. The blast radius score never exceeds 100; it is not negative
    when the cluster reports no negative replica count; and whenever the
    assessment records an error the score is 100 and the action is not
    acceptable. *)
Theorem blast_radius_score_range :
  forall (st : RemediationOrchestrator.settings)
         (k : RemediationOrchestrator.cluster)
         (i : RemediationOrchestrator.incident),
    let r := RemediationOrchestrator.calculate_blast_radius st k i in
    (RemediationOrchestrator.score r <= 100)%Q
    /\ ((forall n,
            RemediationOrchestrator.read_namespaced_deployment k
              (default "" (RemediationOrchestrator.service i))
              (RemediationOrchestrator.namespace i)
            = RemediationOrchestrator.Deployment (Some n) -> 0 <= n) ->
        (0 <= RemediationOrchestrator.score r)%Q)
    /\ (RemediationOrchestrator.error r <> None ->
        RemediationOrchestrator.score r = 100%Q
        /\ RemediationOrchestrator.is_acceptable r = false).
Proof.
  intros st k i r.
  destruct (RemediationOrchestrator.load_config k) as [[]|e] eqn:L.
  2:{ destruct (blast_radius_failed st k i e (or_introl L)) as (S & A & _).
      fold r in S, A. rewrite S. repeat split; try assumption; discriminate. }
  destruct (read_deployment_cases k i) as [[e R]|[R|(replicas & D & R)]].
  - destruct (blast_radius_failed st k i e (or_intror (conj L R))) as (S & A & _).
    fold r in S, A. rewrite S. repeat split; try assumption; discriminate.
  - destruct (blast_radius_assessed st k i 0 0 L R) as (S & _ & _ & _ & E).
    fold r in S, E. cbv zeta in S.
    split; [rewrite S; apply Q.le_min_r|]. split; [|congruence].
    intros _. rewrite S. apply scaled_nonneg; [lia|apply critical_factor_pos|apply env_multiplier_pos].
  - destruct (blast_radius_assessed st k i _ 1 L R) as (S & _ & _ & _ & E).
    fold r in S, E. cbv zeta in S.
    split; [rewrite S; apply Q.le_min_r|]. split; [|congruence].
    intros N. rewrite S. apply scaled_nonneg; [|apply critical_factor_pos|apply env_multiplier_pos].
    destruct replicas as [n|]; [|lia].
    specialize (N n D). destruct (Z.eqb_spec n 0); lia.
Qed.

Lemma blast_radius_score_range_witness :
  (0 <= RemediationOrchestrator.score
          (RemediationOrchestrator.calculate_blast_radius
             staging cluster_three_replicas api_in_default))%Q.
Proof.
  apply (proj1 (proj2 (blast_radius_score_range staging cluster_three_replicas
                         api_in_default))).
  intros n E. injection E as <-. lia.
Defined.

(** X5. More replicas never lower the blast radius: of two clusters that
    differ only in the replica count of the incident's deployment, the
    one with more replicas gets at least the score of the other, and an
    action acceptable there is acceptable on the smaller one too. *)
Theorem blast_radius_monotone_in_replicas :
  forall (st : RemediationOrchestrator.settings)
         (k1 k2 : RemediationOrchestrator.cluster)
         (i : RemediationOrchestrator.incident) (n1 n2 : Z),
    RemediationOrchestrator.load_config k1 = Exn.Return tt ->
    RemediationOrchestrator.load_config k2 = Exn.Return tt ->
    Py.truthy_str (RemediationOrchestrator.service i) = true ->
    RemediationOrchestrator.read_namespaced_deployment k1
      (default "" (RemediationOrchestrator.service i))
      (RemediationOrchestrator.namespace i)
    = RemediationOrchestrator.Deployment (Some n1) ->
    RemediationOrchestrator.read_namespaced_deployment k2
      (default "" (RemediationOrchestrator.service i))
      (RemediationOrchestrator.namespace i)
    = RemediationOrchestrator.Deployment (Some n2) ->
    0 <= n1 <= n2 ->
    let r1 := RemediationOrchestrator.calculate_blast_radius st k1 i in
    let r2 := RemediationOrchestrator.calculate_blast_radius st k2 i in
    (RemediationOrchestrator.score r1 <= RemediationOrchestrator.score r2)%Q
    /\ (RemediationOrchestrator.is_acceptable r2 = true ->
        RemediationOrchestrator.is_acceptable r1 = true).
Proof.
  intros st k1 k2 i n1 n2 L1 L2 T D1 D2 N r1 r2.
  assert (R : forall k n,
             RemediationOrchestrator.read_namespaced_deployment k
               (default "" (RemediationOrchestrator.service i))
               (RemediationOrchestrator.namespace i)
             = RemediationOrchestrator.Deployment (Some n) ->
             RemediationOrchestrator.read_deployment k i
             = Exn.Return (if n =? 0 then 1 else n, 1)).
  { intros k n D. unfold RemediationOrchestrator.read_deployment. by rewrite T, D. }
  destruct (blast_radius_assessed st k1 i _ 1 L1 (R k1 n1 D1)) as (S1 & A1 & _).
  destruct (blast_radius_assessed st k2 i _ 1 L2 (R k2 n2 D2)) as (S2 & A2 & _).
  fold r1 in S1, A1. fold r2 in S2, A2. cbv zeta in S1, S2.
  assert (LE : (RemediationOrchestrator.score r1 <= RemediationOrchestrator.score r2)%Q).
  { rewrite S1, S2.
    apply scaled_mono; [|apply critical_factor_pos|apply env_multiplier_pos].
    destruct (Z.eqb_spec n1 0), (Z.eqb_spec n2 0); lia. }
  split; [exact LE|].
  rewrite A1, A2. intros H. by apply Qle_lt_trans with (RemediationOrchestrator.score r2).
Qed.

Lemma blast_radius_monotone_in_replicas_witness :
  (RemediationOrchestrator.score
     (RemediationOrchestrator.calculate_blast_radius staging
        (RemediationOrchestrator.Cluster (Exn.Return tt)
           (fun _ _ => RemediationOrchestrator.Deployment (Some 0%Z)))
        api_in_default)
   <= RemediationOrchestrator.score
        (RemediationOrchestrator.calculate_blast_radius staging
           cluster_three_replicas api_in_default))%Q.
Proof.
  apply (blast_radius_monotone_in_replicas staging
           (RemediationOrchestrator.Cluster (Exn.Return tt)
              (fun _ _ => RemediationOrchestrator.Deployment (Some 0%Z)))
           cluster_three_replicas api_in_default 0 3);
    try reflexivity.
  lia.
Defined.

(** ** What the verifier's verdict depends on *)

(** X6. [verify] reports success exactly when the cluster configuration
    loads, the pods of the service can be listed and at least one listed
    pod is healthy (Running, and no Ready condition other than True). The
    two metric probes have no influence on the verdict; and a reported
    success always comes with [metrics_improved]. *)
Theorem verify_success_iff :
  forall (w : RemediationVerifier.world) (i : RemediationVerifier.incident),
    let v := RemediationVerifier.verify w i in
    let selector :=
      if Py.truthy_str (RemediationVerifier.service i)
      then Some ("app=" +:+ default "" (RemediationVerifier.service i)) else None in
    (RemediationVerifier.truthy (RemediationVerifier.success v) = true
     <-> RemediationVerifier.init_kube_config w = Exn.Return tt
         /\ exists pods,
              RemediationVerifier.list_namespaced_pod w
                (RemediationVerifier.namespace i) selector = Exn.Return pods
              /\ exists p, In p pods
                           /\ RemediationVerifier.phase p = "Running"
                           /\ forall c, In c (default [] (RemediationVerifier.conditions p)) ->
                                        RemediationVerifier.cond_type c = "Ready" ->
                                        RemediationVerifier.cond_status c = "True")
    /\ (RemediationVerifier.truthy (RemediationVerifier.success v) = true ->
        RemediationVerifier.truthy (RemediationVerifier.metrics_improved v) = true).
Proof.
  intros w i v selector.
  assert (HP : forall p,
             RemediationVerifier._is_pod_healthy p = true
             <-> RemediationVerifier.phase p = "Running"
                 /\ forall c, In c (default [] (RemediationVerifier.conditions p)) ->
                              RemediationVerifier.cond_type c = "Ready" ->
                              RemediationVerifier.cond_status c = "True").
  { intros p. unfold RemediationVerifier._is_pod_healthy.
    destruct (String.eqb_spec (RemediationVerifier.phase p) "Running") as [E|E]; simpl.
    - rewrite negb_true_iff, <- not_true_iff_false, existsb_exists. split.
      + intros H. split; [exact E|]. intros c Hc Ht.
        destruct (String.eqb_spec (RemediationVerifier.cond_status c) "True") as [S|S];
          [exact S|].
        exfalso. apply H. exists c. split; [exact Hc|].
        rewrite Ht. simpl. by apply String.eqb_neq in S as ->.
      + intros [_ H] (c & Hc & Hb). apply andb_true_iff in Hb. destruct Hb as [Ht Hs].
        apply String.eqb_eq in Ht. rewrite (H c Hc Ht) in Hs. discriminate Hs.
    - split; [discriminate|]. intros [H _]. contradiction. }
  split.
  - subst v. rewrite verify_success_truthy.
    unfold RemediationVerifier.verify. simpl.
    unfold RemediationVerifier._check_pod_health. fold selector.
    destruct (RemediationVerifier.init_kube_config w) as [[]|e] eqn:K; simpl.
    2:{ split; [discriminate|]. intros [H _]. discriminate H. }
    destruct (RemediationVerifier.list_namespaced_pod w _ selector) as [pods|e] eqn:L;
      simpl.
    2:{ split; [discriminate|]. intros (_ & pods & H & _). discriminate H. }
    rewrite some_healthy, existsb_exists. split.
    + intros (p & Hp & Hh). split; [reflexivity|]. exists pods. split; [reflexivity|].
      exists p. split; [exact Hp|]. by apply HP.
    + intros (_ & pods' & [= <-] & p & Hp & Hh). exists p. split; [exact Hp|].
      by apply HP.
  - subst v. unfold RemediationVerifier.verify. simpl.
    unfold RemediationVerifier.py_and.
    destruct (RemediationVerifier.truthy (RemediationVerifier.py_or _ _)) eqn:M;
      [reflexivity|].
    intros H. rewrite M in H. discriminate H.
Qed.

(** ** Metrics: what the decimation keeps *)

Section DecimateFacts.
Import Exn MetricsCollector.

(** The number of elements a stride keeps. *)
Lemma stride_from_length {A} (step : nat) (l : list A) (k : nat) :
  (0 < step)%nat ->
  (k < List.length (stride_from step 0 l))%nat <-> (k * step < List.length l)%nat.
Proof.
  intros Hs. rewrite <- !lookup_lt_is_Some.
  rewrite (stride_from_lookup step 0 k l Hs). reflexivity.
Qed.

Lemma stride_one {A} (skip : nat) (l : list A) :
  stride_from 1 skip l = List.skipn skip l.
Proof.
  revert skip. induction l as [|x r IH]; intros [|k]; simpl; try reflexivity.
  - by rewrite (IH 0%nat).
  - apply IH.
Qed.

End DecimateFacts.

(** X7. The cap on the number of points is not a cap: a series longer
    than [max_points] (> 0) is thinned with stride len // max_points,
    which leaves (len - 1) // stride + 1 points, at least [max_points]
    and fewer than twice as many; a series shorter than 2 * max_points
    is not thinned at all. *)
Theorem decimate_length :
  forall (max_points : Z) (all_values : list MetricsCollector.point),
    let len := Z.of_nat (List.length all_values) in
    0 < max_points < len ->
    exists kept,
      MetricsCollector.decimate max_points all_values = Exn.Return kept
      /\ Z.of_nat (List.length kept) = (len - 1) / (len / max_points) + 1
      /\ max_points <= Z.of_nat (List.length kept) < 2 * max_points
      /\ (len < 2 * max_points -> kept = all_values).
Proof.
  intros m l len [Hm Hl].
  unfold MetricsCollector.decimate. fold len.
  rewrite (proj2 (Z.ltb_lt m len) Hl), (proj2 (Z.eqb_neq m 0)) by lia.
  eexists. split; [reflexivity|].
  assert (Hstep : 0 < len / m) by (apply Z.div_str_pos; lia).
  unfold MetricsCollector.slice_step. rewrite (proj2 (Z.ltb_lt 0 (len / m)) Hstep).
  set (step := len / m) in *.
  set (kept := MetricsCollector.stride_from (Z.to_nat step) 0 l).
  assert (K : forall k : nat,
             (k < List.length kept)%nat <-> Z.of_nat k * step < len).
  { intros k. unfold kept. rewrite stride_from_length by lia. subst len. nia. }
  assert (N : Z.of_nat (List.length kept) = (len - 1) / step + 1).
  { set (q := (len - 1) / step).
    assert (Q1 : step * q <= len - 1) by (apply Z.mul_div_le; lia).
    assert (Q2 : len - 1 < step * (q + 1)).
    { pose proof (Z.mul_succ_div_gt (len - 1) step Hstep). unfold q. lia. }
    assert (Q0 : 0 <= q) by (apply Z.div_pos; lia).
    assert (U : (Z.to_nat q < List.length kept)%nat) by (apply K; nia).
    assert (V : ~ (Z.to_nat (q + 1) < List.length kept)%nat).
    { intros H. apply K in H. nia. }
    lia. }
  assert (D1 : m * step <= len) by (apply Z.mul_div_le; lia).
  assert (D2 : len < m * (step + 1)).
  { pose proof (Z.mul_succ_div_gt len m Hm). unfold step. lia. }
  split; [exact N|]. split; [split|].
  - assert (U : (Z.to_nat (m - 1) < List.length kept)%nat) by (apply K; nia).
    lia.
  - destruct (Z_lt_ge_dec (Z.of_nat (List.length kept)) (2 * m)) as [G|G]; [exact G|].
    exfalso.
    assert (U : (Z.to_nat (2 * m - 1) < List.length kept)%nat) by lia.
    apply K in U. nia.
  - intros H. assert (S1 : step = 1) by nia.
    unfold kept. rewrite S1. change (Z.to_nat 1) with 1%nat.
    apply stride_one.
Qed.

Lemma decimate_length_witness :
  exists kept,
    MetricsCollector.decimate 2 (MetricsCollector.merged [sample_series])
    = Exn.Return kept
    /\ Z.of_nat (List.length kept) = 3.
Proof.
  destruct (decimate_length 2 (MetricsCollector.merged [sample_series]))
    as (kept & E & N & _); [vm_compute; split; reflexivity|].
  exists kept. split; [exact E|]. rewrite N. vm_compute. reflexivity.
Defined.

(** ** Metrics: the merged series *)

Section AscFacts.
Context {A : Type} (key : A -> Q).

Lemma insert_asc_sorted (x : A) (l : list A) :
  StronglySorted (fun a b => (key a <= key b)%Q) l ->
  StronglySorted (fun a b => (key a <= key b)%Q) (Py.insert_asc key x l).
Proof.
  induction 1 as [|y r Hs IH Hy]; simpl.
  - repeat constructor.
  - destruct (Py.Qltb (key y) (key x)) eqn:E.
    + constructor; [exact IH|].
      rewrite insert_asc_perm. constructor; [|exact Hy].
      apply Qltb_lt in E. by apply Qlt_le_weak.
    + assert (L : (key x <= key y)%Q).
      { unfold Py.Qltb in E. by rewrite negb_false_iff, Qle_bool_iff in E. }
      constructor; [by constructor|].
      constructor; [exact L|].
      eapply Forall_impl; [exact Hy|]. intros z Hz. simpl in Hz.
      by apply Qle_trans with (key y).
Qed.

Lemma sort_asc_sorted (l : list A) :
  StronglySorted (fun a b => (key a <= key b)%Q) (Py.sort_asc key l).
Proof.
  induction l as [|x r IH]; simpl; [constructor|]. by apply insert_asc_sorted.
Qed.

(** Python sorts the list as given; the model inserts from the right.
    Equal keys keep their order: the filter of any one key is the input's. *)
Lemma insert_asc_stable (q : Q) (x : A) (l : list A) :
  List.filter (fun a => Qeq_bool (key a) q) (Py.insert_asc key x l)
  = List.filter (fun a => Qeq_bool (key a) q) (x :: l).
Proof.
  induction l as [|y r IH]; [reflexivity|].
  simpl Py.insert_asc. destruct (Py.Qltb (key y) (key x)) eqn:E; [|reflexivity].
  simpl in *. rewrite IH.
  destruct (Qeq_bool (key x) q) eqn:Ex; [|reflexivity].
  destruct (Qeq_bool (key y) q) eqn:Ey; [|reflexivity].
  exfalso. apply Qeq_bool_iff in Ex, Ey. apply Qltb_lt in E. lra.
Qed.

Lemma sort_asc_stable (q : Q) (l : list A) :
  List.filter (fun a => Qeq_bool (key a) q) (Py.sort_asc key l)
  = List.filter (fun a => Qeq_bool (key a) q) l.
Proof.
  induction l as [|x r IH]; [reflexivity|].
  simpl Py.sort_asc. rewrite insert_asc_stable. simpl. by rewrite IH.
Qed.

End AscFacts.

(** X8. The samples of all series are merged into one list in time
    order: the merged list holds exactly the parsed samples, ascending by
    timestamp, and samples with the same timestamp stay in the order of
    the series they came from. *)
Theorem merged_is_time_ordered :
  forall results : list MetricsCollector.series,
    let all_values := MetricsCollector.merged results in
    all_values ≡ₚ MetricsCollector.parse_all results
    /\ StronglySorted
         (fun a b => (MetricsCollector.timestamp a <= MetricsCollector.timestamp b)%Q)
         all_values
    /\ forall ts : Q,
         List.filter (fun p => Qeq_bool (MetricsCollector.timestamp p) ts) all_values
         = List.filter (fun p => Qeq_bool (MetricsCollector.timestamp p) ts)
             (MetricsCollector.parse_all results).
Proof.
  intros results all_values. split; [apply sort_asc_perm|].
  split; [apply sort_asc_sorted|]. intros ts. apply sort_asc_stable.
Qed.

(** ** Metrics: the statistics *)

Section StatsFacts.
Import Exn MetricsCollector.







Lemma fold_add_nan (xs : list PyFloat.t) (a : PyFloat.t) :
  a = PyFloat.NaN \/ In PyFloat.NaN xs ->
  List.fold_left PyFloat.add xs a = PyFloat.NaN.
Proof.
  revert a. induction xs as [|x r IH]; intros a [H|H]; simpl.
  - exact H.
  - destruct H.
  - apply IH. left. subst a. reflexivity.
  - apply IH. destruct H as [->|H]; [left; by destruct a|by right].
Qed.

End StatsFacts.



(** X10. A sample whose text is a NaN passes the filter for infinities
    and is kept as a point; and as soon as one point of the series is NaN
    the average is NaN. *)
Theorem nan_sample_poisons_average :
  (forall ts val lbls,
      PyFloat.of_string val = Some PyFloat.NaN ->
      MetricsCollector._parse_metric_value ts val lbls
      = Some (MetricsCollector.Point ts PyFloat.NaN lbls))
  /\ PyFloat.of_string "NaN" = Some PyFloat.NaN
  /\ forall all_values : list MetricsCollector.point,
       (exists p, In p all_values /\ MetricsCollector.value p = PyFloat.NaN) ->
       MetricsCollector.avg_value (MetricsCollector._calculate_stats all_values)
       = Some PyFloat.NaN.
Proof.
  split; [|split; [vm_compute; reflexivity|]].
  - intros ts val lbls E. unfold MetricsCollector._parse_metric_value. by rewrite E.
  - intros l (p & Hp & Hv). unfold MetricsCollector._calculate_stats. simpl.
    destruct (List.map MetricsCollector.value l) as [|x r] eqn:E.
    + destruct l; [destruct Hp|discriminate E].
    + rewrite fold_add_nan; [reflexivity|].
      right. rewrite <- E, <- Hv. by apply List.in_map.
Qed.

Lemma nan_sample_poisons_average_witness :
  MetricsCollector.avg_value
    (MetricsCollector._calculate_stats (MetricsCollector.merged [sample_series]))
  = Some PyFloat.NaN.
Proof.
  apply (proj2 (proj2 nan_sample_poisons_average)).
  exists (MetricsCollector.Point 6 PyFloat.NaN {[ "pod" := "api-1" ]}).
  split; [vm_compute; tauto|reflexivity].
Defined.

(** ** Rules engine: the signals are what the evidence items show *)

Section SignalFacts.
Import RulesEngine.

Lemma fold_flag (f : signals -> bool) (t : evidence -> bool) :
  (forall ev s, f (_process_evidence_item ev s) = t ev || f s) ->
  forall evs s,
    f (List.fold_left (fun s ev => _process_evidence_item ev s) evs s)
    = List.existsb t evs || f s.
Proof.
  intros H evs. induction evs as [|ev r IH]; intros s; simpl; [reflexivity|].
  rewrite IH, H. destruct (t ev), (existsb t r), (f s); reflexivity.
Qed.

Lemma extract_flag (f : signals -> bool) (t : evidence -> bool) :
  f _init_signals = false ->
  (forall ev s, f (_process_evidence_item ev s) = t ev || f s) ->
  forall evs, f (_extract_signals evs) = List.existsb t evs.
Proof.
  intros I H evs. unfold _extract_signals. rewrite (fold_flag f t H), I.
  apply orb_false_r.
Qed.

Ltac by_type :=
  intros [i [ty|] d] s; unfold _process_evidence_item, of_type;
  cbn [evidence_type data mbind option_bind];
  [unfold processors;
   repeat match goal with
     | |- context [String.eqb ty ?c] =>
         let E := fresh "E" in
         destruct (String.eqb ty c) eqn:E;
         [apply String.eqb_eq in E; subst ty|]
     end|];
  cbn -[Py.contains Py.Qltb Qeq_bool union singleton lookup insert bool_decide
        List.fold_left empty].

Lemma member_add (x y : string) (W : gset string) :
  bool_decide (x ∈ ({[ y ]} ∪ W : gset string))
  = String.eqb y x || bool_decide (x ∈ W).
Proof.
  apply eq_true_iff_eq.
  rewrite orb_true_iff, !bool_decide_eq_true, String.eqb_eq, elem_of_union,
    elem_of_singleton.
  split; (intros [H|H]; [left; by symmetry|by right]).
Qed.

Lemma step_waiting x ev s :
  bool_decide (x ∈ waiting_reasons (_process_evidence_item ev s))
  = shows_reason waiting_reason x ev || bool_decide (x ∈ waiting_reasons s).
Proof.
  revert ev s. unfold shows_reason. by_type; try reflexivity.
  destruct (waiting_reason d) as [y|]; [|reflexivity].
  cbn [Py.truthy_str default]. destruct (String.eqb y ""); cbn [negb].
  - by rewrite andb_false_r.
  - by rewrite member_add, andb_true_r.
Qed.

Lemma step_terminated x ev s :
  bool_decide (x ∈ terminated_reasons (_process_evidence_item ev s))
  = shows_reason terminated_reason x ev || bool_decide (x ∈ terminated_reasons s).
Proof.
  revert ev s. unfold shows_reason. by_type; try reflexivity.
  destruct (terminated_reason d) as [y|]; [|reflexivity].
  cbn [Py.truthy_str default]. destruct (String.eqb y ""); cbn [negb].
  - by rewrite andb_false_r.
  - by rewrite member_add, andb_true_r.
Qed.

Lemma step_recent_deploy ev s :
  has_recent_deploy (_process_evidence_item ev s)
  = shows_recent_deploy ev || has_recent_deploy s.
Proof.
  revert ev s. unfold shows_recent_deploy. by_type; reflexivity.
Qed.

Lemma fold_patterns (x : string) (ps : list string) (L : gset string) :
  bool_decide (x ∈ List.fold_left (fun acc p => {[ p ]} ∪ acc) ps L)
  = List.existsb (String.eqb x) ps || bool_decide (x ∈ L).
Proof.
  revert L. induction ps as [|p r IH]; intros L; simpl; [reflexivity|].
  rewrite IH, member_add, (String.eqb_sym x p).
  destruct (String.eqb p x), (existsb (String.eqb x) r), (bool_decide (x ∈ L));
    reflexivity.
Qed.

Lemma step_log_pattern x ev s :
  bool_decide (x ∈ log_patterns (_process_evidence_item ev s))
  = shows_log_pattern x ev || bool_decide (x ∈ log_patterns s).
Proof.
  revert ev s. unfold shows_log_pattern. by_type; try reflexivity.
  apply fold_patterns.
Qed.

Lemma above_is_nonzero (b c : Q) :
  (0 <= b)%Q -> negb (Qeq_bool c 0) && Py.Qltb b c = Py.Qltb b c.
Proof.
  intros Hb. destruct (Py.Qltb b c) eqn:E; [|apply andb_false_r].
  rewrite andb_true_r. apply Qltb_lt in E.
  destruct (Qeq_bool c 0) eqn:Z; [|reflexivity].
  apply Qeq_bool_iff in Z. lra.
Qed.

Lemma step_memory_high ev s :
  memory_usage_high (_process_evidence_item ev s)
  = shows_memory_high ev || memory_usage_high s.
Proof.
  revert ev s. unfold shows_memory_high, metric_name. by_type; try reflexivity.
  destruct (Py.contains "memory" (default "" (query_name d))), (is_anomalous d);
    cbn; try reflexivity.
  destruct (current_value d) as [c|]; [|reflexivity].
  rewrite (above_is_nonzero 90 c) by discriminate.
  by destruct (Py.Qltb 90 c).
Qed.

Lemma step_hpa_at_max ev s :
  hpa_at_max (_process_evidence_item ev s) = shows_hpa_at_max ev || hpa_at_max s.
Proof.
  revert ev s. unfold shows_hpa_at_max, metric_name. by_type; reflexivity.
Qed.

Lemma step_latency_high ev s :
  latency_high (_process_evidence_item ev s)
  = shows_latency_high ev || latency_high s.
Proof.
  revert ev s. unfold shows_latency_high, metric_name. by_type; try reflexivity.
  destruct (Py.contains "latency" (default "" (query_name d))); cbn;
    try reflexivity.
  destruct (current_value d) as [c|]; cbn; [by destruct (Py.Qltb 1 c)|reflexivity].
Qed.

Lemma step_node_issue ev s :
  bool_decide (node_issues (_process_evidence_item ev s) ≠ ∅)
  = shows_node_issue ev || bool_decide (node_issues s ≠ ∅).
Proof.
  revert ev s. unfold shows_node_issue. by_type; try reflexivity.
  destruct (bool_decide (default ∅ (node_conditions d !! "Ready") !! "status"
                         ≠ Some "True")); [|reflexivity].
  cbn. apply bool_decide_eq_true. apply insert_non_empty.
Qed.

Lemma step_cpu_throttling ev s :
  cpu_throttling (_process_evidence_item ev s) = false || cpu_throttling s.
Proof. revert ev s. by_type; reflexivity. Qed.

End SignalFacts.

Section ViewFacts.
Import RulesEngine.

(** Each aspect a bundle records is the disjunction of what the items
    show. *)
Lemma step_reads a ev s :
  reads a (_process_evidence_item ev s) = shows a ev || reads a s.
Proof.
  destruct a; simpl.
  - apply step_waiting.
  - apply step_terminated.
  - apply step_log_pattern.
  - apply step_recent_deploy.
  - apply step_memory_high.
  - apply step_hpa_at_max.
  - apply step_latency_high.
  - apply step_node_issue.
Qed.

Lemma extract_reads a evs :
  reads a (_extract_signals evs) = List.existsb (shows a) evs.
Proof.
  apply (extract_flag (reads a) (shows a)); [by destruct a|].
  intros ev s. apply step_reads.
Qed.

Lemma intersects_reads (W : gset string) (l : list string) :
  intersects W l = List.existsb (fun x => bool_decide (x ∈ W)) l.
Proof.
  unfold intersects. apply eq_true_iff_eq.
  rewrite bool_decide_eq_true, existsb_exists. split.
  - intros H. apply set_choose_L in H. destruct H as (x & Hx).
    apply elem_of_intersection in Hx. destruct Hx as [H1 H2].
    apply elem_of_list_to_set in H2. exists x. split.
    + by apply list_elem_of_In.
    + by apply bool_decide_eq_true.
  - intros (x & Hx & Hb). apply bool_decide_eq_true in Hb.
    intros E. assert (I : x ∈ W ∩ list_to_set l).
    { apply elem_of_intersection. split; [exact Hb|].
      apply elem_of_list_to_set. by apply list_elem_of_In. }
    rewrite E in I. by apply not_elem_of_empty in I.
Qed.

Lemma checks_reads c s :
  checks c s
  = let ty := cond_type c in
    if String.eqb ty "waiting_reason"
    then Some (List.existsb (fun x => reads (Waiting x) s) (cond_values c), 9 # 10)
    else if String.eqb ty "terminated_reason"
    then Some (List.existsb (fun x => reads (Terminated x) s) (cond_values c), 9 # 10)
    else if String.eqb ty "recent_deploy" then Some (reads RecentDeploy s, 8 # 10)
    else if String.eqb ty "no_recent_deploy"
    then Some (negb (reads RecentDeploy s), 6 # 10)
    else if String.eqb ty "memory_usage_high" then Some (reads MemoryHigh s, 85 # 100)
    else if String.eqb ty "hpa_at_max" then Some (reads HpaAtMax s, 75 # 100)
    else if String.eqb ty "latency_high" then Some (reads LatencyHigh s, 7 # 10)
    else if String.eqb ty "log_pattern"
    then Some (List.existsb (fun x => reads (LogPattern x) s) (cond_patterns c), 65 # 100)
    else if String.eqb ty "node_unhealthy" then Some (reads NodeIssue s, 8 # 10)
    else None.
Proof.
  unfold checks. cbv zeta. rewrite !intersects_reads. reflexivity.
Qed.

Lemma existsb_ext_eq {A} (f g : A -> bool) (l : list A) :
  (forall x, f x = g x) -> List.existsb f l = List.existsb g l.
Proof. intros H. induction l as [|x r IH]; simpl; [reflexivity|]. by rewrite H, IH. Qed.

Lemma checks_view c s s' : same_view s s' -> checks c s = checks c s'.
Proof.
  intros V. rewrite !checks_reads. cbv zeta.
  rewrite (existsb_ext_eq (fun x => reads (Waiting x) s) (fun x => reads (Waiting x) s'))
    by (intros; apply V).
  rewrite (existsb_ext_eq (fun x => reads (Terminated x) s)
             (fun x => reads (Terminated x) s')) by (intros; apply V).
  rewrite (existsb_ext_eq (fun x => reads (LogPattern x) s)
             (fun x => reads (LogPattern x) s')) by (intros; apply V).
  by rewrite (V RecentDeploy), (V MemoryHigh), (V HpaAtMax), (V LatencyHigh),
    (V NodeIssue).
Qed.

Lemma match_loop_view conds s s' :
  same_view s s' -> match_loop conds s = match_loop conds s'.
Proof.
  intros V. unfold match_loop. generalize (0, 0%Q).
  induction conds as [|c r IH]; intros acc; simpl; [reflexivity|].
  unfold _check_condition. by rewrite (checks_view c s s' V), IH.
Qed.

(** A rule matches two bundles of the same view in the same way; only
    the recorded evidence ids may differ. *)
Lemma match_rule_view r s s' :
  same_view s s' ->
  matched (_match_rule r s) = matched (_match_rule r s')
  /\ match_count (_match_rule r s) = match_count (_match_rule r s')
  /\ evidence_strength (_match_rule r s) = evidence_strength (_match_rule r s').
Proof.
  intros V. unfold _match_rule. rewrite (match_loop_view _ s s' V).
  destruct (match_loop (rule_conditions r) s'). repeat split.
Qed.

Lemma fired_view rules s s' : same_view s s' -> fired rules s = fired rules s'.
Proof.
  intros V. unfold fired. f_equal. apply List.filter_ext.
  intros r. apply (match_rule_view r s s' V).
Qed.

Lemma create_hypothesis_view uuid inc r s s' :
  same_view s s' ->
  forget_evidence (_create_hypothesis uuid inc r (_match_rule r s))
  = forget_evidence (_create_hypothesis uuid inc r (_match_rule r s')).
Proof.
  intros V. destruct (match_rule_view r s s' V) as (_ & C & S).
  unfold forget_evidence, _create_hypothesis. simpl. by rewrite C, S.
Qed.

Lemma rules_loop_view uuids inc rules s s' n :
  same_view s s' ->
  List.map forget_evidence (rules_loop uuids inc rules s n).1
  = List.map forget_evidence (rules_loop uuids inc rules s' n).1
  /\ (rules_loop uuids inc rules s n).2 = (rules_loop uuids inc rules s' n).2.
Proof.
  intros V. revert n. induction rules as [|r rest IH]; intros n; simpl; [by split|].
  destruct (match_rule_view r s s' V) as (M & _). rewrite M.
  destruct (matched (_match_rule r s')); [|apply IH].
  destruct (IH (S n)) as [I1 I2].
  destruct (rules_loop uuids inc rest s (S n)) as [hs k].
  destruct (rules_loop uuids inc rest s' (S n)) as [hs' k'].
  simpl in *. split; [|exact I2].
  by rewrite I1, (create_hypothesis_view _ _ r s s' V).
Qed.

Lemma sort_forget (hs : list HypothesisDict.t) :
  List.map forget_evidence (Py.sort_desc confidence_key hs)
  = Py.sort_desc confidence_key (List.map forget_evidence hs).
Proof. by rewrite sort_desc_map. Qed.

(** The hypotheses for two evidence lists whose bundles have the same
    view differ in the supporting evidence only. *)
Lemma generate_view rules uuids inc evs evs' :
  same_view (_extract_signals evs) (_extract_signals evs') ->
  List.map forget_evidence (generate_hypotheses_with rules uuids inc evs)
  = List.map forget_evidence (generate_hypotheses_with rules uuids inc evs').
Proof.
  intros V. unfold generate_hypotheses_with.
  destruct (rules_loop_view uuids inc rules _ _ 0%nat V) as [I1 I2].
  destruct (rules_loop uuids inc rules (_extract_signals evs) 0) as [hs k].
  destruct (rules_loop uuids inc rules (_extract_signals evs') 0) as [hs' k'].
  simpl in I1, I2. subst k'.
  pose proof (f_equal (Py.sort_desc confidence_key) I1) as S.
  rewrite <- !sort_forget in S.
  destruct (Py.sort_desc confidence_key hs) as [|h r];
    destruct (Py.sort_desc confidence_key hs') as [|h' r']; try discriminate S.
  - reflexivity.
  - exact S.
Qed.

Lemma existsb_perm {A} (f : A -> bool) (l l' : list A) :
  l ≡ₚ l' -> List.existsb f l = List.existsb f l'.
Proof.
  induction 1 as [|x l l' _ IH|x y l|l l' l'' _ IH1 _ IH2]; simpl.
  - reflexivity.
  - by rewrite IH.
  - destruct (f x), (f y); reflexivity.
  - by rewrite IH1.
Qed.

End ViewFacts.

Section ShownFacts.
Import RulesEngine.

Lemma of_type_true ty ev : of_type ty ev = true <-> evidence_type ev = Some ty.
Proof.
  unfold of_type. destruct (evidence_type ev) as [t|]; [|split; discriminate].
  rewrite String.eqb_eq. split; [by intros ->|by intros [= ->]].
Qed.

Lemma shown_iff (a : aspect) (ty : string) (P : evidence_data -> Prop) evs :
  (forall ev, shows a ev = true <-> evidence_type ev = Some ty /\ P (data ev)) ->
  reads a (_extract_signals evs) = true
  <-> exists ev, In ev evs /\ evidence_type ev = Some ty /\ P (data ev).
Proof.
  intros H. rewrite extract_reads, existsb_exists.
  split; intros (ev & Hin & Hs); exists ev; (split; [exact Hin|]); by apply H.
Qed.

Lemma shows_reason_iff field x ev :
  shows_reason field x ev = true
  <-> evidence_type ev = Some "kubernetes_pod" /\ (field (data ev) = Some x /\ x <> "").
Proof.
  unfold shows_reason. rewrite andb_true_iff, of_type_true.
  destruct (field (data ev)) as [y|].
  - rewrite andb_true_iff, negb_true_iff, String.eqb_eq, String.eqb_neq. split.
    + intros (T & -> & N). by repeat split.
    + intros (T & [= ->] & N). by repeat split.
  - split; [intros [_ H]; discriminate H|intros (_ & H & _); discriminate H].
Qed.

Lemma shows_log_pattern_iff x ev :
  shows_log_pattern x ev = true
  <-> evidence_type ev = Some "log_signal" /\ In x (patterns_found (data ev)).
Proof.
  unfold shows_log_pattern. rewrite andb_true_iff, of_type_true, existsb_exists.
  split.
  - intros (T & y & Hy & E). apply String.eqb_eq in E. by subst y.
  - intros (T & Hx). split; [exact T|]. exists x. split; [exact Hx|apply String.eqb_refl].
Qed.

Lemma shows_memory_high_iff ev :
  shows_memory_high ev = true
  <-> evidence_type ev = Some "metric_signal"
      /\ (Py.contains "memory" (default "" (query_name (data ev))) = true
          /\ is_anomalous (data ev) = true
          /\ exists c, current_value (data ev) = Some c /\ (90 < c)%Q).
Proof.
  unfold shows_memory_high, metric_name.
  rewrite !andb_true_iff, of_type_true.
  destruct (current_value (data ev)) as [c|].
  - rewrite Qltb_lt. split.
    + intros (((T & M) & A) & C). repeat split; try assumption. by exists c.
    + intros (T & M & A & c' & [= <-] & C). by repeat split.
  - split; [intros (_ & H); discriminate H|].
    intros (_ & _ & _ & c & H & _). discriminate H.
Qed.

Lemma shows_hpa_at_max_iff ev :
  shows_hpa_at_max ev = true
  <-> evidence_type ev = Some "metric_signal"
      /\ (Py.contains "hpa" (default "" (query_name (data ev))) = true
          /\ Py.contains "max" (default "" (query_name (data ev))) = true
          /\ exists c, current_value (data ev) = Some c /\ (c == 1)%Q).
Proof.
  unfold shows_hpa_at_max, metric_name.
  rewrite !andb_true_iff, of_type_true.
  destruct (current_value (data ev)) as [c|].
  - rewrite Qeq_bool_iff. split.
    + intros (((T & M) & A) & C). repeat split; try assumption. by exists c.
    + intros (T & M & A & c' & [= <-] & C). by repeat split.
  - split; [intros (_ & H); discriminate H|].
    intros (_ & _ & _ & c & H & _). discriminate H.
Qed.

Lemma shows_latency_high_iff ev :
  shows_latency_high ev = true
  <-> evidence_type ev = Some "metric_signal"
      /\ (Py.contains "latency" (default "" (query_name (data ev))) = true
          /\ exists c, current_value (data ev) = Some c /\ (1 < c)%Q).
Proof.
  unfold shows_latency_high, metric_name.
  rewrite !andb_true_iff, of_type_true.
  destruct (current_value (data ev)) as [c|].
  - rewrite Qltb_lt. split.
    + intros ((T & M) & C). repeat split; try assumption. by exists c.
    + intros (T & M & c' & [= <-] & C). by repeat split.
  - split; [intros (_ & H); discriminate H|].
    intros (_ & _ & c & H & _). discriminate H.
Qed.

Lemma shows_node_issue_iff ev :
  shows_node_issue ev = true
  <-> evidence_type ev = Some "kubernetes_node"
      /\ default ∅ (node_conditions (data ev) !! "Ready") !! "status" ≠ Some "True".
Proof.
  unfold shows_node_issue. by rewrite andb_true_iff, of_type_true, bool_decide_eq_true.
Qed.

Lemma shows_recent_deploy_iff ev :
  shows_recent_deploy ev = true
  <-> evidence_type ev = Some "deploy_change" /\ is_recent_change (data ev) = true.
Proof. unfold shows_recent_deploy. by rewrite andb_true_iff, of_type_true. Qed.

Lemma extract_cpu_throttling evs : cpu_throttling (_extract_signals evs) = false.
Proof.
  rewrite (extract_flag cpu_throttling (fun _ => false)); [|reflexivity|].
  - induction evs; [reflexivity|assumption].
  - intros ev s. apply step_cpu_throttling.
Qed.

End ShownFacts.

(** X11. Each signal the condition checks read is the disjunction of
    what the individual evidence items show: a waiting or terminated
    reason is recorded iff some pod item carries it (non-empty), a log
    pattern iff some log item lists it, the recent-deploy flag iff some
    deploy item is recent, high memory iff some anomalous metric item
    named *memory* is above 90, HPA-at-max iff some metric item named
    *hpa*max* equals 1, high latency iff some metric item named *latency*
    is above 1, a node issue iff some node item is not Ready=True; CPU
    throttling is never set. *)
Theorem signals_are_what_evidence_shows :
  forall evs : list RulesEngine.evidence,
    let s := RulesEngine._extract_signals evs in
    let shown (ty : string) (P : RulesEngine.evidence_data -> Prop) :=
      exists ev, In ev evs /\ RulesEngine.evidence_type ev = Some ty
                 /\ P (RulesEngine.data ev) in
    let name d := default "" (RulesEngine.query_name d) in
    (forall x, x ∈ RulesEngine.waiting_reasons s
               <-> shown "kubernetes_pod"
                     (fun d => RulesEngine.waiting_reason d = Some x /\ x <> ""))
    /\ (forall x, x ∈ RulesEngine.terminated_reasons s
                  <-> shown "kubernetes_pod"
                        (fun d => RulesEngine.terminated_reason d = Some x /\ x <> ""))
    /\ (forall x, x ∈ RulesEngine.log_patterns s
                  <-> shown "log_signal"
                        (fun d => In x (RulesEngine.patterns_found d)))
    /\ (RulesEngine.has_recent_deploy s = true
        <-> shown "deploy_change" (fun d => RulesEngine.is_recent_change d = true))
    /\ (RulesEngine.memory_usage_high s = true
        <-> shown "metric_signal"
              (fun d => Py.contains "memory" (name d) = true
                        /\ RulesEngine.is_anomalous d = true
                        /\ exists c, RulesEngine.current_value d = Some c /\ (90 < c)%Q))
    /\ (RulesEngine.hpa_at_max s = true
        <-> shown "metric_signal"
              (fun d => Py.contains "hpa" (name d) = true
                        /\ Py.contains "max" (name d) = true
                        /\ exists c, RulesEngine.current_value d = Some c /\ (c == 1)%Q))
    /\ (RulesEngine.latency_high s = true
        <-> shown "metric_signal"
              (fun d => Py.contains "latency" (name d) = true
                        /\ exists c, RulesEngine.current_value d = Some c /\ (1 < c)%Q))
    /\ (RulesEngine.node_issues s ≠ ∅
        <-> shown "kubernetes_node"
              (fun d => default ∅ (RulesEngine.node_conditions d !! "Ready") !! "status"
                        ≠ Some "True"))
    /\ RulesEngine.cpu_throttling s = false.
Proof.
  intros evs s shown name.
  split; [|split; [|split; [|split; [|split; [|split; [|split; [|split]]]]]]].
  - intros x. rewrite <- (bool_decide_eq_true (x ∈ RulesEngine.waiting_reasons s)).
    apply (shown_iff (Waiting x)). intros ev. apply shows_reason_iff.
  - intros x. rewrite <- (bool_decide_eq_true (x ∈ RulesEngine.terminated_reasons s)).
    apply (shown_iff (Terminated x)). intros ev. apply shows_reason_iff.
  - intros x. rewrite <- (bool_decide_eq_true (x ∈ RulesEngine.log_patterns s)).
    apply (shown_iff (LogPattern x)). intros ev. apply shows_log_pattern_iff.
  - apply (shown_iff RecentDeploy). intros ev. apply shows_recent_deploy_iff.
  - apply (shown_iff MemoryHigh). intros ev. apply shows_memory_high_iff.
  - apply (shown_iff HpaAtMax). intros ev. apply shows_hpa_at_max_iff.
  - apply (shown_iff LatencyHigh). intros ev. apply shows_latency_high_iff.
  - rewrite <- (bool_decide_eq_true (RulesEngine.node_issues s ≠ ∅)).
    apply (shown_iff NodeIssue). intros ev. apply shows_node_issue_iff.
  - apply extract_cpu_throttling.
Qed.

(** X12. The order of the evidence does not matter to the diagnosis:
    for two evidence lists that are permutations of each other the
    engine returns the same hypotheses (rules, confidences, order,
    actions); only the lists of supporting evidence ids may differ. *)
Theorem hypotheses_ignore_evidence_order :
  forall (rules : list RulesEngine.rule) (uuids : nat -> string) (inc : string)
         (evs evs' : list RulesEngine.evidence),
    evs ≡ₚ evs' ->
    List.map forget_evidence (RulesEngine.generate_hypotheses_with rules uuids inc evs)
    = List.map forget_evidence
        (RulesEngine.generate_hypotheses_with rules uuids inc evs').
Proof.
  intros rules uuids inc evs evs' P. apply generate_view.
  intros a. rewrite !extract_reads. by apply existsb_perm.
Qed.

Lemma hypotheses_ignore_evidence_order_witness :
  List.map forget_evidence
    (RulesEngine.generate_hypotheses (fun _ => "uuid") "incident"
       [pod_evidence (Some "CrashLoopBackOff") None; deploy_evidence])
  = List.map forget_evidence
      (RulesEngine.generate_hypotheses (fun _ => "uuid") "incident"
         [deploy_evidence; pod_evidence (Some "CrashLoopBackOff") None]).
Proof.
  apply (hypotheses_ignore_evidence_order RulesEngine.DIAGNOSIS_RULES
           (fun _ => "uuid") "incident").
  apply perm_swap.
Defined.

Section IrrelevantEvidence.
Import RulesEngine.

Lemma shows_nothing (a : aspect) (ev : evidence) :
  (evidence_type ev = Some "image_change"
   \/ evidence_type ev ≫= processors = None) ->
  shows a ev = false.
Proof.
  intros H.
  assert (T : of_type "kubernetes_pod" ev = false
              /\ of_type "deploy_change" ev = false
              /\ of_type "log_signal" ev = false
              /\ of_type "metric_signal" ev = false
              /\ of_type "kubernetes_node" ev = false).
  { unfold of_type. destruct H as [H|H].
    - rewrite H. repeat split.
    - destruct (evidence_type ev) as [ty|]; [|repeat split].
      simpl in H. unfold processors in H.
      repeat match type of H with
             | (if String.eqb ty ?c then _ else _) = None =>
                 destruct (String.eqb ty c); [discriminate H|]
             end.
      repeat split. }
  destruct T as (T1 & T2 & T3 & T4 & T5).
  destruct a; simpl;
    unfold shows_reason, shows_log_pattern, shows_recent_deploy, shows_memory_high,
      shows_hpa_at_max, shows_latency_high, shows_node_issue;
    rewrite ?T1, ?T2, ?T3, ?T4, ?T5; reflexivity.
Qed.

End IrrelevantEvidence.

(** X13. Image-change evidence, and evidence of a type the engine has no
    processor for, never influences the diagnosis: with or without such
    an item the engine returns the same hypotheses, up to the lists of
    supporting evidence ids. *)
Theorem hypotheses_ignore_image_changes :
  forall (rules : list RulesEngine.rule) (uuids : nat -> string) (inc : string)
         (evs1 evs2 : list RulesEngine.evidence) (ev : RulesEngine.evidence),
    (RulesEngine.evidence_type ev = Some "image_change"
     \/ RulesEngine.evidence_type ev ≫= RulesEngine.processors = None) ->
    List.map forget_evidence
      (RulesEngine.generate_hypotheses_with rules uuids inc (evs1 ++ ev :: evs2))
    = List.map forget_evidence
        (RulesEngine.generate_hypotheses_with rules uuids inc (evs1 ++ evs2)).
Proof.
  intros rules uuids inc evs1 evs2 ev H. apply generate_view.
  intros a. rewrite !extract_reads, !existsb_app. simpl.
  by rewrite (shows_nothing a ev H).
Qed.

Lemma hypotheses_ignore_image_changes_witness :
  List.map forget_evidence
    (RulesEngine.generate_hypotheses (fun _ => "uuid") "incident"
       ([pod_evidence (Some "CrashLoopBackOff") None] ++ image_evidence :: []))
  = List.map forget_evidence
      (RulesEngine.generate_hypotheses (fun _ => "uuid") "incident"
         ([pod_evidence (Some "CrashLoopBackOff") None] ++ [])).
Proof.
  apply (hypotheses_ignore_image_changes RulesEngine.DIAGNOSIS_RULES
           (fun _ => "uuid") "incident").
  left. reflexivity.
Defined.

(** ** Rules engine: which rules fire, and with what confidence *)

Section FiredFacts.
Import RulesEngine.

Lemma rules_loop_rule_ids uuids inc rules s n :
  List.map HypothesisDict.rule_id (rules_loop uuids inc rules s n).1 = fired rules s.
Proof.
  unfold fired. revert n. induction rules as [|r rest IH]; intros n; simpl;
    [reflexivity|].
  destruct (matched (_match_rule r s)); [|apply IH].
  specialize (IH (S n)). destruct (rules_loop uuids inc rest s (S n)) as [hs k].
  simpl in *. by rewrite IH.
Qed.

Lemma rules_loop_in uuids inc rules s n h :
  In h (rules_loop uuids inc rules s n).1 ->
  exists r k, In r rules /\ matched (_match_rule r s) = true
              /\ h = _create_hypothesis (uuids k) inc r (_match_rule r s).
Proof.
  revert n. induction rules as [|r rest IH]; intros n; simpl; [tauto|].
  destruct (matched (_match_rule r s)) eqn:M.
  - specialize (IH (S n)). destruct (rules_loop uuids inc rest s (S n)) as [hs k].
    simpl in *. intros [<-|H].
    + exists r, n. repeat split; [by left|exact M].
    + destruct (IH H) as (r' & k' & Hr & Hm & E). exists r', k'.
      repeat split; [by right|exact Hm|exact E].
  - intros H. destruct (IH n H) as (r' & k' & Hr & Hm & E). exists r', k'.
    repeat split; [by right|exact Hm|exact E].
Qed.

(** The rule ids of the hypotheses: the rules that fire, or [unknown]
    alone. *)
Lemma generate_rule_ids rules uuids inc evs :
  List.map HypothesisDict.rule_id (generate_hypotheses_with rules uuids inc evs)
  ≡ₚ match fired rules (_extract_signals evs) with
     | [] => ["unknown"]
     | ids => ids
     end.
Proof.
  unfold generate_hypotheses_with.
  pose proof (rules_loop_rule_ids uuids inc rules (_extract_signals evs) 0) as F.
  destruct (rules_loop uuids inc rules (_extract_signals evs) 0) as [hs n].
  simpl in F. rewrite <- F.
  pose proof (sort_desc_perm confidence_key hs) as P.
  destruct (Py.sort_desc confidence_key hs) as [|h r] eqn:S.
  - symmetry in P. apply Permutation_nil_r in P. subst hs. reflexivity.
  - destruct hs as [|h0 r0]; [apply Permutation_nil_r in P; discriminate P|].
    change (List.map HypothesisDict.rule_id (h :: r)
            ≡ₚ List.map HypothesisDict.rule_id (h0 :: r0)).
    by apply Permutation_map.
Qed.

Lemma check_matched_bool c s :
  check_matched (_check_condition c s)
  = match checks c s with Some (b, _) => b | None => false end.
Proof. unfold _check_condition. by destruct (checks c s) as [[[] ?]|]. Qed.

(** [matched] as a conjunction over the conditions. *)
Lemma matched_forallb r s :
  matched (_match_rule r s)
  = match rule_conditions r with [] => false | _ :: _ => true end
    && List.forallb (fun c => check_matched (_check_condition c s)) (rule_conditions r).
Proof.
  apply eq_true_iff_eq.
  rewrite matched_iff, andb_true_iff, forallb_forall.
  destruct (rule_conditions r); split; intros [H1 H2]; (split; [|exact H2]);
    congruence.
Qed.

Lemma fired_cons_live r rest s (ident : string) (b : bool) (l : list (string * bool)) :
  rule_ident r = ident ->
  matched (_match_rule r s) = b ->
  fired rest s = List.map fst (List.filter snd l) ->
  fired (r :: rest) s = List.map fst (List.filter snd ((ident, b) :: l)).
Proof.
  unfold fired. intros <- <- E. simpl.
  destruct (matched (_match_rule r s)); simpl; by rewrite E.
Qed.

Lemma fired_cons_dead r rest s (c : condition) (l : list string) :
  In c (rule_conditions r) -> checks c s = None ->
  fired rest s = l -> fired (r :: rest) s = l.
Proof.
  unfold fired. intros Hin Hc <-. simpl.
  rewrite (rule_with_unmatched_condition r s c Hin); [reflexivity|].
  by apply unknown_type_never_matches.
Qed.

Ltac rule_matches :=
  rewrite matched_forallb; cbn [rule_conditions List.forallb];
  rewrite !check_matched_bool, !checks_reads;
  cbn [cond_type cond_values cond_patterns cond String.eqb Ascii.eqb Bool.eqb
       List.existsb andb negb];
  rewrite ?andb_true_r, ?orb_false_r, ?orb_assoc;
  try reflexivity.

Lemma fired_catalog evs :
  fired DIAGNOSIS_RULES (_extract_signals evs) = expected_rules evs.
Proof.
  unfold expected_rules, any_shows.
  rewrite <- !extract_reads. generalize (_extract_signals evs). intros s.
  unfold DIAGNOSIS_RULES.
  apply fired_cons_live; [reflexivity|rule_matches|].
  apply fired_cons_live; [reflexivity|rule_matches|].
  apply fired_cons_live; [reflexivity|rule_matches|].
  apply fired_cons_live; [reflexivity|rule_matches|].
  apply fired_cons_live; [reflexivity|rule_matches|].
  apply (fired_cons_dead _ _ s (cond "multiple_pods_same_node"));
    [left; reflexivity|reflexivity|].
  apply fired_cons_live; [reflexivity|rule_matches|].
  apply (fired_cons_dead _ _ s (cond "pod_not_ready"));
    [left; reflexivity|reflexivity|].
  apply fired_cons_live; [reflexivity|rule_matches|].
  apply (fired_cons_dead _ _ s (cond "network_errors_high"));
    [right; left; reflexivity|reflexivity|].
  reflexivity.
Qed.

End FiredFacts.

Lemma catalog_rules uuids inc evs :
  List.map HypothesisDict.rule_id (RulesEngine.generate_hypotheses uuids inc evs)
  ≡ₚ match expected_rules evs with
     | [] => ["unknown"]
     | ids => ids
     end.
Proof. rewrite <- fired_catalog. apply generate_rule_ids. Qed.

(** X14. Which catalog rules fire is decided by what the evidence shows,
    item by item: the rule ids of the hypotheses returned are exactly the
    ids the table [expected_rules] lists for the evidence, or [unknown]
    alone when the table lists none. (Seven of the ten catalog rules
    occur in the table; the other three never fire.) *)
Theorem catalog_as_evidence_table :
  forall (uuids : nat -> string) (inc : string) (evs : list RulesEngine.evidence),
    List.map HypothesisDict.rule_id (RulesEngine.generate_hypotheses uuids inc evs)
    ≡ₚ match expected_rules evs with
       | [] => ["unknown"]
       | ids => ids
       end.
Proof.
  intros uuids inc evs. apply catalog_rules.
Qed.

Section CrashLoop.
Import RulesEngine.

Lemma reports_in ident hs :
  reports ident hs <-> In ident (List.map HypothesisDict.rule_id hs).
Proof.
  unfold reports. rewrite in_map_iff. split; intros (h & H1 & H2); exists h; tauto.
Qed.

Lemma expected_not_unknown evs : ~ In "unknown" (expected_rules evs).
Proof.
  unfold expected_rules. intros H. apply in_map_iff in H.
  destruct H as ([ident b] & E & H). simpl in E. subst ident.
  apply filter_In in H. destruct H as [H _]. simpl in H.
  repeat (destruct H as [H|H]; [discriminate H|]). destruct H.
Qed.

Lemma reports_expected uuids inc evs ident :
  ident <> "unknown" ->
  reports ident (generate_hypotheses uuids inc evs) <-> In ident (expected_rules evs).
Proof.
  intros N. rewrite reports_in.
  pose proof (catalog_rules uuids inc evs) as P.
  split; intros H.
  - apply (Permutation_in _ P) in H.
    destruct (expected_rules evs); [|exact H].
    destruct H as [H|[]]. congruence.
  - apply (Permutation_in _ (Permutation_sym P)).
    destruct (expected_rules evs); [destruct H|exact H].
Qed.

Lemma any_shows_iff a evs :
  any_shows a evs = true <-> exists ev, In ev evs /\ shows a ev = true.
Proof. apply existsb_exists. Qed.

End CrashLoop.

Section CrashLoopRules.
Import RulesEngine.

Lemma in_expected ident evs :
  In ident (expected_rules evs)
  <-> In (ident, true)
        [ ("crashloop_recent_deploy",
           any_shows (Waiting "CrashLoopBackOff") evs && any_shows RecentDeploy evs);
          ("crashloop_no_change",
           any_shows (Waiting "CrashLoopBackOff") evs
           && negb (any_shows RecentDeploy evs));
          ("oom_killed", any_shows (Terminated "OOMKilled") evs);
          ("oom_high_memory", any_shows MemoryHigh evs);
          ("image_pull_failure",
           any_shows (Waiting "ImagePullBackOff") evs
           || any_shows (Waiting "ErrImagePull") evs
           || any_shows (Waiting "ImageInspectError") evs);
          ("hpa_maxed", any_shows HpaAtMax evs && any_shows LatencyHigh evs);
          ("config_error",
           any_shows (Terminated "ContainerCannotRun") evs
           || any_shows (Terminated "CreateContainerConfigError") evs) ].
Proof.
  unfold expected_rules. rewrite in_map_iff. split.
  - intros ([i b] & E & H). simpl in E. subst i.
    apply filter_In in H. destruct H as [H B]. simpl in B. by subst b.
  - intros H. exists (ident, true). split; [reflexivity|].
    apply filter_In. by split.
Qed.

Lemma crashing_iff evs :
  any_shows (Waiting "CrashLoopBackOff") evs = true
  <-> exists ev, In ev evs /\ evidence_type ev = Some "kubernetes_pod"
                 /\ waiting_reason (data ev) = Some "CrashLoopBackOff".
Proof.
  rewrite any_shows_iff. split; intros (ev & Hin & H); exists ev; (split; [exact Hin|]).
  - apply shows_reason_iff in H. tauto.
  - apply shows_reason_iff. destruct H as [H1 H2]. repeat split; try assumption.
    discriminate.
Qed.

Lemma deployed_iff evs :
  any_shows RecentDeploy evs = true
  <-> exists ev, In ev evs /\ evidence_type ev = Some "deploy_change"
                 /\ is_recent_change (data ev) = true.
Proof.
  rewrite any_shows_iff. split; intros (ev & Hin & H); exists ev; (split; [exact Hin|]);
    by apply shows_recent_deploy_iff.
Qed.

End CrashLoopRules.

(** X15. The two crash-loop rules split the cases between them: when a
    pod evidence item has waiting reason CrashLoopBackOff, the engine
    reports the bad-deployment rule if some deploy-change item is recent
    and the runtime-error rule if none is; it reports neither without
    such a pod, and never both. *)
Theorem crashloop_rules_split_on_deploy :
  forall (uuids : nat -> string) (inc : string) (evs : list RulesEngine.evidence),
    let hs := RulesEngine.generate_hypotheses uuids inc evs in
    let crashing :=
      exists ev, In ev evs /\ RulesEngine.evidence_type ev = Some "kubernetes_pod"
                 /\ RulesEngine.waiting_reason (RulesEngine.data ev)
                    = Some "CrashLoopBackOff" in
    let deployed :=
      exists ev, In ev evs /\ RulesEngine.evidence_type ev = Some "deploy_change"
                 /\ RulesEngine.is_recent_change (RulesEngine.data ev) = true in
    (reports "crashloop_recent_deploy" hs <-> crashing /\ deployed)
    /\ (reports "crashloop_no_change" hs <-> crashing /\ ~ deployed)
    /\ ~ (reports "crashloop_recent_deploy" hs /\ reports "crashloop_no_change" hs).
Proof.
  intros uuids inc evs hs crashing deployed.
  assert (A : reports "crashloop_recent_deploy" hs <-> crashing /\ deployed).
  { subst hs. rewrite reports_expected by discriminate.
    rewrite in_expected. unfold crashing, deployed.
    rewrite <- crashing_iff, <- deployed_iff, <- andb_true_iff.
    split.
    - intros H. simpl in H.
      repeat (destruct H as [H|H]; [try discriminate H; by injection H|]). destruct H.
    - intros H. left. by rewrite H. }
  assert (B : reports "crashloop_no_change" hs <-> crashing /\ ~ deployed).
  { subst hs. rewrite reports_expected by discriminate.
    rewrite in_expected. unfold crashing, deployed.
    rewrite <- crashing_iff, <- deployed_iff, not_true_iff_false, <- negb_true_iff,
      <- andb_true_iff.
    split.
    - intros H. simpl in H.
      repeat (destruct H as [H|H]; [try discriminate H; by injection H|]). destruct H.
    - intros H. right. left. by rewrite H. }
  split; [exact A|]. split; [exact B|].
  rewrite A, B. tauto.
Qed.

Section OutcomeFacts.
Import RulesEngine.

Lemma generate_in (rules : list rule) uuids inc evs h :
  In h (generate_hypotheses_with rules uuids inc evs) ->
  (exists k, h = _create_unknown_hypothesis (uuids k) inc (_extract_signals evs))
  \/ exists r k, In r rules
                 /\ matched (_match_rule r (_extract_signals evs)) = true
                 /\ h = _create_hypothesis (uuids k) inc r
                          (_match_rule r (_extract_signals evs)).
Proof.
  unfold generate_hypotheses_with. intros H.
  pose proof (rules_loop_in uuids inc rules (_extract_signals evs) 0 h) as R.
  destruct (rules_loop uuids inc rules (_extract_signals evs) 0) as [hs n].
  simpl in R.
  destruct (Py.sort_desc confidence_key hs) as [|h0 r0] eqn:S.
  - destruct H as [<-|[]]. left. by exists n.
  - right. apply R. rewrite <- S in H.
    apply (Permutation_in h (sort_desc_perm confidence_key hs) H).
Qed.

(** The confidence of a hypothesis of a rule all of whose conditions
    match, with the strengths read off the condition types. *)
Lemma confidence_by_types r s uuid inc :
  matched (_match_rule r s) = true ->
  HypothesisDict.confidence (_create_hypothesis uuid inc r (_match_rule r s))
  = Some (Py.round
            (spec_confidence (confidence_base r)
               (List.fold_right (fun c acc => (type_strength c + acc)%Q) 0%Q
                  (rule_conditions r))
               (Z.of_nat (List.length (rule_conditions r)))
               (Z.of_nat (List.length (rule_conditions r)))) 3).
Proof.
  intros M. pose proof (confidence_of_matched r s uuid inc M) as C. cbv zeta in C.
  rewrite C. pose proof (proj1 (matched_iff r s) M) as [_ Hall].
  by rewrite (matched_strength_sum _ s Hall).
Qed.

End OutcomeFacts.

(** X16. The confidence of a hypothesis is a constant of its rule: the
    evidence decides which rules fire, never how confident the engine
    is. Every hypothesis returned for the catalog has one of eight
    (rule, category, confidence) combinations. *)
Theorem confidence_is_fixed_per_rule :
  forall (uuids : nat -> string) (inc : string) (evs : list RulesEngine.evidence)
         (h : HypothesisDict.t),
    In h (RulesEngine.generate_hypotheses uuids inc evs) ->
    exists (cat : string) (c q : Q),
      In (HypothesisDict.rule_id h, cat, c) catalog_outcomes
      /\ HypothesisDict.category h = Some cat
      /\ HypothesisDict.confidence h = Some q
      /\ (q == c)%Q.
Proof.
  intros uuids inc evs h H.
  destruct (generate_in _ _ _ _ _ H) as [[k ->]|(r & k & Hr & M & ->)].
  { exists "unknown", (30 # 100)%Q, (3 # 10)%Q.
    split; [vm_compute; tauto|]. repeat split. }
  pose proof (confidence_by_types r _ (uuids k) inc M) as C.
  assert (D : forall c, In c (RulesEngine.rule_conditions r) ->
                        RulesEngine.checks c (RulesEngine._extract_signals evs) = None ->
                        False).
  { intros c Hc Hn.
    rewrite (rule_with_unmatched_condition r _ c Hc) in M; [discriminate M|].
    by apply unknown_type_never_matches. }
  simpl in Hr.
  destruct Hr as [<-|[<-|[<-|[<-|[<-|[<-|[<-|[<-|[<-|[<-|[]]]]]]]]]]].
  - exists "bad_deployment", (88 # 100)%Q. eexists.
    split; [vm_compute; tauto|]. split; [reflexivity|]. split; [exact C|].
    vm_compute. reflexivity.
  - exists "external_dependency", (75 # 100)%Q. eexists.
    split; [vm_compute; tauto|]. split; [reflexivity|]. split; [exact C|].
    vm_compute. reflexivity.
  - exists "resource_exhaustion", (93 # 100)%Q. eexists.
    split; [vm_compute; tauto|]. split; [reflexivity|]. split; [exact C|].
    vm_compute. reflexivity.
  - exists "resource_exhaustion", (82 # 100)%Q. eexists.
    split; [vm_compute; tauto|]. split; [reflexivity|]. split; [exact C|].
    vm_compute. reflexivity.
  - exists "configuration_error", (93 # 100)%Q. eexists.
    split; [vm_compute; tauto|]. split; [reflexivity|]. split; [exact C|].
    vm_compute. reflexivity.
  - exfalso. apply (D (RulesEngine.cond "multiple_pods_same_node"));
      [left; reflexivity|reflexivity].
  - exists "scaling_issue", (77 # 100)%Q. eexists.
    split; [vm_compute; tauto|]. split; [reflexivity|]. split; [exact C|].
    vm_compute. reflexivity.
  - exfalso. apply (D (RulesEngine.cond "pod_not_ready"));
      [left; reflexivity|reflexivity].
  - exists "configuration_error", (90 # 100)%Q. eexists.
    split; [vm_compute; tauto|]. split; [reflexivity|]. split; [exact C|].
    vm_compute. reflexivity.
  - exfalso. apply (D (RulesEngine.cond "network_errors_high"));
      [right; left; reflexivity|reflexivity].
Qed.

Lemma confidence_is_fixed_per_rule_witness :
  exists (cat : string) (c q : Q),
    In (HypothesisDict.rule_id crashloop_diagnosis, cat, c) catalog_outcomes
    /\ HypothesisDict.category crashloop_diagnosis = Some cat
    /\ HypothesisDict.confidence crashloop_diagnosis = Some q
    /\ (q == c)%Q.
Proof.
  apply (confidence_is_fixed_per_rule (fun _ => "uuid") "incident" crashloop_evidence).
  vm_compute. left. reflexivity.
Defined.

Section ShapeFacts.
Import RulesEngine.

Lemma NoDup_map_filter {A B} (f : A -> B) (p : A -> bool) (l : list A) :
  List.NoDup (List.map f l) -> List.NoDup (List.map f (List.filter p l)).
Proof.
  induction l as [|x r IH]; simpl; [constructor|].
  intros H. inversion H as [|? ? Hx Hr]; subst.
  destruct (p x); [|by apply IH]. simpl. constructor; [|by apply IH].
  intros I. apply Hx. apply in_map_iff in I. destruct I as (y & E & Hy).
  apply in_map_iff. exists y. split; [exact E|]. apply filter_In in Hy. tauto.
Qed.

Lemma expected_nodup evs : List.NoDup (expected_rules evs).
Proof.
  unfold expected_rules. apply NoDup_map_filter. simpl.
  repeat (constructor; [simpl; intuition discriminate|]). constructor.
Qed.

Lemma expected_length evs : (List.length (expected_rules evs) <= 7)%nat.
Proof.
  unfold expected_rules. rewrite List.length_map.
  etransitivity; [apply List.filter_length_le|]. reflexivity.
Qed.

Lemma generate_sorted (rules : list rule) uuids inc evs :
  StronglySorted (desc confidence_key) (generate_hypotheses_with rules uuids inc evs).
Proof.
  unfold generate_hypotheses_with.
  destruct (rules_loop uuids inc rules (_extract_signals evs) 0) as [hs n].
  pose proof (sort_desc_sorted confidence_key hs) as S.
  destruct (Py.sort_desc confidence_key hs); [repeat constructor|exact S].
Qed.

End ShapeFacts.

(** X17. The list of hypotheses is never empty, holds at most seven
    hypotheses, no two of the same rule, in descending order of
    confidence; and the [unknown] hypothesis only ever appears alone. *)
Theorem hypotheses_shape :
  forall (uuids : nat -> string) (inc : string) (evs : list RulesEngine.evidence),
    let hs := RulesEngine.generate_hypotheses uuids inc evs in
    hs <> []
    /\ (List.length hs <= 7)%nat
    /\ List.NoDup (List.map HypothesisDict.rule_id hs)
    /\ StronglySorted
         (fun a b => (default 0 (HypothesisDict.confidence b)
                      <= default 0 (HypothesisDict.confidence a))%Q) hs
    /\ (reports "unknown" hs -> exists h, hs = [h]).
Proof.
  intros uuids inc evs hs.
  pose proof (catalog_rules uuids inc evs) as P. fold hs in P.
  pose proof (expected_nodup evs) as N.
  pose proof (expected_length evs) as L.
  pose proof (expected_not_unknown evs) as U.
  pose proof (Permutation_length P) as Len. rewrite List.length_map in Len.
  split; [|split; [|split; [|split]]].
  - intros E. rewrite E in Len. destruct (expected_rules evs); discriminate Len.
  - destruct (expected_rules evs); simpl in *; lia.
  - apply (Permutation_NoDup (Permutation_sym P)).
    destruct (expected_rules evs); [repeat constructor; simpl; tauto|exact N].
  - apply (sorted_desc_le RulesEngine.confidence_key), generate_sorted.
  - intros R. apply reports_in in R. apply (Permutation_in _ P) in R.
    destruct (expected_rules evs) as [|i r]; [|contradiction].
    destruct hs as [|h [|h2 r2]]; try discriminate Len. by exists h.
Qed.

Lemma hypotheses_shape_witness :
  exists h,
    RulesEngine.generate_hypotheses (fun _ => "uuid") "incident" [quiet_pod] = [h].
Proof.
  apply (proj2 (proj2 (proj2 (proj2
           (hypotheses_shape (fun _ => "uuid") "incident" [quiet_pod]))))).
  eexists. split; [vm_compute; left; reflexivity|reflexivity].
Defined.

(** ** Deduplication *)

Section DedupFacts.
Import Exn Redis AlertDeduplicator.

Lemma append_inj_l (s a b : string) : s +:+ a = s +:+ b -> a = b.
Proof. induction s as [|c s IH]; simpl; [tauto|]. intros [= H]. by apply IH. Qed.

Lemma key_inj fp fp' : key fp = key fp' -> fp = fp'.
Proof. apply append_inj_l. Qed.

Lemma check_duplicate_live now s fp :
  reachable s = true ->
  check_duplicate now s fp
  = match live now s (key fp) with
    | Some e => if String.eqb (value e) "" then (false, None)
                else (true, Some (value e))
    | None => (false, None)
    end.
Proof.
  intros R. unfold check_duplicate, get, connect. rewrite R. simpl.
  destruct (live now s (key fp)) as [e|]; simpl; [|reflexivity].
  by destruct (String.eqb (value e) "").
Qed.

Lemma check_duplicate_unreachable now s fp :
  reachable s = false -> check_duplicate now s fp = (false, None).
Proof. intros R. unfold check_duplicate, get, connect. by rewrite R. Qed.

Lemma live_insert now s k e k' :
  live now (with_keys s (<[ k := e ]> (keys s))) k'
  = if String.eqb k k' then (if expired now e then None else Some e)
    else live now s k'.
Proof.
  unfold live. simpl. destruct (String.eqb_spec k k') as [<-|N].
  - by rewrite lookup_insert_eq.
  - by rewrite lookup_insert_ne.
Qed.

Lemma live_delete now s k k' :
  live now (with_keys s (delete k (keys s))) k'
  = if String.eqb k k' then None else live now s k'.
Proof.
  unfold live. simpl. destruct (String.eqb_spec k k') as [<-|N].
  - by rewrite lookup_delete_eq.
  - by rewrite lookup_delete_ne.
Qed.

Lemma key_eqb fp fp' : String.eqb (key fp) (key fp') = String.eqb fp fp'.
Proof.
  destruct (String.eqb_spec fp fp') as [->|N]; [apply String.eqb_refl|].
  apply String.eqb_neq. intros E. by apply key_inj in E.
Qed.

End DedupFacts.

(** X18. Registering a fingerprint makes it a duplicate until its time
    to live has passed: after a successful registration at time [now]
    with a non-empty incident id, a check at time [t] finds the incident
    exactly while t < now + seconds, where seconds is the whole-second
    part of the given time to live, 14400 (four hours) by default. Other
    fingerprints are not affected. *)
Theorem registered_fingerprint_is_duplicate_until_expiry :
  forall (now : Z) (s : Redis.server) (fingerprint incident_id : string)
         (ttl : option Q),
    Redis.reachable s = true ->
    0 < AlertDeduplicator.ttl_seconds ttl ->
    incident_id <> "" ->
    exists s',
      AlertDeduplicator.register_fingerprint now s fingerprint incident_id ttl
      = (true, s')
      /\ (forall t,
             AlertDeduplicator.check_duplicate t s' fingerprint
             = if t <? now + AlertDeduplicator.ttl_seconds ttl
               then (true, Some incident_id) else (false, None))
      /\ (forall t other,
             other <> fingerprint ->
             AlertDeduplicator.check_duplicate t s' other
             = AlertDeduplicator.check_duplicate t s other)
      /\ AlertDeduplicator.ttl_seconds None = 14400.
Proof.
  intros now s fp id ttl R P N.
  unfold AlertDeduplicator.register_fingerprint, Redis.set_ex, Redis.connect.
  rewrite R, (proj2 (Z.leb_gt _ _) P).
  eexists. split; [reflexivity|]. split; [|split; [|reflexivity]].
  - intros t. rewrite check_duplicate_live by exact R.
    rewrite live_insert, String.eqb_refl. unfold Redis.expired. simpl.
    destruct (Z.leb_spec (now + AlertDeduplicator.ttl_seconds ttl) t) as [H|H];
      destruct (Z.ltb_spec t (now + AlertDeduplicator.ttl_seconds ttl)) as [H'|H'];
      try lia; [reflexivity|].
    simpl. by apply String.eqb_neq in N as ->.
  - intros t other O. rewrite !check_duplicate_live by exact R.
    rewrite live_insert, key_eqb.
    by apply not_eq_sym, String.eqb_neq in O as ->.
Qed.

Lemma registered_fingerprint_is_duplicate_until_expiry_witness :
  exists s',
    AlertDeduplicator.register_fingerprint 1000 empty_redis "0123abcd" "incident-1" None
    = (true, s')
    /\ AlertDeduplicator.check_duplicate 15399 s' "0123abcd" = (true, Some "incident-1")
    /\ AlertDeduplicator.check_duplicate 15400 s' "0123abcd" = (false, None).
Proof.
  destruct (registered_fingerprint_is_duplicate_until_expiry
              1000 empty_redis "0123abcd" "incident-1" None)
    as (s' & E & C & _); [reflexivity|reflexivity|discriminate|].
  exists s'. split; [exact E|]. split; rewrite C; reflexivity.
Defined.

(** X19. The deduplicator fails open and failed registrations leave no
    trace: when Redis cannot be reached a check answers "not a
    duplicate" and a registration returns False with the store
    unchanged; a time to live whose whole-second part is not positive
    (half a second, say) registers nothing either; and an incident
    registered under the empty id is never reported as a duplicate. *)
Theorem deduplicator_fails_open :
  (forall now s fingerprint,
      Redis.reachable s = false ->
      AlertDeduplicator.check_duplicate now s fingerprint = (false, None))
  /\ (forall now s fingerprint incident_id ttl,
         Redis.reachable s = false \/ AlertDeduplicator.ttl_seconds ttl <= 0 ->
         AlertDeduplicator.register_fingerprint now s fingerprint incident_id ttl
         = (false, s))
  /\ AlertDeduplicator.ttl_seconds (Some (1 # 2)%Q) = 0
  /\ (forall now s fingerprint ttl s' t,
         AlertDeduplicator.register_fingerprint now s fingerprint "" ttl = (true, s') ->
         AlertDeduplicator.check_duplicate t s' fingerprint = (false, None)).
Proof.
  split; [intros; by apply check_duplicate_unreachable|].
  split; [|split; [reflexivity|]].
  - intros now s fp id ttl H.
    unfold AlertDeduplicator.register_fingerprint, Redis.set_ex, Redis.connect.
    destruct (Redis.reachable s); [|reflexivity].
    destruct H as [H|H]; [discriminate H|].
    by rewrite (proj2 (Z.leb_le _ _) H).
  - intros now s fp ttl s' t.
    unfold AlertDeduplicator.register_fingerprint, Redis.set_ex, Redis.connect.
    destruct (Redis.reachable s) eqn:R; [|discriminate].
    destruct (AlertDeduplicator.ttl_seconds ttl <=? 0); [discriminate|].
    intros [= <-]. rewrite check_duplicate_live by exact R.
    rewrite live_insert, String.eqb_refl.
    by destruct (Redis.expired t _).
Qed.

Lemma deduplicator_fails_open_witness :
  AlertDeduplicator.register_fingerprint 1000 empty_redis "0123abcd" "incident-1"
    (Some (1 # 2)%Q)
  = (false, empty_redis).
Proof.
  apply (proj1 (proj2 deduplicator_fails_open)). right. vm_compute. discriminate.
Defined.

(** X20. Removing and extending: after a removal the fingerprint is no
    duplicate any more; an extension succeeds exactly when the
    fingerprint is still registered (and Redis reachable), and it then
    restarts the clock: the fingerprint stays a duplicate until
    now + seconds, whatever its remaining time was. A non-positive
    extension deletes the fingerprint and still reports success. *)
Theorem remove_and_extend_fingerprint :
  forall (now : Z) (s : Redis.server) (fingerprint : string) (ttl : option Q),
    Redis.reachable s = true ->
    let seconds := AlertDeduplicator.ttl_seconds ttl in
    (exists s',
        AlertDeduplicator.remove_fingerprint s fingerprint = (true, s')
        /\ forall t, AlertDeduplicator.check_duplicate t s' fingerprint = (false, None))
    /\ (Redis.live now s (AlertDeduplicator.key fingerprint) = None ->
        AlertDeduplicator.extend_fingerprint now s fingerprint ttl = (false, s))
    /\ (forall e,
           Redis.live now s (AlertDeduplicator.key fingerprint) = Some e ->
           exists s',
             AlertDeduplicator.extend_fingerprint now s fingerprint ttl = (true, s')
             /\ forall t,
                  AlertDeduplicator.check_duplicate t s' fingerprint
                  = if (t <? now + seconds) && (0 <? seconds)
                       && negb (String.eqb (Redis.value e) "")
                    then (true, Some (Redis.value e)) else (false, None)).
Proof.
  intros now s fp ttl R seconds. split; [|split].
  - unfold AlertDeduplicator.remove_fingerprint, Redis.del, Redis.connect. rewrite R.
    eexists. split; [reflexivity|]. intros t.
    rewrite check_duplicate_live by exact R.
    by rewrite live_delete, String.eqb_refl.
  - intros L. unfold AlertDeduplicator.extend_fingerprint, Redis.exists_, Redis.connect.
    by rewrite R, L.
  - intros e L.
    unfold AlertDeduplicator.extend_fingerprint, Redis.exists_, Redis.expire,
      Redis.connect, Redis.expire_keys.
    rewrite R, L. fold seconds. eexists. split; [reflexivity|]. intros t.
    rewrite check_duplicate_live by (by destruct (seconds <=? 0)).
    destruct (Z.leb_spec seconds 0) as [H|H].
    + rewrite live_delete, String.eqb_refl.
      rewrite (proj2 (Z.ltb_ge 0 seconds)) by lia. by rewrite andb_false_r.
    + rewrite live_insert, String.eqb_refl. unfold Redis.expired. simpl.
      rewrite (proj2 (Z.ltb_lt 0 seconds)) by lia. rewrite andb_true_r.
      destruct (Z.leb_spec (now + seconds) t) as [H1|H1];
        destruct (Z.ltb_spec t (now + seconds)) as [H2|H2]; try lia;
        [reflexivity|].
      simpl. by destruct (String.eqb (Redis.value e) "").
Qed.

Lemma remove_and_extend_fingerprint_witness :
  AlertDeduplicator.extend_fingerprint 0 empty_redis "0123abcd" None
  = (false, empty_redis).
Proof.
  apply (proj1 (proj2 (remove_and_extend_fingerprint 0 empty_redis "0123abcd" None
                         eq_refl))).
  reflexivity.
Defined.

(** ** Rate limiting *)

Section RateFacts.
Import Exn Redis RateLimiter.

Lemma to_int_not_nil (n : Z) :
  Z.to_int n <> Decimal.Pos Decimal.Nil /\ Z.to_int n <> Decimal.Neg Decimal.Nil.
Proof.
  destruct n as [|p|p]; simpl; split; try discriminate;
    intros [= H]; by apply (Unsigned.to_uint_nonnil p).
Qed.

Lemma int_of_text_of_int (n : Z) :
  - 2 ^ 63 <= n <= 2 ^ 63 - 1 -> int_of_text (text_of_int n) = Some n.
Proof.
  intros [H1 H2]. unfold int_of_text, text_of_int.
  destruct (to_int_not_nil n) as [N1 N2].
  rewrite (NilZero.isi _ N1 N2). cbv zeta. rewrite DecimalZ.of_to, String.eqb_refl.
  rewrite (proj2 (Z.leb_le _ _) H1), (proj2 (Z.leb_le _ _) H2). reflexivity.
Qed.

(** One request when the counter is absent or has expired. *)
Lemma first_request now s key limit window :
  reachable s = true -> 0 < window ->
  live now s (rate_key key) = None ->
  check_rate_limit now s key limit window
  = (rate_answer limit 1,
     with_keys s (<[ rate_key key := Entry "1" (Some (now + window)) ]> (keys s))).
Proof.
  intros R W L. unfold check_rate_limit, incr_expire, incr_keys. rewrite R, L.
  unfold expire_keys. rewrite live_insert, String.eqb_refl. simpl.
  rewrite (proj2 (Z.leb_gt _ _) W). simpl.
  by rewrite insert_insert_eq.
Qed.

(** One request while the counter is alive. *)
Lemma next_request now s key limit window c e :
  reachable s = true -> 0 < window ->
  keys s !! rate_key key = Some (Entry (text_of_int c) (Some e)) ->
  now < e -> 0 <= c < 2 ^ 63 - 1 ->
  check_rate_limit now s key limit window
  = (rate_answer limit (c + 1),
     with_keys s (<[ rate_key key := Entry (text_of_int (c + 1)) (Some (now + window)) ]>
                    (keys s))).
Proof.
  intros R W K E C. unfold check_rate_limit, incr_expire, incr_keys.
  assert (L : live now s (rate_key key) = Some (Entry (text_of_int c) (Some e))).
  { unfold live. rewrite K. unfold expired. simpl.
    by rewrite (proj2 (Z.leb_gt _ _) E). }
  rewrite R, L. simpl. rewrite int_of_text_of_int by lia.
  rewrite (proj2 (Z.eqb_neq c (2 ^ 63 - 1))) by lia.
  unfold expire_keys. rewrite live_insert, String.eqb_refl. unfold expired. simpl.
  rewrite (proj2 (Z.leb_gt e now)) by lia.
  rewrite (proj2 (Z.leb_gt _ _) W). simpl.
  by rewrite insert_insert_eq.
Qed.

Lemma burst_from times : forall s key limit window c prev,
  reachable s = true -> 0 < window ->
  keys s !! rate_key key = Some (Entry (text_of_int c) (Some (prev + window))) ->
  0 <= c -> c + Z.of_nat (List.length times) <= 2 ^ 63 - 1 ->
  within_window window prev times = true ->
  (rate_limited_requests times s key limit window).1
  = List.map (fun k => rate_answer limit (c + Z.of_nat k))
      (List.seq 1 (List.length times)).
Proof.
  induction times as [|t rest IH]; intros s key limit window c prev R W K C B G;
    [reflexivity|].
  cbn [within_window] in G. apply andb_true_iff in G. destruct G as [G G3].
  apply andb_true_iff in G. destruct G as [G1 G2].
  apply Z.leb_le in G1. apply Z.ltb_lt in G2.
  cbn [List.length] in B.
  cbn [rate_limited_requests].
  rewrite (next_request t s key limit window c (prev + window) R W K G2) by lia.
  specialize (IH (with_keys s (<[ rate_key key
                                  := Entry (text_of_int (c + 1)) (Some (t + window)) ]>
                                 (keys s)))
                key limit window (c + 1) t R W).
  destruct (rate_limited_requests rest _ key limit window) as [rs s2].
  cbn [fst List.length List.seq List.map]. f_equal.
  simpl in IH. rewrite IH; [|apply lookup_insert_eq|lia|lia|exact G3].
  rewrite <- (List.seq_shift (List.length rest) 1), List.map_map. apply List.map_ext.
  intros k. f_equal. lia.
Qed.

End RateFacts.

(** X21. The rate limit counts a run of requests, not a fixed window:
    every request pushes the expiry of the counter [window_seconds]
    ahead, so as long as each request follows the one before within the
    window, the k-th request is answered with allowed = (k <= limit) and
    remaining = max(0, limit - k), however long the run lasts. Only a
    pause of a full window lets the count start again at one. *)
Theorem rate_limit_counts_the_run :
  forall (t0 : Z) (times : list Z) (s : Redis.server) (key : string)
         (limit window_seconds : Z),
    Redis.reachable s = true ->
    0 < window_seconds ->
    Redis.live t0 s (RateLimiter.rate_key key) = None ->
    within_window window_seconds t0 times = true ->
    Z.of_nat (List.length times) < 2 ^ 63 - 1 ->
    (rate_limited_requests (t0 :: times) s key limit window_seconds).1
    = List.map (fun k => rate_answer limit (Z.of_nat k))
        (List.seq 1 (S (List.length times))).
Proof.
  intros t0 times s key limit w R W L G B.
  cbn [rate_limited_requests].
  rewrite (first_request t0 s key limit w R W L).
  pose proof (burst_from times
                (Redis.with_keys s
                   (<[ RateLimiter.rate_key key := Redis.Entry "1" (Some (t0 + w)) ]>
                      (Redis.keys s)))
                key limit w 1 t0 R W) as H.
  destruct (rate_limited_requests times _ key limit w) as [rs s2].
  cbn [fst List.seq List.map]. f_equal.
  simpl in H. rewrite H; [|apply lookup_insert_eq|lia|lia|exact G].
  rewrite <- (List.seq_shift (List.length times) 1), List.map_map. apply List.map_ext.
  intros k. f_equal. lia.
Qed.

Lemma rate_limit_counts_the_run_witness :
  (rate_limited_requests [0; 59; 118; 177] empty_redis "10.0.0.1" 3 60).1
  = [(true, 2); (true, 1); (true, 0); (false, 0)].
Proof.
  apply (rate_limit_counts_the_run 0 [59; 118; 177] empty_redis "10.0.0.1" 3 60);
    reflexivity.
Defined.

(** X22. The rate limiter fails open: when Redis cannot be reached every
    request is allowed with the full limit remaining, and the store is
    left as it was; and with a non-positive window the counter is
    deleted by each request, so every request counts as the first. *)
Theorem rate_limit_fails_open :
  (forall now s key limit window_seconds,
      Redis.reachable s = false ->
      RateLimiter.check_rate_limit now s key limit window_seconds
      = ((true, limit), s))
  /\ (forall now s key limit window_seconds,
         Redis.reachable s = true -> window_seconds <= 0 ->
         Redis.live now s (RateLimiter.rate_key key) = None ->
         exists s',
           RateLimiter.check_rate_limit now s key limit window_seconds
           = (rate_answer limit 1, s')
           /\ forall t, Redis.live t s' (RateLimiter.rate_key key) = None).
Proof.
  split.
  - intros now s key limit w R.
    unfold RateLimiter.check_rate_limit, Redis.incr_expire. by rewrite R.
  - intros now s key limit w R W L.
    unfold RateLimiter.check_rate_limit, Redis.incr_expire, Redis.incr_keys.
    rewrite R, L. eexists. split; [reflexivity|]. intros t.
    unfold Redis.expire_keys. rewrite live_insert, String.eqb_refl. simpl.
    rewrite (proj2 (Z.leb_le _ _) W).
    unfold Redis.live. simpl. by rewrite lookup_delete_eq.
Qed.

Lemma rate_limit_fails_open_witness :
  RateLimiter.check_rate_limit 0 (Redis.Server false ∅) "10.0.0.1" 3 60
  = ((true, 3), Redis.Server false ∅).
Proof. apply (proj1 rate_limit_fails_open). reflexivity. Defined.

(** ** The webhook *)

Section WebhookFacts.
Import Exn Ingestion.

Lemma create_incident_ok uuid db d :
  (String.length (Normalizer.title d) <= 500)%nat ->
  refuses db (Incident uuid d) = None ->
  create_incident uuid db d
  = Return (Incident uuid d, Database (rows db ++ [Incident uuid d]) (refuses db)).
Proof.
  intros T R. unfold create_incident.
  rewrite (proj2 (Nat.ltb_ge _ _)) by exact T. by rewrite R.
Qed.

Lemma process_alerts_app uuids now redis payload pre rest :
  forall db incidents,
    (forall a uuid,
        In a pre -> is_new_firing now redis payload a = true ->
        (String.length (Normalizer.title (normalized payload a)) <= 500)%nat
        /\ refuses db (Incident uuid (normalized payload a)) = None) ->
    exists created,
      process_alerts uuids now redis payload (pre ++ rest) db incidents
      = process_alerts uuids now redis payload rest
          (Database (rows db ++ created) (refuses db)) (incidents ++ created)
      /\ List.map data created
         = List.map (normalized payload)
             (List.filter (is_new_firing now redis payload) pre).
Proof.
  induction pre as [|a pre IH]; intros db incidents H.
  - exists []. simpl. rewrite !app_nil_r. by destruct db.
  - cbn [process_alerts List.filter app]. unfold is_new_firing at 1.
    destruct (bool_decide (status a = Some "firing")) eqn:F; cbn [negb andb].
    2:{ apply IH. intros a' uuid Hin. apply H. by right. }
    fold (normalized payload a).
    destruct (AlertDeduplicator.check_duplicate now redis
                (Normalizer.fingerprint (normalized payload a)))
      as [dup existing] eqn:C.
    cbn [fst negb]. destruct dup; cbn [negb].
    { apply IH. intros a' uuid Hin. apply H. by right. }
    assert (N : is_new_firing now redis payload a = true).
    { unfold is_new_firing. fold (normalized payload a). by rewrite F, C. }
    destruct (H a (uuids (List.length (rows db))) (or_introl eq_refl) N) as [T R].
    rewrite (create_incident_ok _ db _ T R).
    destruct (IH (Database (rows db ++ [Incident (uuids (List.length (rows db)))
                                          (normalized payload a)])
                    (refuses db))
                (incidents ++ [Incident (uuids (List.length (rows db)))
                                 (normalized payload a)]))
      as (created & E & M).
    { intros a' uuid Hin. apply H. by right. }
    exists (Incident (uuids (List.length (rows db))) (normalized payload a) :: created).
    rewrite E. simpl. rewrite <- !app_assoc. simpl. split; [reflexivity|].
    by rewrite M.
Qed.

Lemma process_alerts_ok uuids now redis payload alerts :
  forall db incidents,
    (forall a uuid,
        In a alerts -> is_new_firing now redis payload a = true ->
        (String.length (Normalizer.title (normalized payload a)) <= 500)%nat
        /\ refuses db (Incident uuid (normalized payload a)) = None) ->
    exists created,
      process_alerts uuids now redis payload alerts db incidents
      = (Database (rows db ++ created) (refuses db), Return (incidents ++ created))
      /\ List.map data created
         = List.map (normalized payload)
             (List.filter (is_new_firing now redis payload) alerts).
Proof.
  intros db incidents H.
  destruct (process_alerts_app uuids now redis payload alerts [] db incidents H)
    as (created & E & M).
  exists created. rewrite app_nil_r in E. by rewrite E.
Qed.

End WebhookFacts.

(** X23. The webhook stores one incident for every alert of the payload
    that is firing and whose fingerprint the store does not hold at that
    moment, in payload order, and reports their number. It never writes
    a fingerprint itself: alerts of the same payload are not compared
    with each other, so the same firing alert twice in a payload, with
    an empty store, gives two incidents with the same fingerprint. *)
Theorem webhook_stores_every_new_firing_alert :
  forall (uuids : nat -> string) (now : Z) (redis : Redis.server)
         (payload : Normalizer.payload) (alerts : list Ingestion.raw_alert)
         (db : Ingestion.database),
    (forall a uuid,
        In a alerts -> is_new_firing now redis payload a = true ->
        (String.length
           (Normalizer.title
              (Normalizer.normalize_alertmanager (Ingestion.body a) payload))
         <= 500)%nat
        /\ Ingestion.refuses db
             (Ingestion.Incident uuid
                (Normalizer.normalize_alertmanager (Ingestion.body a) payload))
           = None) ->
    let news := List.filter (is_new_firing now redis payload) alerts in
    exists created,
      Ingestion.alertmanager_webhook uuids now redis payload alerts db
      = (Ingestion.Database (Ingestion.rows db ++ created) (Ingestion.refuses db),
         Ingestion.Accepted (Z.of_nat (List.length news))
           (List.map Ingestion.id created))
      /\ List.map Ingestion.data created
         = List.map (fun a => Normalizer.normalize_alertmanager (Ingestion.body a) payload)
             news.
Proof.
  intros uuids now redis payload alerts db H news.
  destruct (process_alerts_ok uuids now redis payload alerts db [] H)
    as (created & E & M).
  exists created. unfold Ingestion.alertmanager_webhook. rewrite E. simpl.
  split; [|exact M].
  do 2 f_equal. apply (f_equal (@List.length _)) in M.
  rewrite !List.length_map in M. by rewrite M.
Qed.

Lemma webhook_stores_every_new_firing_alert_witness :
  exists created,
    Ingestion.alertmanager_webhook (fun k => "uuid") 0 empty_redis empty_payload
      firing_twice empty_database
    = (Ingestion.Database ([] ++ created) (fun _ => None),
       Ingestion.Accepted 2 (List.map Ingestion.id created))
    /\ List.map (fun i => Normalizer.fingerprint (Ingestion.data i)) created
       = [ Normalizer.fingerprint
             (Normalizer.normalize_alertmanager (checkout_alert "checkout-1")
                empty_payload);
           Normalizer.fingerprint
             (Normalizer.normalize_alertmanager (checkout_alert "checkout-1")
                empty_payload) ].
Proof.
  destruct (webhook_stores_every_new_firing_alert (fun k => "uuid") 0 empty_redis
              empty_payload firing_twice empty_database)
    as (created & E & M).
  - intros a uuid Hin _. split; [|reflexivity].
    destruct Hin as [<-|[<-|[]]]; vm_compute; lia.
  - exists created. split; [exact E|].
    rewrite <- (List.map_map Ingestion.data Normalizer.fingerprint), M.
    reflexivity.
Defined.

(** X24. A failure in the middle of a payload is not undone: when the
    incident of one alert cannot be created (here: its title exceeds the
    500 characters the incident model admits) the webhook answers with
    status 500, the incidents of the alerts before it stay stored, and
    the alerts after it are not looked at. *)
Theorem webhook_failure_keeps_earlier_incidents :
  forall (uuids : nat -> string) (now : Z) (redis : Redis.server)
         (payload : Normalizer.payload) (pre post : list Ingestion.raw_alert)
         (a : Ingestion.raw_alert) (db : Ingestion.database),
    (forall a' uuid,
        In a' pre -> is_new_firing now redis payload a' = true ->
        (String.length (Normalizer.title (normalized payload a')) <= 500)%nat
        /\ Ingestion.refuses db (Ingestion.Incident uuid (normalized payload a')) = None) ->
    is_new_firing now redis payload a = true ->
    (500 < String.length (Normalizer.title (normalized payload a)))%nat ->
    exists created,
      Ingestion.alertmanager_webhook uuids now redis payload (pre ++ a :: post) db
      = (Ingestion.Database (Ingestion.rows db ++ created) (Ingestion.refuses db),
         Ingestion.HTTPException 500 "1 validation error for Incident")
      /\ List.map Ingestion.data created
         = List.map (normalized payload)
             (List.filter (is_new_firing now redis payload) pre).
Proof.
  intros uuids now redis payload pre post a db H N T.
  destruct (process_alerts_app uuids now redis payload pre (a :: post) db [] H)
    as (created & E & M).
  exists created. unfold Ingestion.alertmanager_webhook. rewrite E.
  split; [|exact M].
  cbn [Ingestion.process_alerts].
  unfold is_new_firing in N. apply andb_true_iff in N. destruct N as [N1 N2].
  rewrite N1. cbn [negb]. fold (normalized payload a). fold (normalized payload a) in N2.
  destruct (AlertDeduplicator.check_duplicate now redis
              (Normalizer.fingerprint (normalized payload a))) as [dup existing].
  simpl in N2. apply negb_true_iff in N2. subst dup.
  unfold Ingestion.create_incident.
  by rewrite (proj2 (Nat.ltb_lt _ _) T).
Qed.

Lemma webhook_failure_keeps_earlier_incidents_witness :
  exists created,
    Ingestion.alertmanager_webhook (fun k => "uuid") 0 empty_redis empty_payload
      (firing_twice ++ long_named_alert :: firing_twice) empty_database
    = (Ingestion.Database ([] ++ created) (fun _ => None),
       Ingestion.HTTPException 500 "1 validation error for Incident")
    /\ List.length created = 2%nat.
Proof.
  destruct (webhook_failure_keeps_earlier_incidents (fun k => "uuid") 0 empty_redis
              empty_payload firing_twice firing_twice long_named_alert empty_database)
    as (created & E & M).
  - intros a uuid Hin _. split; [|reflexivity].
    destruct Hin as [<-|[<-|[]]]; vm_compute; lia.
  - vm_compute. reflexivity.
  - vm_compute. lia.
  - exists created. split; [exact E|].
    apply (f_equal (@List.length _)) in M. rewrite !List.length_map in M.
    rewrite M. reflexivity.
Defined.
